(** * Mileage Tracker Pro dashboard: connection layer and metric helpers

    A shallow embedding of the parts of [supabase_client.py], [utils.py]
    and [dashboard.py] that carry computation: the rate limiter, the
    connection pool health check, the singleton manager with its retry
    loop and query counters, and the pure metric helpers.

    Conventions of the embedding.
    - Python [int] is [Z]. A Python [float] is kept as its exact value, a
      rational ([Q]); equality of floats is [Qeq] ([==]). Where the
      outcome of a computation depends on rounding (the engagement score,
      the formatting of durations) every float operation rounds its exact
      result to the nearest double with [fl], and infinities and NaN are
      values of [num]; elsewhere (clock readings, rates, prices) floats
      are taken as exact.
    - Wall-clock instants ([time.time()], [datetime.now()],
      [pd.Timestamp.now()]) are rationals counted in seconds; time zones
      are not modelled.
    - A Python call that may raise returns a [py_result]; only exceptions
      derived from [Exception] are modelled.
    - Logging and Streamlit's display and cache calls are left out. *)

From Stdlib Require Import ZArith QArith Qround Qminmax Qabs Qpower Lqa Lia List Bool.
From stdpp Require Import gmap strings pretty.
Import ListNotations.

Open Scope Q_scope.

(** ** Python values shared by the modules *)

(** Outcome of a Python call: a returned value or a raised [Exception]. *)
Inductive py_result (V E : Type) : Type :=
| Returned (v : V)
| Raised (e : E).
Arguments Returned {V E} v.
Arguments Raised {V E} e.

(** [x < y] on floats, as a boolean. *)
Definition Qlt_bool (x y : Q) : bool := negb (Qle_bool y x).

(** [round(x)] of Python on an exact value: nearest integer, ties to the
    even one. *)
Definition round_half_even (x : Q) : Z :=
  let f := Qfloor x in
  let r := x - inject_Z f in
  if Qlt_bool r (1 # 2) then f
  else if Qlt_bool (1 # 2) r then (f + 1)%Z
  else if Z.even f then f else (f + 1)%Z.

(** [round(x, 1)]: one decimal place. *)
Definition py_round1 (x : Q) : Q := inject_Z (round_half_even (x * 10)) / 10.

(** ** The outside world

    What the code observes and cannot control: the system clock, the
    process environment, and the backend. Each nondeterministic answer is
    read from a tape held in the world, so that a run is a function of its
    initial world. *)

(** Exceptions that travel through the modelled code. *)
Inductive exn : Type :=
| ZeroDivisionError
| IndexError
| ImportError
| AttributeError
| ValueError (msg : string)
| TypeError
| OverflowError
| Exception (msg : string)
| BackendError (code : Z).

(** ** Binary floating point

    A finite Python float is an IEEE 754 double; the model keeps its exact
    value. [fl x] is the double nearest to [x] (ties to the even
    mantissa), with the exponent left unbounded above: overflow is decided
    by the operation that rounds. *)

(** A float, or a cell of a numeric column: a finite value, an infinity,
    or NaN. *)
Inductive num : Type :=
| Fin (q : Q)
| PosInf
| NegInf
| NaN.

Definition pow2 (e : Z) : Q := 2 ^ e.

(** The exponent of the binade of [x > 0]: [2^e <= x < 2^(e+1)]. *)
Definition ilog2 (x : Q) : Z :=
  let e0 := (Z.log2 (Qnum x) - Z.log2 (Zpos (Qden x)))%Z in
  if Qle_bool (pow2 e0) x then e0 else (e0 - 1)%Z.

(** The doubles around [x] are the multiples of [2^(ulp_exp x)]: 53
    significant bits, and multiples of [2^-1074] in the subnormal range. *)
Definition ulp_exp (x : Q) : Z := Z.max (ilog2 (Qabs x) - 52) (-1074).

Definition fl (x : Q) : Q :=
  if Qeq_bool x 0 then 0
  else inject_Z (round_half_even (x / pow2 (ulp_exp x))) * pow2 (ulp_exp x).

(** The result of a float operation whose exact value is [x]: the nearest
    double, or an infinity when that lies beyond the largest double. *)
Definition fround (x : Q) : num :=
  let y := fl x in
  if Qle_bool (pow2 1024) y then PosInf
  else if Qle_bool y (- pow2 1024) then NegInf
  else Fin y.

(** [a / b] on two ints: the nearest double to the exact quotient. *)
Definition int_truediv (a b : Z) : py_result Q exn :=
  if (b =? 0)%Z then Raised ZeroDivisionError
  else
    let y := fl (inject_Z a / inject_Z b) in
    if Qle_bool (pow2 1024) (Qabs y) then Raised OverflowError
    else Returned y.

(** [x * c] and [x / c] for a float [x] and a positive int constant [c]. *)
Definition fmul_const (x : num) (c : Q) : num :=
  match x with
  | Fin q => fround (q * c)
  | _ => x
  end.

Definition fdiv_const (x : num) (c : Q) : num :=
  match x with
  | Fin q => fround (q / c)
  | _ => x
  end.

(** [x + y] on floats. *)
Definition fadd (x y : num) : num :=
  match x, y with
  | Fin a, Fin b => fround (a + b)
  | NaN, _ | _, NaN => NaN
  | PosInf, NegInf | NegInf, PosInf => NaN
  | PosInf, _ | _, PosInf => PosInf
  | NegInf, _ | _, NegInf => NegInf
  end.

(** [min(x, 1)]: [1] when [1 < x], else [x]. *)
Definition min_1 (x : num) : num :=
  match x with
  | Fin q => if Qlt_bool 1 q then Fin 1 else Fin q
  | PosInf => Fin 1
  | NegInf => NegInf
  | NaN => NaN
  end.

(** [max(0, x)]: [x] when [x > 0], else [0]. *)
Definition max_0 (x : num) : num :=
  match x with
  | Fin q => if Qlt_bool 0 q then Fin q else Fin 0
  | PosInf => PosInf
  | NegInf => Fin 0
  | NaN => Fin 0
  end.

(** [round(x, 1)] on a float: the double nearest to the one-decimal
    rounding of the exact value of [x]. *)
Definition round_1 (x : num) : num :=
  match x with
  | Fin q => Fin (fl (py_round1 q))
  | _ => x
  end.

(** The statement that called [time.sleep]; recorded with each sleep so
    that a trace can be read back. *)
Inductive sleep_site : Type :=
| RateLimitSleep
| RetrySleep
| ConnectSleep.

(** An object handed to [ConnectionPool]: an instance of supabase's
    [Client], or any other Python object. *)
Inductive client_obj : Type :=
| ClientInstance (url key : string)
| NotAClient.

Record World : Type := {
  w_time : Q;                        (* the clock is at least this late *)
  w_jitter : list Q;                 (* extra delay seen by each clock read *)
  w_sleeps : list (sleep_site * Q);  (* every time.sleep so far, oldest first *)
  w_environ : gmap string string;    (* os.environ *)
  w_create_client : list (py_result client_obj exn);
                                     (* outcomes of create_client calls *)
  w_import_error : option exn;       (* raised by the import in the health check *)
  w_probe : list (py_result unit exn)
                                     (* outcomes of the profiles probe query *)
}.

Definition set_clock (t : Q) (j : list Q) (w : World) : World :=
  {| w_time := t; w_jitter := j; w_sleeps := w_sleeps w;
     w_environ := w_environ w; w_create_client := w_create_client w;
     w_import_error := w_import_error w; w_probe := w_probe w |}.

(** [time.time()] (and [datetime.now()]): the clock never runs backwards
    as long as the jitter is nonnegative. *)
Definition time_time (w : World) : Q * World :=
  match w_jitter w with
  | [] => (w_time w, w)
  | j :: js => (w_time w + j, set_clock (w_time w + j) js w)
  end.

(** [time.sleep(d)]: at least [d] seconds pass. *)
Definition time_sleep (site : sleep_site) (d : Q) (w : World) : World :=
  {| w_time := w_time w + d; w_jitter := w_jitter w;
     w_sleeps := w_sleeps w ++ [(site, d)];
     w_environ := w_environ w; w_create_client := w_create_client w;
     w_import_error := w_import_error w; w_probe := w_probe w |}.

(** A world at instant 0 where nothing is set and no time passes between
    clock reads. *)
Definition still_world : World :=
  {| w_time := 0; w_jitter := []; w_sleeps := []; w_environ := ∅;
     w_create_client := []; w_import_error := None; w_probe := [] |}.


(** The clock never runs backwards. *)
Definition clock_ok (w : World) : Prop :=
  Forall (fun j => 0 <= j) (w_jitter w).


(** A list length read as a float, as in [len(...) >= calls_per_second]. *)
Definition nQ (n : nat) : Q := inject_Z (Z.of_nat n).

(** ** supabase_client.py *)

(** [class Environment(Enum)] and [class ConnectionStatus(Enum)]. *)
Inductive Environment : Type :=
| PRODUCTION
| STAGING
| DEVELOPMENT
| TESTING.

Inductive ConnectionStatus : Type :=
| CONNECTED
| DISCONNECTED
| CONNECTING
| ERROR.

Definition Environment_value (e : Environment) : string :=
  match e with
  | PRODUCTION => "production"
  | STAGING => "staging"
  | DEVELOPMENT => "development"
  | TESTING => "testing"
  end.

(** [Environment(name)]: lookup by value; [None] stands for the
    [ValueError] of an unknown name. *)
Definition Environment_of_value (name : string) : option Environment :=
  if String.eqb name "production" then Some PRODUCTION
  else if String.eqb name "staging" then Some STAGING
  else if String.eqb name "development" then Some DEVELOPMENT
  else if String.eqb name "testing" then Some TESTING
  else None.

Definition ConnectionStatus_eqb (a b : ConnectionStatus) : bool :=
  match a, b with
  | CONNECTED, CONNECTED | DISCONNECTED, DISCONNECTED
  | CONNECTING, CONNECTING | ERROR, ERROR => true
  | _, _ => false
  end.

Module SupabaseConfig.

(** The dictionary returned by [get_config]; [url] and [key] are what
    [os.getenv] gave. *)
Record t : Type := {
  url : option string;
  key : option string;
  timeout : Z;
  max_retries : Z
}.

(** [os.getenv(name)] and [os.getenv(name, default)]. *)
Definition getenv (environ : gmap string string) (name : string)
  : option string := environ !! name.

Definition getenv_or (environ : gmap string string) (name : string)
    (default : option string) : option string :=
  match environ !! name with
  | Some v => Some v
  | None => default
  end.

(** Truth value of an [Optional[str]]: [None] and the empty string are
    false. *)
Definition truthy (v : option string) : bool :=
  match v with
  | None => false
  | Some v => negb (String.eqb v "")
  end.

Definition configs (environ : gmap string string) (env : Environment) : t :=
  match env with
  | PRODUCTION =>
      {| url := getenv environ "SUPABASE_URL";
         key := getenv environ "SUPABASE_KEY";
         timeout := 30; max_retries := 3 |}
  | STAGING =>
      {| url := getenv_or environ "STAGING_SUPABASE_URL"
                  (getenv environ "SUPABASE_URL");
         key := getenv_or environ "STAGING_SUPABASE_KEY"
                  (getenv environ "SUPABASE_KEY");
         timeout := 30; max_retries := 3 |}
  | DEVELOPMENT =>
      {| url := getenv_or environ "DEV_SUPABASE_URL"
                  (getenv environ "SUPABASE_URL");
         key := getenv_or environ "DEV_SUPABASE_KEY"
                  (getenv environ "SUPABASE_KEY");
         timeout := 60; max_retries := 5 |}
  | TESTING =>
      {| url := getenv_or environ "TEST_SUPABASE_URL"
                  (Some "https://test.supabase.co");
         key := getenv_or environ "TEST_SUPABASE_KEY" (Some "test_key");
         timeout := 10; max_retries := 1 |}
  end.

(** [SupabaseConfig.get_config]. *)
Definition get_config (env : Environment) (w : World) : py_result t exn :=
  let config := configs (w_environ w) env in
  if negb (truthy (url config)) || negb (truthy (key config)) then
    Raised (ValueError ("Missing Supabase credentials for "
                        ++ Environment_value env ++ " environment"))
  else Returned config.

End SupabaseConfig.

Module RateLimiter.

Record t : Type := {
  calls_per_second : Q;
  min_interval : Q;
  last_call : Q;
  call_times : list Q
}.

(** The attributes set by [RateLimiter.__init__]. *)
Definition fresh (cps : Q) : t :=
  {| calls_per_second := cps; min_interval := 1 / cps;
     last_call := 0; call_times := [] |}.

(** [RateLimiter.__init__]; [1.0 / 0] raises. *)
Definition init (cps : Q) : py_result t exn :=
  if Qeq_bool cps 0 then Raised ZeroDivisionError
  else Returned (fresh cps).

Definition record_call (current_time : Q) (kept : list Q) (self : t) : t :=
  {| calls_per_second := calls_per_second self;
     min_interval := min_interval self;
     last_call := current_time;
     call_times := kept ++ [current_time] |}.

(** The comprehension [[t for t in self.call_times if current_time - t < 1.0]]. *)
Definition recent (current_time : Q) (times : list Q) : list Q :=
  List.filter (fun t => Qlt_bool (current_time - t) 1) times.

(** [RateLimiter.wait_if_needed]. The filtered list is stored before
    [call_times[0]] is read, so an [IndexError] leaves it filtered. *)
Definition wait_if_needed (self : t) (w : World)
  : py_result unit exn * t * World :=
  let '(current_time, w) := time_time w in
  let kept := recent current_time (call_times self) in
  if Qle_bool (calls_per_second self) (nQ (length kept)) then
    match kept with
    | [] =>
        (Raised IndexError,
         {| calls_per_second := calls_per_second self;
            min_interval := min_interval self;
            last_call := last_call self; call_times := kept |}, w)
    | t0 :: _ =>
        let sleep_time := 1 - (current_time - t0) in
        if Qlt_bool 0 sleep_time then
          let w := time_sleep RateLimitSleep sleep_time w in
          let '(current_time, w) := time_time w in
          (Returned tt, record_call current_time kept self, w)
        else (Returned tt, record_call current_time kept self, w)
    end
  else (Returned tt, record_call current_time kept self, w).

(** [n] calls in a row; the third component collects the admission time
    of each call that returned, oldest first. *)
Fixpoint calls (n : nat) (self : t) (w : World) (history : list Q)
  : t * World * list Q :=
  match n with
  | O => (self, w, history)
  | S n' =>
      let '(r, self', w') := wait_if_needed self w in
      match r with
      | Returned _ => calls n' self' w' (history ++ [last_call self'])
      | Raised _ => calls n' self' w' history
      end
  end.





End RateLimiter.

Module ConnectionPool.

Record t : Type := {
  client : client_obj;
  status : ConnectionStatus;
  last_health_check : option Q;
  failed_attempts : Z;
  max_failed_attempts : Z;
  health_check_interval : Q
}.

(** [ConnectionPool.__init__]; [timedelta(minutes=5)] is 300 seconds. *)
Definition init (c : client_obj) : t :=
  {| client := c; status := DISCONNECTED; last_health_check := None;
     failed_attempts := 0; max_failed_attempts := 5;
     health_check_interval := 300 |}.

Definition set_health (st : ConnectionStatus) (failed : Z)
    (last : option Q) (self : t) : t :=
  {| client := client self; status := st; last_health_check := last;
     failed_attempts := failed;
     max_failed_attempts := max_failed_attempts self;
     health_check_interval := health_check_interval self |}.

(** [isinstance(self.client, SupabaseClient)]. *)
Definition isinstance_Client (c : client_obj) : bool :=
  match c with
  | ClientInstance _ _ => true
  | NotAClient => false
  end.

(** The probe [self.client.table('profiles').select('id').limit(1).execute()]:
    its outcome is read from the tape. *)
Definition probe_profiles (w : World) : py_result unit exn * World :=
  match w_probe w with
  | [] => (Returned tt, w)
  | r :: rest =>
      (r, {| w_time := w_time w; w_jitter := w_jitter w;
             w_sleeps := w_sleeps w; w_environ := w_environ w;
             w_create_client := w_create_client w;
             w_import_error := w_import_error w; w_probe := rest |})
  end.

(** The [try] block of [perform_health_check]. The value is what the
    block returns: [Some b] for [return b], [None] when control falls off
    the end of the function. The inner [try]/[except] around the probe
    only writes to the log in either branch. *)
Definition health_check_body (self : t) (w : World)
  : py_result (option bool) exn * t * World :=
  match w_import_error w with
  | Some e => (Raised e, self, w)
  | None =>
      if isinstance_Client (client self) then
        let self := set_health CONNECTED 0 (last_health_check self) self in
        let '(now, w) := time_time w in
        let self := set_health (status self) (failed_attempts self)
                      (Some now) self in
        let w := match probe_profiles w with
                 | (Returned _, w) => w
                 | (Raised _, w) => w
                 end in
        (Returned (Some true), self, w)
      else (Returned None, self, w)
  end.

(** [ConnectionPool.perform_health_check]: the body under its
    [except Exception] handler. *)
Definition perform_health_check (self : t) (w : World)
  : option bool * t * World :=
  match health_check_body self w with
  | (Returned v, self, w) => (v, self, w)
  | (Raised e, self, w) =>
      (Some false,
       set_health ERROR (failed_attempts self + 1) (last_health_check self)
         self,
       w)
  end.

(** [ConnectionPool.is_healthy]; [or] evaluates [datetime.now()] only
    when a check has run before. *)
Definition is_healthy (self : t) (w : World) : option bool * t * World :=
  match last_health_check self with
  | None => perform_health_check self w
  | Some last =>
      let '(now, w) := time_time w in
      if Qlt_bool (health_check_interval self) (now - last) then
        perform_health_check self w
      else (Some (ConnectionStatus_eqb (status self) CONNECTED), self, w)
  end.

(** The dictionary built by [get_status]; its entries are evaluated in
    order, so the first three are read before [is_healthy] runs. *)
Record Status : Type := {
  status_value : ConnectionStatus;
  last_check : option Q;
  status_failed_attempts : Z;
  status_is_healthy : option bool
}.

Definition get_status (self : t) (w : World) : Status * t * World :=
  let st := status self in
  let lc := last_health_check self in
  let fa := failed_attempts self in
  let '(h, self, w) := is_healthy self w in
  ({| status_value := st; last_check := lc; status_failed_attempts := fa;
      status_is_healthy := h |}, self, w).

(** [n] calls of [is_healthy] in a row, with their answers. *)
Fixpoint is_healthy_times (n : nat) (self : t) (w : World)
  : list (option bool) * t * World :=
  match n with
  | O => ([], self, w)
  | S n' =>
      let '(h, self, w) := is_healthy self w in
      let '(hs, self, w) := is_healthy_times n' self w in
      (h :: hs, self, w)
  end.

(** A pool around a Client whose last check passed. *)
Definition checked_ok (self : t) : Prop :=
  isinstance_Client (client self) = true /\ status self = CONNECTED
  /\ failed_attempts self = 0%Z /\ exists t, last_health_check self = Some t.


End ConnectionPool.

Module SupabaseManager.

(** Attributes of the instance. [None] in an optional attribute means it
    holds Python's None or has not been assigned yet; the counters are
    read only by methods that have read [config] first. *)
Record t : Type := {
  env : Environment;
  initialized : bool;
  config : option SupabaseConfig.t;
  rate_limiter : option RateLimiter.t;
  connection_pool : option ConnectionPool.t;
  query_count : Z;
  query_errors : Z;
  start_time : option Q;
  _client : option client_obj
}.

Definition set_env (v : Environment) (self : t) : t :=
  {| env := v; initialized := initialized self; config := config self;
     rate_limiter := rate_limiter self;
     connection_pool := connection_pool self;
     query_count := query_count self; query_errors := query_errors self;
     start_time := start_time self; _client := _client self |}.

Definition set_initialized (v : bool) (self : t) : t :=
  {| env := env self; initialized := v; config := config self;
     rate_limiter := rate_limiter self;
     connection_pool := connection_pool self;
     query_count := query_count self; query_errors := query_errors self;
     start_time := start_time self; _client := _client self |}.

Definition set_config (v : option SupabaseConfig.t) (self : t) : t :=
  {| env := env self; initialized := initialized self; config := v;
     rate_limiter := rate_limiter self;
     connection_pool := connection_pool self;
     query_count := query_count self; query_errors := query_errors self;
     start_time := start_time self; _client := _client self |}.

Definition set_rate_limiter (v : option RateLimiter.t) (self : t) : t :=
  {| env := env self; initialized := initialized self; config := config self;
     rate_limiter := v; connection_pool := connection_pool self;
     query_count := query_count self; query_errors := query_errors self;
     start_time := start_time self; _client := _client self |}.

Definition set_connection_pool (v : option ConnectionPool.t) (self : t) : t :=
  {| env := env self; initialized := initialized self; config := config self;
     rate_limiter := rate_limiter self; connection_pool := v;
     query_count := query_count self; query_errors := query_errors self;
     start_time := start_time self; _client := _client self |}.

Definition set_query_count (v : Z) (self : t) : t :=
  {| env := env self; initialized := initialized self; config := config self;
     rate_limiter := rate_limiter self;
     connection_pool := connection_pool self;
     query_count := v; query_errors := query_errors self;
     start_time := start_time self; _client := _client self |}.

Definition set_query_errors (v : Z) (self : t) : t :=
  {| env := env self; initialized := initialized self; config := config self;
     rate_limiter := rate_limiter self;
     connection_pool := connection_pool self;
     query_count := query_count self; query_errors := v;
     start_time := start_time self; _client := _client self |}.

Definition set_start_time (v : option Q) (self : t) : t :=
  {| env := env self; initialized := initialized self; config := config self;
     rate_limiter := rate_limiter self;
     connection_pool := connection_pool self;
     query_count := query_count self; query_errors := query_errors self;
     start_time := v; _client := _client self |}.

Definition set_client (v : option client_obj) (self : t) : t :=
  {| env := env self; initialized := initialized self; config := config self;
     rate_limiter := rate_limiter self;
     connection_pool := connection_pool self;
     query_count := query_count self; query_errors := query_errors self;
     start_time := start_time self; _client := v |}.

(** [create_client(url, key)]: the outcome is read from the tape; with an
    empty tape the client is built from the arguments. *)
Definition create_client (url key : option string) (w : World)
  : py_result client_obj exn * World :=
  match w_create_client w with
  | [] => (Returned (ClientInstance (default "" url) (default "" key)), w)
  | r :: rest =>
      (r, {| w_time := w_time w; w_jitter := w_jitter w;
             w_sleeps := w_sleeps w; w_environ := w_environ w;
             w_create_client := rest;
             w_import_error := w_import_error w; w_probe := w_probe w |})
  end.

(** The [try] block of one connection attempt in [_initialize_client]. *)
Definition connect_attempt (cfg : SupabaseConfig.t) (self : t) (w : World)
  : py_result unit exn * t * World :=
  match create_client (SupabaseConfig.url cfg) (SupabaseConfig.key cfg) w with
  | (Raised e, w) => (Raised e, self, w)
  | (Returned c, w) =>
      let self := set_client (Some c) self in
      let '(ok, pool, w) :=
        ConnectionPool.perform_health_check (ConnectionPool.init c) w in
      let self := set_connection_pool (Some pool) self in
      match ok with
      | Some true => (Returned tt, self, w)
      | _ => (Raised (Exception "Health check failed"), self, w)
      end
  end.

(** The loop [for attempt in range(max_retries)] of [_initialize_client],
    over the attempts still to run. *)
Fixpoint connect_loop (attempts : list nat) (max_retries : Z)
    (retry_delay : Q) (cfg : SupabaseConfig.t) (self : t) (w : World)
  : py_result unit exn * t * World :=
  match attempts with
  | [] => (Returned tt, self, w)
  | attempt :: rest =>
      match connect_attempt cfg self w with
      | (Returned _, self, w) => (Returned tt, self, w)
      | (Raised e, self, w) =>
          if (Z.of_nat attempt <? max_retries - 1)%Z then
            connect_loop rest max_retries (retry_delay * 2) cfg self
              (time_sleep ConnectSleep retry_delay w)
          else
            (* the message also carries the attempt count and [e] *)
            (Raised (Exception "Failed to connect to Supabase"), self, w)
      end
  end.

(** [SupabaseManager._initialize_client]. *)
Definition _initialize_client (self : t) (w : World)
  : py_result unit exn * t * World :=
  match config self with
  | None => (Raised AttributeError, self, w)
  | Some cfg =>
      let max_retries := SupabaseConfig.max_retries cfg in
      connect_loop (seq 0 (Z.to_nat max_retries)) max_retries 1 cfg self w
  end.

(** The body of [SupabaseManager.__init__] under [if not self.initialized].
    Assignments made before an exception stay in the object. *)
Definition init_body (env_arg : Environment) (self : t) (w : World)
  : py_result unit exn * t * World :=
  let self := set_env env_arg self in
  match SupabaseConfig.get_config env_arg w with
  | Raised e => (Raised e, self, w)
  | Returned cfg =>
      let self := set_config (Some cfg) self in
      match RateLimiter.init 10 with
      | Raised e => (Raised e, self, w)
      | Returned rl =>
          let self := set_rate_limiter (Some rl) self in
          let self := set_connection_pool None self in
          let self := set_query_count 0 self in
          let self := set_query_errors 0 self in
          let '(now, w) := time_time w in
          let self := set_start_time (Some now) self in
          match _initialize_client self w with
          | (Raised e, self, w) => (Raised e, self, w)
          | (Returned _, self, w) =>
              (Returned tt, set_initialized true self, w)
          end
      end
  end.

(** [SupabaseManager.__init__]. *)
Definition __init__ (env_arg : Environment) (self : t) (w : World)
  : py_result unit exn * t * World :=
  if negb (initialized self) then init_body env_arg self w
  else (Returned tt, self, w).

(** [self.rate_limiter.wait_if_needed()] with the limiter stored back
    (the limiter object is mutated in place). *)
Definition limiter_wait (self : t) (w : World)
  : py_result unit exn * t * World :=
  match rate_limiter self with
  | None => (Raised AttributeError, self, w)
  | Some rl =>
      let '(r, rl, w) := RateLimiter.wait_if_needed rl w in
      (r, set_rate_limiter (Some rl) self, w)
  end.

(** The loop [for attempt in range(max_retries)] of [execute_with_retry],
    over the attempts still to run. The wrapped function [func] acts on
    the backend state [S]; time it takes shows as clock jitter. The value
    is [Some v] for [return result] and [None] when the loop ends without
    returning. *)
Fixpoint retry_loop {S V : Type} (func : S -> py_result V exn * S)
    (attempts : list nat) (max_retries : Z) (retry_delay : Q)
    (self : t) (s : S) (w : World)
  : py_result (option V) exn * t * S * World :=
  match attempts with
  | [] => (Returned None, self, s, w)
  | attempt :: rest =>
      let handler (e : exn) (self : t) (s : S) (w : World) :=
        let self := set_query_errors (query_errors self + 1) self in
        if (Z.of_nat attempt <? max_retries - 1)%Z then
          retry_loop func rest max_retries (retry_delay * 2) self s
            (time_sleep RetrySleep retry_delay w)
        else (Raised e, self, s, w) in
      match limiter_wait self w with
      | (Raised e, self, w) => handler e self s w
      | (Returned _, self, w) =>
          match func s with
          | (Returned result, s) =>
              (Returned (Some result),
               set_query_count (query_count self + 1) self, s, w)
          | (Raised e, s) => handler e self s w
          end
      end
  end.

(** [SupabaseManager.execute_with_retry]. *)
Definition execute_with_retry {S V : Type} (self : t)
    (func : S -> py_result V exn * S) (s : S) (w : World)
  : py_result (option V) exn * t * S * World :=
  match config self with
  | None => (Raised AttributeError, self, s, w)
  | Some cfg =>
      let max_retries := SupabaseConfig.max_retries cfg in
      retry_loop func (seq 0 (Z.to_nat max_retries)) max_retries (1 # 2)
        self s w
  end.

(** The dictionary built by [get_metrics]. *)
Record Metrics : Type := {
  environment : string;
  uptime_seconds : Q;
  total_queries : Z;
  failed_queries : Z;
  success_rate : Q;
  connection_status : option ConnectionPool.Status;
  rate_limit_calls_per_second : Q;
  rate_limit_recent_calls : Z
}.

(** The conditional expression under ['success_rate']. *)
Definition success_rate_of (self : t) : Q :=
  if (0 <? query_count self)%Z then
    inject_Z (query_count self - query_errors self)
    / inject_Z (query_count self) * 100
  else 0.

(** [SupabaseManager.get_metrics]; the entries are evaluated in order, and
    [get_status] may run a health check on the pool. *)
Definition get_metrics (self : t) (w : World)
  : py_result Metrics exn * t * World :=
  let '(now, w) := time_time w in
  match start_time self with
  | None => (Raised AttributeError, self, w)
  | Some started =>
      let total := query_count self in
      let failed := query_errors self in
      let rate := success_rate_of self in
      let '(cs, self, w) :=
        match connection_pool self with
        | Some pool =>
            let '(st, pool, w) := ConnectionPool.get_status pool w in
            (Some st, set_connection_pool (Some pool) self, w)
        | None => (None, self, w)
        end in
      match rate_limiter self with
      | None => (Raised AttributeError, self, w)
      | Some rl =>
          (Returned
             {| environment := Environment_value (env self);
                uptime_seconds := now - started;
                total_queries := total; failed_queries := failed;
                success_rate := rate; connection_status := cs;
                rate_limit_calls_per_second :=
                  RateLimiter.calls_per_second rl;
                rate_limit_recent_calls :=
                  Z.of_nat (length (RateLimiter.call_times rl)) |},
           self, w)
      end
  end.

(** [SupabaseManager.reset_metrics]. *)
Definition reset_metrics (self : t) (w : World) : t * World :=
  let self := set_query_count 0 self in
  let self := set_query_errors 0 self in
  let '(now, w) := time_time w in
  (set_start_time (Some now) self, w).

(** A manager as a completed [__init__] leaves it and as the methods keep
    it: configuration, limiter with a positive rate and start time are
    set. *)
Definition ready (self : t) : Prop :=
  (exists cfg, config self = Some cfg)
  /\ (exists rl, rate_limiter self = Some rl
                 /\ 0 < RateLimiter.calls_per_second rl)
  /\ (exists started, start_time self = Some started).

(** Two states of a manager that differ at most in the client and the
    connection pool. *)
Definition same_core (a b : t) : Prop :=
  config a = config b /\ rate_limiter a = rate_limiter b
  /\ start_time a = start_time b /\ query_count a = query_count b
  /\ query_errors a = query_errors b.

Definition max_retries_of (self : t) : nat :=
  match config self with
  | Some cfg => Z.to_nat (SupabaseConfig.max_retries cfg)
  | None => 0
  end.

(** The interpreter state the class lives in: the objects allocated so
    far, addressed by position, and the class attribute [_instance]. *)
Record Py : Type := {
  heap : list t;
  _instance : option nat
}.

Definition empty_py : Py := {| heap := []; _instance := None |}.

(** What [super().__new__(cls)] followed by the two assignments of
    [__new__] leaves in the new object. *)
Definition blank (env_arg : Environment) : t :=
  {| env := env_arg; initialized := false; config := None;
     rate_limiter := None; connection_pool := None;
     query_count := 0; query_errors := 0; start_time := None;
     _client := None |}.

(** [SupabaseManager.__new__]. *)
Definition __new__ (env_arg : Environment) (py : Py) : nat * Py :=
  match _instance py with
  | None =>
      let l := length (heap py) in
      (l, {| heap := heap py ++ [blank env_arg]; _instance := Some l |})
  | Some l => (l, py)
  end.

(** The call [SupabaseManager(env)]: [__new__], then [__init__] on the
    object it returned; the object is the value of the call. *)
Definition construct (env_arg : Environment) (py : Py) (w : World)
  : py_result nat exn * Py * World :=
  let '(l, py) := __new__ env_arg py in
  match heap py !! l with
  | None => (Raised AttributeError, py, w)
  | Some self =>
      let '(r, self, w) := __init__ env_arg self w in
      let py := {| heap := <[l := self]> (heap py);
                   _instance := _instance py |} in
      match r with
      | Raised e => (Raised e, py, w)
      | Returned _ => (Returned l, py, w)
      end
  end.

(** Whether [__init__] will find [not self.initialized] on the object
    that [__new__] hands it, that is, whether it runs its body. *)
Definition runs_body (py : Py) : bool :=
  match _instance py with
  | None => true
  | Some l =>
      match heap py !! l with
      | Some self => negb (initialized self)
      | None => false
      end
  end.

(** A sequence of constructions; each is reported with whether it ran the
    initialization body and with its outcome. *)
Fixpoint constructions (envs : list Environment) (py : Py) (w : World)
  : list (bool * py_result nat exn) * Py * World :=
  match envs with
  | [] => ([], py, w)
  | env_arg :: rest =>
      let ran := runs_body py in
      let '(r, py, w) := construct env_arg py w in
      let '(rs, py, w) := constructions rest py w in
      ((ran, r) :: rs, py, w)
  end.

(** A construction that ran the body to its end. *)
Definition completed_body (step : bool * py_result nat exn) : bool :=
  match step with
  | (true, Returned _) => true
  | _ => false
  end.

(** The instance exists and its initialization has completed. *)
Definition settled (py : Py) : Prop :=
  exists l self,
    _instance py = Some l /\ heap py !! l = Some self
    /\ initialized self = true.

(** The claim as first stated, for a pair of constructions from a fresh
    interpreter: the body runs at most once and the second construction
    changes nothing. *)
Definition second_construction_inert (env1 env2 : Environment) (w : World)
  : Prop :=
  let '(r1, py1, w1) := construct env1 empty_py w in
  let '(r2, py2, w2) := construct env2 py1 w1 in
  (runs_body empty_py && runs_body py1 = false) /\ py2 = py1.

(** A process environment that holds development credentials only. *)
Definition dev_only_world : World :=
  {| w_time := 0; w_jitter := []; w_sleeps := [];
     w_environ := {[ "DEV_SUPABASE_URL" := "https://dev.supabase.co";
                     "DEV_SUPABASE_KEY" := "dev_key" ]};
     w_create_client := []; w_import_error := None; w_probe := [] |}.

(** [get_supabase_manager], without Streamlit's cache around it. *)
Definition get_supabase_manager (env_name : string) (py : Py) (w : World)
  : py_result nat exn * Py * World :=
  let env_enum := default PRODUCTION (Environment_of_value env_name) in
  construct env_enum py w.

(** A manager that holds a Client and a pool, around that client, whose
    last check passed. *)
Definition connected (self : t) : Prop :=
  exists c pool,
    _client self = Some c /\ connection_pool self = Some pool
    /\ ConnectionPool.client pool = c /\ ConnectionPool.checked_ok pool.

(** The sleeps of a connection backoff, as they appear in the log. *)
Definition connect_sleeps (delays : list Q) : list (sleep_site * Q) :=
  map (fun d => (ConnectSleep, d)) delays.

(** [SupabaseManager.close]; a stored client object counts as true. *)
Definition close (self : t) : t :=
  match _client self with
  | Some _ => set_connection_pool None (set_client None self)
  | None => self
  end.

(** The property [SupabaseManager.client]. The value is [self._client],
    [None] being Python's None. *)
Definition client (self : t) (w : World)
  : py_result (option client_obj) exn * t * World :=
  let '(r, self, w) :=
    match _client self with
    | None => _initialize_client self w
    | Some _ => (Returned tt, self, w)
    end in
  match r with
  | Raised e => (Raised e, self, w)
  | Returned _ =>
      match connection_pool self with
      | None => (Raised AttributeError, self, w)
      | Some pool =>
          let '(healthy, pool, w) := ConnectionPool.is_healthy pool w in
          let self := set_connection_pool (Some pool) self in
          match healthy with
          | Some true => (Returned (_client self), self, w)
          | _ =>
              match _initialize_client self w with
              | (Raised e, self, w) => (Raised e, self, w)
              | (Returned _, self, w) => (Returned (_client self), self, w)
              end
          end
      end
  end.

(** [test_connection]: the construction and the health question under
    one [except Exception], which answers False. [None] is Python's None,
    passed on from [is_healthy]. *)
Definition test_connection (env_arg : Environment) (py : Py) (w : World)
  : option bool * Py * World :=
  match construct env_arg py w with
  | (Raised e, py, w) => (Some false, py, w)
  | (Returned l, py, w) =>
      match heap py !! l with
      | None => (Some false, py, w)
      | Some self =>
          match connection_pool self with
          | None => (Some false, py, w)
          | Some pool =>
              let '(healthy, pool, w) := ConnectionPool.is_healthy pool w in
              (healthy,
               {| heap := <[l := set_connection_pool (Some pool) self]>
                            (heap py);
                  _instance := _instance py |}, w)
          end
      end
  end.

(** A method call [manager.close()] on the object at [l]. *)
Definition close_at (l : nat) (py : Py) : Py :=
  match heap py !! l with
  | Some self =>
      {| heap := <[l := close self]> (heap py); _instance := _instance py |}
  | None => py
  end.

End SupabaseManager.

(** ** Vocabulary for the retry loop and the counters *)

Section RetryVocabulary.
Context {S V : Type}.
Variable func : S -> py_result V exn * S.

(** The backend state after [n] calls of [func]. *)
Fixpoint state_after (s : S) (n : nat) : S :=
  match n with
  | O => s
  | Datatypes.S n' => state_after (snd (func s)) n'
  end.

(** What call number [i] (from 0) of [func] does. *)
Definition nth_outcome (s : S) (i : nat) : py_result V exn :=
  fst (func (state_after s i)).

(** Among the first [n] calls, how many raise before one returns. *)
Fixpoint leading_failures (s : S) (n : nat) : nat :=
  match n with
  | O => O
  | Datatypes.S n' =>
      match func s with
      | (Raised _, s') => Datatypes.S (leading_failures s' n')
      | (Returned _, _) => O
      end
  end.

(** Delays that start at [delay] and double each time. *)
Fixpoint backoff (delay : Q) (k : nat) : list Q :=
  match k with
  | O => []
  | Datatypes.S k' => delay :: backoff (delay * 2) k'
  end.

(** The delays slept by the retry loop, read back from the sleep log. *)
Definition retry_delays (log : list (sleep_site * Q)) : list Q :=
  map snd
    (List.filter
       (fun e => match fst e with RetrySleep => true | _ => false end) log).

(** How a run of the retry loop ends, [k] being the number of calls that
    raise before one returns among the [n] attempts left. *)
Definition loop_outcome (n : nat) (delay : Q)
    (self : SupabaseManager.t) (s : S) (w : World)
    (r : py_result (option V) exn)
    (self' : SupabaseManager.t) (s' : S) (w' : World) : Prop :=
  let k := leading_failures s n in
  let count := SupabaseManager.query_count in
  let errors := SupabaseManager.query_errors in
  ((k < n)%nat
   /\ (exists v, nth_outcome s k = Returned v /\ r = Returned (Some v))
   /\ count self' = (count self + 1)%Z
   /\ errors self' = (errors self + Z.of_nat k)%Z
   /\ s' = state_after s (Datatypes.S k)
   /\ retry_delays (w_sleeps w')
      = retry_delays (w_sleeps w) ++ backoff delay k)
  \/ (n = O /\ r = Returned None
      /\ count self' = count self /\ errors self' = errors self
      /\ s' = s /\ w' = w)
  \/ (k = n /\ (0 < n)%nat
      /\ (exists e, nth_outcome s (n - 1) = Raised e /\ r = Raised e)
      /\ count self' = count self
      /\ errors self' = (errors self + Z.of_nat n)%Z
      /\ s' = state_after s n
      /\ retry_delays (w_sleeps w')
         = retry_delays (w_sleeps w) ++ backoff delay (n - 1)).

End RetryVocabulary.

(** Sum of a list of delays. *)
Definition total (delays : list Q) : Q := fold_right Qplus 0 delays.

(** Operations on a manager, for traces. *)
Inductive op (S V : Type) : Type :=
| Execute (func : S -> py_result V exn * S)
| ResetMetrics
| GetMetrics.
Arguments Execute {S V} func.
Arguments ResetMetrics {S V}.
Arguments GetMetrics {S V}.

Definition run_op {S V : Type} (o : op S V)
    (st : SupabaseManager.t * S * World) : SupabaseManager.t * S * World :=
  let '(self, s, w) := st in
  match o with
  | Execute func =>
      let '(_, self, s, w) := SupabaseManager.execute_with_retry self func s w in
      (self, s, w)
  | ResetMetrics =>
      let '(self, w) := SupabaseManager.reset_metrics self w in (self, s, w)
  | GetMetrics =>
      let '(_, self, w) := SupabaseManager.get_metrics self w in (self, s, w)
  end.

Definition run_ops {S V : Type} (ops : list (op S V))
    (st : SupabaseManager.t * S * World) : SupabaseManager.t * S * World :=
  fold_left (fun st o => run_op o st) ops st.

(** The counts the claim speaks of, computed from what the wrapped
    functions do: executions in which an attempt returned, and attempts
    that raised, since the last reset. [m] is [max_retries]. *)
Fixpoint tally {S V : Type} (m : nat) (ops : list (op S V)) (s : S)
    (successes failures : Z) : Z * Z :=
  match ops with
  | [] => (successes, failures)
  | Execute func :: rest =>
      let k := leading_failures func s m in
      if (k <? m)%nat then
        tally m rest (state_after func s (Datatypes.S k))
          (successes + 1)%Z (failures + Z.of_nat k)%Z
      else
        tally m rest (state_after func s m) successes
          (failures + Z.of_nat k)%Z
  | ResetMetrics :: rest => tally m rest s 0%Z 0%Z
  | GetMetrics :: rest => tally m rest s successes failures
  end.

(** ** dashboard.py *)

(** The backend as the dashboard sees it: the rows of the two tables and
    whether a query fails. [NULL] is [None]. *)
Record TripRow : Type := {
  trip_user_id : option string;
  trip_created_at : option Q
}.

Record ProfileRow : Type := {
  subscription_tier : option string;
  profile_created_at : option Q
}.

Record Backend : Type := {
  trips : list TripRow;
  profiles : list ProfileRow;
  query_fails : option exn
}.

Module Dashboard.

(** [table('trips').select('user_id').gte('created_at', cutoff).execute()]:
    the [user_id] of every row whose [created_at] is not NULL and is at or
    after the cutoff, or the backend's exception. *)
Definition select_user_id_since (b : Backend) (cutoff : Q)
  : py_result (list (option string)) exn :=
  match query_fails b with
  | Some e => Raised e
  | None =>
      Returned
        (map trip_user_id
           (List.filter
              (fun r => match trip_created_at r with
                        | Some t => Qle_bool cutoff t
                        | None => false
                        end)
              (trips b)))
  end.

(** [pd.Timedelta(days=days)] in seconds. *)
Definition Timedelta_days (days : Q) : Q := days * 86400.

(** pandas keeps a Timestamp and a Timedelta as a signed 64-bit count of
    nanoseconds (the smallest 64-bit value stands for NaT) and refuses
    what does not fit: [in_ns_range s] says that [s] seconds fit. *)
Definition ns_max : Z := (2 ^ 63 - 1)%Z.

Definition in_ns_range (seconds : Q) : bool :=
  Qle_bool (- inject_Z ns_max) (seconds * 1000000000)
  && Qle_bool (seconds * 1000000000) (inject_Z ns_max).

(** [pd.Timestamp.now(tz="UTC")], [pd.Timedelta(days=days)] for an int and
    [timestamp - timedelta], in seconds; [None] is pandas'
    OutOfBoundsDatetime or OutOfBoundsTimedelta. *)
Definition Timestamp_now (w : World) : option Q * World :=
  let '(now, w) := time_time w in
  (if in_ns_range now then Some now else None, w).

Definition Timedelta (days : Z) : option Q :=
  let seconds := inject_Z days * 86400 in
  if in_ns_range seconds then Some seconds else None.

Definition Timestamp_sub (timestamp timedelta : Q) : option Q :=
  if in_ns_range (timestamp - timedelta) then Some (timestamp - timedelta)
  else None.

(** [get_active_users], without Streamlit's cache around it. An
    out-of-bounds error of pandas is caught by the [except] like every
    other exception. *)
Definition get_active_users (b : Backend) (w : World) (days : Z) : Z :=
  let '(now, w) := Timestamp_now w in
  match now with
  | None => 0%Z
  | Some now =>
      match Timedelta days with
      | None => 0%Z
      | Some period =>
          match Timestamp_sub now period with
          | None => 0%Z
          | Some cutoff_dt =>
              match select_user_id_since b cutoff_dt with
              | Returned data =>
                  match data with
                  | [] => 0%Z
                  | _ :: _ =>
                      let active_users : gset (option string) :=
                        list_to_set data in
                      Z.of_nat (size active_users)
                  end
              | Raised e => 0%Z
              end
          end
      end
  end.


(** [table('profiles').select('subscription_tier, created_at').execute().data]. *)
Definition select_profiles (b : Backend) : py_result (list ProfileRow) exn :=
  match query_fails b with
  | Some e => Raised e
  | None => Returned (profiles b)
  end.

(** The [pricing] dictionary, in insertion order. *)
Definition pricing : list (string * Q) :=
  [("free", 0); ("basic", 9.99); ("premium", 19.99); ("pro", 39.99);
   ("enterprise", 99.99)].

(** [str.lower] on ASCII text. *)
Definition lower_ascii (c : Ascii.ascii) : Ascii.ascii :=
  let n := Ascii.nat_of_ascii c in
  if ((65 <=? n) && (n <=? 90))%nat then Ascii.ascii_of_nat (n + 32) else c.

Fixpoint lower (s : string) : string :=
  match s with
  | EmptyString => EmptyString
  | String c rest => String (lower_ascii c) (lower rest)
  end.

(** [df['subscription_tier'].value_counts().to_dict()]: occurrences of
    each value, NULL left out. *)
Fixpoint value_counts (rows : list ProfileRow) : gmap string Z :=
  match rows with
  | [] => ∅
  | r :: rest =>
      let counts := value_counts rest in
      match subscription_tier r with
      | Some tier => <[tier := (default 0 (counts !! tier) + 1)%Z]> counts
      | None => counts
      end
  end.

(** [d.get(k, 0)]. *)
Definition get_or_zero (d : gmap string Z) (k : string) : Z :=
  default 0%Z (d !! k).

Definition pricing_get (tier : string) : Q :=
  match List.find (fun kv => String.eqb (fst kv) tier) pricing with
  | Some kv => snd kv
  | None => 0
  end.

Record TierStats : Type := {
  count : Z;
  revenue : Q;
  percentage : Q
}.

Record RevenueMetrics : Type := {
  mrr : Q;
  arr : Q;
  arpu : Q;
  total_users : Z;
  tier_distribution : list (string * TierStats);
  tier_counts : gmap string Z
}.

(** Python's [sum] over a generator of floats. *)
Definition py_sum (xs : list Q) : Q := fold_left Qplus xs 0.

(** [get_revenue_metrics], without Streamlit's cache around it; [None]
    stands for the empty dictionary. *)
Definition get_revenue_metrics (b : Backend) : option RevenueMetrics :=
  match select_profiles b with
  | Raised e => None
  | Returned [] => None
  | Returned df =>
      let tier_counts := value_counts df in
      let mrr :=
        py_sum (map (fun kv => inject_Z (get_or_zero tier_counts (lower (fst kv)))
                               * snd kv) pricing) in
      let arr := mrr * 12 in
      let total_users := Z.of_nat (length df) in
      let arpu := if (0 <? total_users)%Z then mrr / inject_Z total_users
                  else 0 in
      let tier_distribution :=
        map (fun kv =>
               let tier := fst kv in
               (tier,
                {| count := get_or_zero tier_counts tier;
                   revenue := inject_Z (get_or_zero tier_counts tier)
                              * pricing_get tier;
                   percentage :=
                     if (0 <? total_users)%Z then
                       inject_Z (get_or_zero tier_counts tier)
                       / inject_Z total_users * 100
                     else 0 |})) pricing in
      Some {| mrr := mrr; arr := arr; arpu := arpu;
              total_users := total_users;
              tier_distribution := tier_distribution;
              tier_counts := tier_counts |}
  end.

(** Profiles whose tier is exactly [tier]. *)
Definition profiles_in_tier (tier : string) (rows : list ProfileRow) : Z :=
  Z.of_nat
    (length
       (List.filter
          (fun r => match subscription_tier r with
                    | Some t => String.eqb t tier
                    | None => false
                    end) rows)).



(** The dictionary returned by [calculate_period_growth]. *)
Record Growth : Type := {
  growth_current : Z;
  growth_previous : Z;
  growth_rate : Q
}.

(** Rows of a frame whose [created_at] passes a test; NaT passes none. *)
Definition count_where (p : Q -> bool) (created : list (option Q)) : Z :=
  Z.of_nat
    (length
       (List.filter (fun c => match c with Some t => p t | None => false end)
          created)).

(** [calculate_period_growth], the helper inside [get_growth_metrics];
    [now] is the instant read by the enclosing function and [created] the
    [created_at] column of the frame. *)
Definition calculate_period_growth (now : Q) (created : list (option Q))
    (days_current days_previous : Q) : Growth :=
  let current_start := now - Timedelta_days days_current in
  let previous_start := now - Timedelta_days days_previous in
  let previous_end := now - Timedelta_days days_current in
  let current_count := count_where (fun t => Qle_bool current_start t) created in
  let previous_count :=
    count_where (fun t => Qle_bool previous_start t && Qlt_bool t previous_end)
      created in
  let rate :=
    if (0 <? previous_count)%Z then
      inject_Z (current_count - previous_count) / inject_Z previous_count * 100
    else if (0 <? current_count)%Z then 100 else 0 in
  {| growth_current := current_count; growth_previous := previous_count;
     growth_rate := rate |}.

End Dashboard.

(** ** utils.py *)

(** A cell of the records handed to the validators. A key that a record
    lacks shows in the DataFrame as a missing value, here [PyNone]. *)
Inductive py_val : Type :=
| PyNone
| PyInt (z : Z)
| PyFloat (q : Q)
| PyNaN
| PyInf (negative : bool)
| PyStr (s : string).

Record RawTrip : Type := {
  raw_id : py_val;
  raw_user_id : py_val;
  raw_distance : py_val;
  raw_duration : py_val;
  raw_created_at : py_val
}.

(** A row of the validated frame; [None] in [created_at] is NaT. *)
Record Trip : Type := {
  trip_id : py_val;
  user_id : py_val;
  distance : num;
  duration : num;
  created_at : option Q
}.

Module DataValidator.
Section Pandas.

(** How pandas reads a number out of text and an instant out of a cell
    ([None] is a failed parse), and whether [pd.to_datetime] gives a column
    of such cells a time zone: timestamps written with a UTC offset, as
    the backend sends them, make a tz-aware column. *)
Variable parse_number : string -> option Q.
Variable parse_datetime : py_val -> option Q.
Variable tz_aware : list py_val -> bool.

(** [pd.to_numeric(x, errors='coerce')] on one cell. *)
Definition to_numeric (v : py_val) : num :=
  match v with
  | PyNone => NaN
  | PyInt z => Fin (inject_Z z)
  | PyFloat q => Fin q
  | PyNaN => NaN
  | PyInf negative => if negative then NegInf else PosInf
  | PyStr s =>
      match parse_number s with
      | Some q => Fin q
      | None => NaN
      end
  end.

(** [.fillna(0)] on one cell. *)
Definition fillna0 (x : num) : num :=
  match x with
  | NaN => Fin 0
  | _ => x
  end.

(** [x > 0] on one cell. *)
Definition gt0 (x : num) : bool :=
  match x with
  | Fin q => Qlt_bool 0 q
  | PosInf => true
  | NegInf => false
  | NaN => false
  end.

(** [pd.to_datetime(x, errors='coerce')] on one cell. *)
Definition to_datetime (v : py_val) : option Q :=
  match v with
  | PyNone => None
  | PyNaN => None
  | _ => parse_datetime v
  end.

(** [x <= now] on one cell; NaT compares false. *)
Definition le_now (now : Q) (t : option Q) : bool :=
  match t with
  | Some t => Qle_bool t now
  | None => false
  end.

Definition clean_numeric (r : RawTrip) : Trip :=
  {| trip_id := raw_id r; user_id := raw_user_id r;
     distance := fillna0 (to_numeric (raw_distance r));
     duration := fillna0 (to_numeric (raw_duration r));
     created_at := None |}.

Definition with_created_at (raw : py_val) (r : Trip) : Trip :=
  {| trip_id := trip_id r; user_id := user_id r; distance := distance r;
     duration := duration r; created_at := to_datetime raw |}.


End Pandas.

(** The validated row of a record, and whether the record survives the
    three filters at instant [now]. *)
Definition validated (parse_number : string -> option Q)
    (parse_datetime : py_val -> option Q) (r : RawTrip) : Trip :=
  with_created_at parse_datetime (raw_created_at r)
    (clean_numeric parse_number r).

Definition kept (parse_number : string -> option Q)
    (parse_datetime : py_val -> option Q) (now : Q) (r : RawTrip) : bool :=
  gt0 (distance (validated parse_number parse_datetime r))
  && gt0 (duration (validated parse_number parse_datetime r))
  && le_now now (created_at (validated parse_number parse_datetime r)).





End DataValidator.


Module MetricsCalculator.

(** [MetricsCalculator.calculate_churn_probability]. *)
Definition calculate_churn_probability (last_activity_days : Z) : Q :=
  if (last_activity_days <=? 7)%Z then 0.05
  else if (last_activity_days <=? 14)%Z then 0.15
  else if (last_activity_days <=? 30)%Z then 0.40
  else if (last_activity_days <=? 60)%Z then 0.75
  else 0.95.

(** The four components of the engagement score, in source order. *)
Definition trip_score (trip_count : Z) : py_result num exn :=
  match int_truediv trip_count 50 with
  | Raised e => Raised e
  | Returned q => Returned (fmul_const (min_1 (Fin q)) 30)
  end.

Definition frequency_score (trip_count days_active : Z)
  : py_result num exn :=
  match int_truediv trip_count (Z.max days_active 1) with
  | Raised e => Raised e
  | Returned q => Returned (fmul_const (min_1 (fmul_const (Fin q) 10)) 25)
  end.

Definition recency_score (last_activity_days : Z) : py_result num exn :=
  match int_truediv (30 - last_activity_days) 30 with
  | Raised e => Raised e
  | Returned q => Returned (fmul_const (max_0 (Fin q)) 25)
  end.

Definition distance_score (total_distance : num) : num :=
  fmul_const (min_1 (fdiv_const total_distance 1000)) 20.

(** [MetricsCalculator.calculate_engagement_score]. *)
Definition calculate_engagement_score
    (trip_count days_active last_activity_days : Z) (total_distance : num)
  : py_result num exn :=
  match trip_score trip_count with
  | Raised e => Raised e
  | Returned ts =>
      match frequency_score trip_count days_active with
      | Raised e => Raised e
      | Returned fs =>
          match recency_score last_activity_days with
          | Raised e => Raised e
          | Returned rs =>
              let ds := distance_score total_distance in
              let total_score := fadd (fadd (fadd ts fs) rs) ds in
              Returned (round_1 total_score)
          end
      end
  end.

(** A component or a score: a finite float between [0] and [hi]. *)
Definition capped (hi : Q) (x : num) : Prop :=
  exists q, x = Fin q /\ 0 <= q <= hi.

(** A float that is not negative: finite and at least 0, or infinite. *)
Definition nonnegative (x : num) : Prop :=
  match x with
  | Fin q => 0 <= q
  | PosInf => True
  | NegInf | NaN => False
  end.

End MetricsCalculator.

(** ** utils.py: helpers *)

(** [l[:n]] and [l * k] on lists. *)
Definition py_slice_to {A : Type} (l : list A) (n : Z) : list A :=
  if (0 <=? n)%Z then firstn (Z.to_nat n) l
  else firstn (Z.to_nat (Z.of_nat (length l) + n)) l.

Definition py_repeat {A : Type} (l : list A) (k : Z) : list A :=
  concat (repeat l (Z.to_nat k)).

Module ChartHelpers.

Definition colors : list string :=
  ["#1f77b4"; "#ff7f0e"; "#2ca02c"; "#d62728"; "#9467bd";
   "#8c564b"; "#e377c2"; "#7f7f7f"; "#bcbd22"; "#17becf"].

(** [ChartHelpers.create_color_scale]. *)
Definition create_color_scale (n : Z) : list string :=
  let len := Z.of_nat (length colors) in
  if (n <=? len)%Z then py_slice_to colors n
  else py_repeat colors (n / len + 1).

End ChartHelpers.

Module NotificationManager.

Definition low_engagement : string :=
  "⚠️ Low user engagement detected (< 20%)".
Definition high_churn : string :=
  "⚠️ High churn risk: >30% of users at risk".
Definition declining_activity : string :=
  "📉 Weekly activity declining by >10%".
Definition no_users : string := "❌ No users found in database".

(** [metrics.get(key, default)] on a dictionary of numbers. *)
Definition get (metrics : gmap string Q) (key : string) (dflt : Q) : Q :=
  default dflt (metrics !! key).

(** [NotificationManager.check_alerts]. *)
Definition check_alerts (metrics : gmap string Q) : list string :=
  let alerts := [] in
  let alerts :=
    if Qlt_bool (get metrics "engagement_rate" 100) 20
    then alerts ++ [low_engagement] else alerts in
  let alerts :=
    if Qlt_bool 30 (get metrics "churn_risk_rate" 0)
    then alerts ++ [high_churn] else alerts in
  let alerts :=
    if Qlt_bool (get metrics "weekly_growth_trend" 0) (-10)
    then alerts ++ [declining_activity] else alerts in
  let alerts :=
    if Qeq_bool (get metrics "total_users" 0) 0
    then alerts ++ [no_users] else alerts in
  alerts.

End NotificationManager.

(** [f"{x:.1f}"] and [f"{x:.0f}"] on an exact value: rounded half to even,
    with the sign of [x]. *)
Definition format_1f (x : Q) : string :=
  let tenths := Z.abs (round_half_even (x * 10)) in
  (if Qlt_bool x 0 then "-" else "")
  ++ pretty (tenths / 10)%Z ++ "." ++ pretty (tenths mod 10)%Z.

Definition format_0f (x : Q) : string :=
  (if Qlt_bool x 0 then "-" else "") ++ pretty (Z.abs (round_half_even x)).

(** [format_large_number]. *)
Definition format_large_number (num : Q) : string :=
  if Qle_bool 1000000000 num then format_1f (num / 1000000000) ++ "B"
  else if Qle_bool 1000000 num then format_1f (num / 1000000) ++ "M"
  else if Qle_bool 1000 num then format_1f (num / 1000) ++ "K"
  else format_0f num.

(** The dictionary returned by [calculate_period_over_period_change]. *)
Record Change : Type := {
  change_current : Q;
  change_previous : Q;
  change_absolute : Q;
  change_percent : Q;
  change_trend : string
}.

(** The unrounded [change_pct] of [calculate_period_over_period_change]. *)
Definition change_pct (current_value previous_value : Q) : Q :=
  if Qeq_bool previous_value 0 then
    if Qlt_bool 0 current_value then 100 else 0
  else (current_value - previous_value) / previous_value * 100.

(** [calculate_period_over_period_change]. *)
Definition calculate_period_over_period_change
    (current_value previous_value : Q) : Change :=
  let pct := change_pct current_value previous_value in
  {| change_current := current_value;
     change_previous := previous_value;
     change_absolute := current_value - previous_value;
     change_percent := py_round1 pct;
     change_trend := if Qlt_bool 0 pct then "up"
                     else if Qlt_bool pct 0 then "down" else "stable" |}.

(** [get_time_period_label]. *)
Definition get_time_period_label (days : Z) : string :=
  if (days =? 1)%Z then "Today"
  else if (days =? 7)%Z then "Last Week"
  else if (days =? 30)%Z then "Last Month"
  else if (days =? 90)%Z then "Last Quarter"
  else if (days =? 365)%Z then "Last Year"
  else "Last " ++ pretty days ++ " Days".

Module PerformanceMonitor.

(** One entry of [self.metrics]. *)
Record Metric : Type := {
  function : string;
  execution_time : Q;
  timestamp : Q
}.

(** The wrapper that [PerformanceMonitor.track] puts around [func], named
    [name]: [self.metrics] is threaded through; the warning for a slow
    call only writes to the log. *)
Definition track {S V : Type} (name : string)
    (func : S -> py_result V exn * S) (metrics : list Metric) (s : S)
    (w : World) : py_result V exn * list Metric * S * World :=
  let '(start_time, w) := time_time w in
  match func s with
  | (Raised e, s) => (Raised e, metrics, s, w)
  | (Returned result, s) =>
      let '(finish, w) := time_time w in
      let execution_time := finish - start_time in
      let '(now, w) := time_time w in
      (Returned result,
       metrics ++ [{| function := name; execution_time := execution_time;
                      timestamp := now |}], s, w)
  end.

(** Tracked calls one after the other, by a caller that goes on after an
    exception. *)
Fixpoint track_all {S V : Type}
    (calls : list (string * (S -> py_result V exn * S)))
    (metrics : list Metric) (s : S) (w : World)
  : list Metric * S * World :=
  match calls with
  | [] => (metrics, s, w)
  | (name, func) :: rest =>
      let '(_, metrics, s, w) := track name func metrics s w in
      track_all rest metrics s w
  end.

(** How many of the calls return, each started in the state its
    predecessor left. *)
Fixpoint returned_calls {S V : Type}
    (calls : list (string * (S -> py_result V exn * S))) (s : S) : nat :=
  match calls with
  | [] => O
  | (_, func) :: rest =>
      match func s with
      | (Returned _, s) => Datatypes.S (returned_calls rest s)
      | (Raised _, s) => returned_calls rest s
      end
  end.

End PerformanceMonitor.

Module DashboardState.

(** [st.session_state], as far as the class uses it; [None] is a key that
    is not there. *)
Record SessionState : Type := {
  last_refresh : option Q;
  selected_period : option Z;
  auto_refresh : option bool;
  performance_mode : option bool
}.

(** [DashboardState.init_session_state]. *)
Definition init_session_state (st : SessionState) (w : World)
  : SessionState * World :=
  let '(lr, w) :=
    match last_refresh st with
    | None => let '(now, w) := time_time w in (Some now, w)
    | Some t => (Some t, w)
    end in
  ({| last_refresh := lr;
      selected_period := Some (default 30%Z (selected_period st));
      auto_refresh := Some (default false (auto_refresh st));
      performance_mode := Some (default false (performance_mode st)) |}, w).

(** [DashboardState.should_refresh]; reading a missing key raises. *)
Definition should_refresh (interval_minutes : Z) (st : SessionState)
    (w : World) : py_result bool exn * World :=
  match auto_refresh st with
  | None => (Raised AttributeError, w)
  | Some false => (Returned false, w)
  | Some true =>
      let '(now, w) := time_time w in
      match last_refresh st with
      | None => (Raised AttributeError, w)
      | Some t => (Returned (Qlt_bool (inject_Z (interval_minutes * 60)) (now - t)), w)
      end
  end.

(** [DashboardState.update_refresh_time]. *)
Definition update_refresh_time (st : SessionState) (w : World)
  : SessionState * World :=
  let '(now, w) := time_time w in
  ({| last_refresh := Some now; selected_period := selected_period st;
      auto_refresh := auto_refresh st;
      performance_mode := performance_mode st |}, w).

End DashboardState.

(** ** Sample inputs *)

(** A process environment with production credentials and a clock that
    moves between reads. *)
Definition prod_world : World :=
  {| w_time := 100; w_jitter := [1 # 10; 0; 1 # 4; 2; 0; 1 # 100];
     w_sleeps := [];
     w_environ := {[ "SUPABASE_URL" := "https://prod.supabase.co";
                     "SUPABASE_KEY" := "prod_key" ]};
     w_create_client := []; w_import_error := None; w_probe := [] |}.

(** The manager that [SupabaseManager(Environment.PRODUCTION)] builds in
    [prod_world]. *)
Definition sample_manager : SupabaseManager.t :=
  default (SupabaseManager.blank PRODUCTION)
    (SupabaseManager.heap
       (snd (fst (SupabaseManager.construct PRODUCTION
                    SupabaseManager.empty_py prod_world))) !! O).

(** A wrapped function that raises on its first two calls and returns on
    the third; its state counts the calls. *)
Definition flaky (calls : nat) : py_result Z exn * nat :=
  if (calls <? 2)%nat then (Raised (BackendError 503), Datatypes.S calls)
  else (Returned (Z.of_nat calls * 10)%Z, Datatypes.S calls).

(** A wrapped function that always raises. *)
Definition broken (calls : nat) : py_result Z exn * nat :=
  (Raised (BackendError (Z.of_nat calls)), Datatypes.S calls).

(** A backend with four trips by three users, one of them 40 days old
    at instant 100 days, and six profiles. Instants are in seconds. *)
Definition sample_backend : Backend :=
  {| trips :=
       [ {| trip_user_id := Some "ana"; trip_created_at := Some (99 * 86400) |};
         {| trip_user_id := Some "bo"; trip_created_at := Some (60 * 86400) |};
         {| trip_user_id := Some "ana"; trip_created_at := Some (80 * 86400) |};
         {| trip_user_id := Some "cy"; trip_created_at := Some (71 * 86400) |} ];
     profiles :=
       [ {| subscription_tier := Some "free"; profile_created_at := None |};
         {| subscription_tier := Some "basic"; profile_created_at := None |};
         {| subscription_tier := Some "basic"; profile_created_at := None |};
         {| subscription_tier := Some "Premium"; profile_created_at := None |};
         {| subscription_tier := None; profile_created_at := None |};
         {| subscription_tier := Some "pro"; profile_created_at := None |} ];
     query_fails := None |}.

(** A clock that reads 100 days. *)
Definition day100_world : World :=
  {| w_time := 100 * 86400; w_jitter := []; w_sleeps := []; w_environ := ∅;
     w_create_client := []; w_import_error := None; w_probe := [] |}.







(** The interpreter state after [SupabaseManager(Environment.PRODUCTION)]
    in [prod_world]: [sample_manager] at address 0. *)
Definition sample_py : SupabaseManager.Py :=
  snd (fst (SupabaseManager.construct PRODUCTION SupabaseManager.empty_py
              prod_world)).

(** A pool around a real client that has not been checked yet. *)
Definition sample_pool : ConnectionPool.t :=
  ConnectionPool.init (ClientInstance "u" "k").

(** [prod_world] without the supabase package: the import in the health
    check raises. *)
Definition no_supabase_world : World :=
  {| w_time := 100; w_jitter := [1 # 10; 0; 1 # 4; 2; 0; 1 # 100];
     w_sleeps := []; w_environ := w_environ prod_world;
     w_create_client := []; w_import_error := Some ImportError;
     w_probe := [] |}.

(** A session that has switched auto refresh on and chosen a week. *)
Definition sample_session : DashboardState.SessionState :=
  {| DashboardState.last_refresh := None;
     DashboardState.selected_period := Some 7%Z;
     DashboardState.auto_refresh := Some true;
     DashboardState.performance_mode := None |}.

(** Creation instants at day 100: yesterday, ten days ago, unknown, fifty
    days ago and tomorrow. *)
Definition sample_created : list (option Q) :=
  [Some (99 * 86400); Some (90 * 86400); None; Some (50 * 86400);
   Some (101 * 86400)].

(** * Properties *)

Lemma Qlt_bool_iff (x y : Q) : Qlt_bool x y = true <-> x < y.
Proof.
  unfold Qlt_bool. rewrite negb_true_iff.
  split.
  - intros H. destruct (Qlt_le_dec x y) as [Hlt | Hle]; [exact Hlt |].
    apply Qle_bool_iff in Hle. congruence.
  - intros H. destruct (Qle_bool y x) eqn:E; [| reflexivity].
    apply Qle_bool_iff in E. lra.
Qed.

Lemma Qlt_bool_false_iff (x y : Q) : Qlt_bool x y = false <-> y <= x.
Proof.
  split.
  - intros H. destruct (Qlt_le_dec x y) as [Hlt | Hle]; [| exact Hle].
    apply Qlt_bool_iff in Hlt. congruence.
  - intros H. destruct (Qlt_bool x y) eqn:E; [| reflexivity].
    apply Qlt_bool_iff in E. lra.
Qed.

Lemma Qle_bool_false (x y : Q) : y < x -> Qle_bool x y = false.
Proof.
  intros H. destruct (Qle_bool x y) eqn:E; [| reflexivity].
  apply Qle_bool_iff in E. lra.
Qed.

Lemma Qle_bool_true (x y : Q) : x <= y -> Qle_bool x y = true.
Proof. intros H. apply Qle_bool_iff. exact H. Qed.


Section Rounding.

Lemma round_half_even_lower (x : Q) (n : Z) :
  inject_Z n <= x -> (n <= round_half_even x)%Z.
Proof.
  intros H. unfold round_half_even.
  assert (Hf : (n <= Qfloor x)%Z).
  { rewrite <- (Qfloor_Z n). apply Qfloor_resp_le. exact H. }
  repeat match goal with |- context [if ?b then _ else _] => destruct b end; lia.
Qed.

Lemma round_half_even_upper (x : Q) (n : Z) :
  x <= inject_Z n -> (round_half_even x <= n)%Z.
Proof.
  intros H. unfold round_half_even.
  assert (Hf : (Qfloor x <= n)%Z).
  { rewrite <- (Qfloor_Z n). apply Qfloor_resp_le. exact H. }
  destruct (Qlt_bool (x - inject_Z (Qfloor x)) (1 # 2)) eqn:E; [exact Hf |].
  apply Qlt_bool_false_iff in E.
  assert (Hlt : (Qfloor x < n)%Z).
  { destruct (Z.eq_dec (Qfloor x) n) as [Heq | Hne]; [| lia].
    rewrite Heq in E. lra. }
  repeat match goal with |- context [if ?b then _ else _] => destruct b end; lia.
Qed.

Lemma py_round1_bounds (x : Q) (lo hi : Z) :
  inject_Z lo <= x <= inject_Z hi ->
  inject_Z lo <= py_round1 x <= inject_Z hi.
Proof.
  intros [Hlo Hhi]. unfold py_round1.
  assert (H1 : (lo * 10 <= round_half_even (x * 10))%Z).
  { apply round_half_even_lower. rewrite inject_Z_mult. change (inject_Z 10) with 10. lra. }
  assert (H2 : (round_half_even (x * 10) <= hi * 10)%Z).
  { apply round_half_even_upper. rewrite inject_Z_mult. change (inject_Z 10) with 10. lra. }
  rewrite Zle_Qle in H1, H2. rewrite inject_Z_mult in H1, H2.
  change (inject_Z 10) with 10 in *.
  set (r := inject_Z (round_half_even (x * 10))) in *.
  split.
  - apply Qle_shift_div_l; lra.
  - apply Qle_shift_div_r; lra.
Qed.

End Rounding.

(** ** Rounding to a double *)

Section FloatProps.

Lemma pow2_pos (e : Z) : 0 < pow2 e.
Proof. apply Qpower_0_lt. reflexivity. Qed.


Lemma pow2_le_inv (a b : Z) : pow2 a <= pow2 b -> (a <= b)%Z.
Proof. intros H. apply (Qpower_le_compat_l_inv 2); [exact H | reflexivity]. Qed.

Lemma pow2_lt_inv (a b : Z) : pow2 a < pow2 b -> (a < b)%Z.
Proof. intros H. apply (Qpower_lt_compat_l_inv 2); [exact H | reflexivity]. Qed.

Lemma pow2_plus (a b : Z) : pow2 (a + b) == pow2 a * pow2 b.
Proof. apply Qpower_plus. discriminate. Qed.

Lemma pow2_Z (n : Z) : (0 <= n)%Z -> pow2 n == inject_Z (2 ^ n).
Proof. intros H. unfold pow2. rewrite Zpower_Qpower by exact H. reflexivity. Qed.

(** A value on a grid of spacing [2^q] stays on every finer grid. *)
Lemma grid_refine (m : Z) (k q : Z) :
  (q <= k)%Z ->
  inject_Z m * pow2 k == inject_Z (m * 2 ^ (k - q)) * pow2 q.
Proof.
  intros H. rewrite inject_Z_mult, <- pow2_Z by lia.
  replace k with ((k - q) + q)%Z at 1 by lia.
  rewrite pow2_plus. ring.
Qed.

Lemma int_on_grid (m : Z) (q : Z) :
  (q <= 0)%Z -> inject_Z m == inject_Z (m * 2 ^ (0 - q)) * pow2 q.
Proof.
  intros H. rewrite <- (grid_refine m 0 q H).
  change (pow2 0) with 1. ring.
Qed.

Lemma Qnum_pos (x : Q) : 0 < x -> (0 < Qnum x)%Z.
Proof. unfold Qlt. simpl. lia. Qed.

Lemma Q_as_div (x : Q) : x == inject_Z (Qnum x) / inject_Z (Zpos (Qden x)).
Proof. destruct x as [n d]. simpl. apply Qmake_Qdiv. Qed.

Lemma ilog2_lower (x : Q) : 0 < x -> pow2 (ilog2 x) <= x.
Proof.
  intros Hx. unfold ilog2.
  destruct (Qle_bool (pow2 (Z.log2 (Qnum x) - Z.log2 (Zpos (Qden x)))) x)
    eqn:E; [apply Qle_bool_iff; exact E |].
  pose proof (Qnum_pos x Hx) as Hn.
  destruct (Z.log2_spec (Qnum x) Hn) as [Ha _].
  destruct (Z.log2_spec (Zpos (Qden x)) ltac:(lia)) as [_ Hb].
  pose proof (Z.log2_nonneg (Qnum x)) as Ha0.
  pose proof (Z.log2_nonneg (Zpos (Qden x))) as Hb0.
  set (a := Z.log2 (Qnum x)) in *. set (b := Z.log2 (Zpos (Qden x))) in *.
  replace (a - b - 1)%Z with (a - Z.succ b)%Z by lia.
  unfold pow2 at 1. rewrite Qpower_minus by discriminate.
  fold (pow2 a). fold (pow2 (Z.succ b)).
  rewrite (pow2_Z a), (pow2_Z (Z.succ b)) by lia.
  rewrite (Q_as_div x) at 1.
  assert (HB : 0 < inject_Z (2 ^ Z.succ b)).
  { change 0 with (inject_Z 0). rewrite <- Zlt_Qlt. lia. }
  assert (HD : 0 < inject_Z (Zpos (Qden x))).
  { change 0 with (inject_Z 0). rewrite <- Zlt_Qlt. lia. }
  apply Qle_shift_div_r; [exact HB |].
  unfold Qdiv. rewrite <- Qmult_assoc, (Qmult_comm (/ _)), Qmult_assoc.
  apply Qle_shift_div_l; [exact HD |].
  rewrite <- !inject_Z_mult, <- Zle_Qle. nia.
Qed.

Lemma ilog2_upper (x : Q) : 0 < x -> x < pow2 (ilog2 x + 1).
Proof.
  intros Hx. unfold ilog2.
  destruct (Qle_bool (pow2 (Z.log2 (Qnum x) - Z.log2 (Zpos (Qden x)))) x)
    eqn:E.
  - pose proof (Qnum_pos x Hx) as Hn.
    destruct (Z.log2_spec (Qnum x) Hn) as [_ Ha].
    destruct (Z.log2_spec (Zpos (Qden x)) ltac:(lia)) as [Hb _].
    pose proof (Z.log2_nonneg (Qnum x)) as Ha0.
    pose proof (Z.log2_nonneg (Zpos (Qden x))) as Hb0.
    set (a := Z.log2 (Qnum x)) in *. set (b := Z.log2 (Zpos (Qden x))) in *.
    replace (a - b + 1)%Z with (Z.succ a - b)%Z by lia.
    unfold pow2. rewrite Qpower_minus by discriminate.
    fold (pow2 (Z.succ a)). fold (pow2 b).
    rewrite (pow2_Z (Z.succ a)), (pow2_Z b) by lia.
    rewrite (Q_as_div x) at 1.
    assert (HB : 0 < inject_Z (2 ^ b)).
    { change 0 with (inject_Z 0). rewrite <- Zlt_Qlt. lia. }
    assert (HD : 0 < inject_Z (Zpos (Qden x))).
    { change 0 with (inject_Z 0). rewrite <- Zlt_Qlt. lia. }
    apply Qlt_shift_div_l; [exact HB |].
    unfold Qdiv. rewrite <- Qmult_assoc, (Qmult_comm (/ _)), Qmult_assoc.
    apply Qlt_shift_div_r; [exact HD |].
    rewrite <- !inject_Z_mult, <- Zlt_Qlt. nia.
  - replace (Z.log2 (Qnum x) - Z.log2 (Zpos (Qden x)) - 1 + 1)%Z
      with (Z.log2 (Qnum x) - Z.log2 (Zpos (Qden x)))%Z by lia.
    destruct (Qlt_le_dec x (pow2 (Z.log2 (Qnum x) - Z.log2 (Zpos (Qden x)))))
      as [Hlt | Hle]; [exact Hlt |].
    apply Qle_bool_iff in Hle. congruence.
Qed.

Lemma fl_zero (x : Q) : x == 0 -> fl x = 0.
Proof. intros H. unfold fl. apply Qeq_bool_iff in H. rewrite H. reflexivity. Qed.

Lemma fl_nonzero (x : Q) :
  ~ x == 0 ->
  fl x = inject_Z (round_half_even (x / pow2 (ulp_exp x))) * pow2 (ulp_exp x).
Proof.
  intros H. unfold fl. destruct (Qeq_bool x 0) eqn:E; [| reflexivity].
  apply Qeq_bool_iff in E. contradiction.
Qed.

Lemma fl_le_grid (x : Q) (m : Z) :
  x <= inject_Z m * pow2 (ulp_exp x) ->
  fl x <= inject_Z m * pow2 (ulp_exp x).
Proof.
  intros H. pose proof (pow2_pos (ulp_exp x)) as Hp.
  destruct (Qeq_dec x 0) as [Hz | Hnz].
  - rewrite (fl_zero x Hz).
    set (M := inject_Z m * pow2 (ulp_exp x)) in *. lra.
  - rewrite (fl_nonzero x Hnz).
    apply Qmult_le_compat_r; [| lra].
    rewrite <- Zle_Qle. apply round_half_even_upper.
    apply Qle_shift_div_r; [exact Hp | exact H].
Qed.

Lemma fl_ge_grid (x : Q) (m : Z) :
  inject_Z m * pow2 (ulp_exp x) <= x ->
  inject_Z m * pow2 (ulp_exp x) <= fl x.
Proof.
  intros H. pose proof (pow2_pos (ulp_exp x)) as Hp.
  destruct (Qeq_dec x 0) as [Hz | Hnz].
  - rewrite (fl_zero x Hz).
    set (M := inject_Z m * pow2 (ulp_exp x)) in *. lra.
  - rewrite (fl_nonzero x Hnz).
    apply Qmult_le_compat_r; [| lra].
    rewrite <- Zle_Qle. apply round_half_even_lower.
    apply Qle_shift_div_l; [exact Hp | exact H].
Qed.



(** The exponent of the grid of [x] is bounded by the size of [x]. *)
Lemma ulp_exp_le (x : Q) (k : Z) :
  ~ x == 0 -> Qabs x <= pow2 k -> (-1022 <= k)%Z -> (ulp_exp x <= k - 52)%Z.
Proof.
  intros Hnz Hk Hmin. unfold ulp_exp.
  assert (Hpos : 0 < Qabs x).
  { destruct (Q_dec x 0) as [[Hn | Hp] | Hz]; [| | contradiction].
    - rewrite Qabs_neg by lra. lra.
    - rewrite Qabs_pos by lra. lra. }
  pose proof (ilog2_lower (Qabs x) Hpos) as Hlow.
  assert (He : (ilog2 (Qabs x) <= k)%Z) by (apply pow2_le_inv; lra).
  lia.
Qed.



(** Rounding never crosses an integer below [2^52]. *)
Lemma fl_between_ints (x : Q) (lo hi : Z) :
  Qabs x <= pow2 52 -> inject_Z lo <= x <= inject_Z hi ->
  inject_Z lo <= fl x <= inject_Z hi.
Proof.
  intros Hsmall [Hlo Hhi].
  destruct (Qeq_dec x 0) as [Hz | Hnz].
  - rewrite (fl_zero x Hz). split; lra.
  - assert (Hq : (ulp_exp x <= 0)%Z).
    { pose proof (ulp_exp_le x 52 Hnz Hsmall ltac:(lia)). lia. }
    split.
    + rewrite (int_on_grid lo (ulp_exp x) Hq). apply fl_ge_grid.
      rewrite <- (int_on_grid lo (ulp_exp x) Hq). exact Hlo.
    + rewrite (int_on_grid hi (ulp_exp x) Hq). apply fl_le_grid.
      rewrite <- (int_on_grid hi (ulp_exp x) Hq). exact Hhi.
Qed.

Lemma fl_int (n : Z) :
  (Z.abs n <= 2 ^ 52)%Z -> fl (inject_Z n) == inject_Z n.
Proof.
  intros H.
  assert (Hs : Qabs (inject_Z n) <= pow2 52).
  { rewrite (pow2_Z 52) by lia.
    apply Qabs_case; intros _; [| rewrite <- inject_Z_opp];
      rewrite <- Zle_Qle; lia. }
  destruct (fl_between_ints (inject_Z n) n n Hs) as [H1 H2]; [lra |]. lra.
Qed.

End FloatProps.

Section ChurnAndEngagement.
Import MetricsCalculator.

(** C9: the churn probability is monotone nondecreasing in the number of
    days since the last activity (for integers a <= b the value at a is
    at most the value at b); for every input it is one of the five
    values 0.05, 0.15, 0.40, 0.75, 0.95, hence within [0.05, 0.95]. *)
Theorem churn_probability_monotone_and_ranged (a b x : Z) :
  (a <= b)%Z ->
  calculate_churn_probability a <= calculate_churn_probability b
  /\ In (calculate_churn_probability x) [0.05; 0.15; 0.40; 0.75; 0.95]
  /\ 0.05 <= calculate_churn_probability x <= 0.95.
Proof.
  intros Hab. unfold calculate_churn_probability.
  repeat match goal with
         | |- context [(?u <=? ?v)%Z] => destruct (Z.leb_spec u v)
         end;
    try lia;
    (split; [ unfold Qle; simpl; lia
            | split; [ simpl; tauto | unfold Qle; simpl; lia ] ]).
Qed.

Lemma churn_probability_monotone_and_ranged_witness :
  (10 <= 45)%Z
  /\ calculate_churn_probability 10 <= calculate_churn_probability 45
  /\ In (calculate_churn_probability 61) [0.05; 0.15; 0.40; 0.75; 0.95]
  /\ 0.05 <= calculate_churn_probability 61 <= 0.95.
Proof.
  split; [lia |].
  apply (churn_probability_monotone_and_ranged 10 45 61). lia.
Defined.

















(** With a trip count of 10^309 the quotient for the frequency score is
    too large for a float: no score is returned. *)
Lemma engagement_score_overflow :
  (0 <= 10 ^ 309)%Z /\ nonnegative (Fin 0)
  /\ calculate_engagement_score (10 ^ 309) 1 0 (Fin 0) = Raised OverflowError
  /\ ~ exists r,
        calculate_engagement_score (10 ^ 309) 1 0 (Fin 0) = Returned r
        /\ capped 100 r.
Proof.
  assert (H : calculate_engagement_score (10 ^ 309) 1 0 (Fin 0)
              = Raised OverflowError) by (vm_compute; reflexivity).
  split; [apply Z.pow_nonneg; lia |]. split; [simpl; lra |].
  split; [exact H |].
  intros (r & Hr & _). rewrite H in Hr. discriminate Hr.
Qed.



End ChurnAndEngagement.

(** ** The rate limiter *)

Section RateLimiterProps.
Import RateLimiter.



Lemma time_time_spec (w : World) :
  clock_ok w ->
  w_time w <= fst (time_time w)
  /\ w_time (snd (time_time w)) = fst (time_time w)
  /\ clock_ok (snd (time_time w))
  /\ w_sleeps (snd (time_time w)) = w_sleeps w.
Proof.
  unfold clock_ok, time_time. intros Hj.
  destruct (w_jitter w) as [| j js] eqn:E; simpl.
  - rewrite E. repeat split; try lra. constructor.
  - inversion Hj; subst. repeat split; try lra. assumption.
Qed.























End RateLimiterProps.

(** ** The connection pool *)

Section ConnectionPoolProps.
Import ConnectionPool.

Lemma perform_health_check_valid (self : t) (w : World) :
  w_import_error w = None -> isinstance_Client (client self) = true ->
  exists w',
    perform_health_check self w
    = (Some true,
       set_health CONNECTED 0 (Some (fst (time_time w))) self, w').
Proof.
  intros Himp Hcl. unfold perform_health_check, health_check_body.
  rewrite Himp, Hcl. destruct (time_time w) as [now w1]. simpl fst.
  destruct (probe_profiles w1) as [[u | e] w2]; eexists; reflexivity.
Qed.


Lemma perform_health_check_not_client (self : t) (w : World) :
  w_import_error w = None -> isinstance_Client (client self) = false ->
  perform_health_check self w = (None, self, w).
Proof.
  intros Himp Hcl. unfold perform_health_check, health_check_body.
  rewrite Himp, Hcl. reflexivity.
Qed.




End ConnectionPoolProps.

(** ** The retry loop and the query counters *)

Section RetryProps.
Import SupabaseManager.
Context {S V : Type}.
Variable func : S -> py_result V exn * S.

Lemma time_time_sleeps (w : World) :
  w_sleeps (snd (time_time w)) = w_sleeps w.
Proof. unfold time_time. destruct (w_jitter w); reflexivity. Qed.

Lemma retry_delays_app (l1 l2 : list (sleep_site * Q)) :
  retry_delays (l1 ++ l2) = retry_delays l1 ++ retry_delays l2.
Proof. unfold retry_delays. rewrite List.filter_app, List.map_app. reflexivity. Qed.

(** A limiter with a positive rate never raises, keeps its rate, and its
    own sleeps are not retry sleeps. *)
Lemma wait_if_needed_returns (rl : RateLimiter.t) (w : World) :
  0 < RateLimiter.calls_per_second rl ->
  exists rl' w',
    RateLimiter.wait_if_needed rl w = (Returned tt, rl', w')
    /\ RateLimiter.calls_per_second rl' = RateLimiter.calls_per_second rl
    /\ retry_delays (w_sleeps w') = retry_delays (w_sleeps w).
Proof.
  intros Hpos. unfold RateLimiter.wait_if_needed.
  pose proof (time_time_sleeps w) as Hs1.
  destruct (time_time w) as [c w1]. simpl in Hs1.
  destruct (Qle_bool _ _) eqn:Efull.
  - apply Qle_bool_iff in Efull.
    destruct (RateLimiter.recent c (RateLimiter.call_times rl)) as [| t0 k].
    { change (nQ (length [])) with 0 in Efull. lra. }
    destruct (Qlt_bool 0 (1 - (c - t0))).
    + pose proof (time_time_sleeps
                    (time_sleep RateLimitSleep (1 - (c - t0)) w1)) as Hs2.
      destruct (time_time _) as [a w3]. simpl in Hs2.
      eexists. eexists. split; [reflexivity |]. split; [reflexivity |].
      rewrite Hs2. simpl. rewrite retry_delays_app, Hs1. simpl.
      apply app_nil_r.
    + eexists. eexists. split; [reflexivity |]. split; [reflexivity |].
      rewrite Hs1. reflexivity.
  - eexists. eexists. split; [reflexivity |]. split; [reflexivity |].
    rewrite Hs1. reflexivity.
Qed.

Lemma limiter_wait_returns (self : t) (w : World) :
  ready self ->
  exists self' w',
    limiter_wait self w = (Returned tt, self', w')
    /\ ready self' /\ config self' = config self
    /\ query_count self' = query_count self
    /\ query_errors self' = query_errors self
    /\ retry_delays (w_sleeps w') = retry_delays (w_sleeps w).
Proof.
  intros (Hcfg & (rl & Hrl & Hpos) & Hst). unfold limiter_wait. rewrite Hrl.
  destruct (wait_if_needed_returns rl w Hpos) as (rl' & w' & -> & Hcps & Hd).
  eexists. eexists. split; [reflexivity |].
  split; [| split; [reflexivity | split; [reflexivity | split;
                                          [reflexivity | exact Hd]]]].
  split; [exact Hcfg |]. split; [| exact Hst].
  exists rl'. split; [reflexivity |]. rewrite Hcps. exact Hpos.
Qed.

Lemma ready_set_query_count (v : Z) (self : t) :
  ready self -> ready (set_query_count v self).
Proof. intros H. exact H. Qed.

Lemma ready_set_query_errors (v : Z) (self : t) :
  ready self -> ready (set_query_errors v self).
Proof. intros H. exact H. Qed.

Lemma leading_failures_le (n : nat) :
  forall s, (leading_failures func s n <= n)%nat.
Proof.
  induction n as [| n IH]; intros s; simpl; [lia |].
  destruct (func s) as [[v | e] s']; [lia |].
  specialize (IH s'). lia.
Qed.

Lemma nth_outcome_succ (s : S) (i : nat) :
  nth_outcome func s (Datatypes.S i) = nth_outcome func (snd (func s)) i.
Proof. reflexivity. Qed.

(** Every call before the first one that returns raises. *)
Lemma leading_failures_raise (n : nat) :
  forall s i, (i < leading_failures func s n)%nat ->
  exists e, nth_outcome func s i = Raised e.
Proof.
  induction n as [| n IH]; intros s i Hi; simpl in Hi; [lia |].
  destruct (func s) as [[v | e] s'] eqn:E; [lia |].
  destruct i as [| i].
  - exists e. unfold nth_outcome. simpl. rewrite E. reflexivity.
  - rewrite nth_outcome_succ, E. simpl. apply IH. lia.
Qed.

(** When fewer than [n] calls raise first, the next call returns. *)
Lemma leading_failures_return (n : nat) :
  forall s, (leading_failures func s n < n)%nat ->
  exists v, nth_outcome func s (leading_failures func s n) = Returned v.
Proof.
  induction n as [| n IH]; intros s Hk; simpl in *; [lia |].
  destruct (func s) as [[v | e] s'] eqn:E.
  - exists v. unfold nth_outcome. simpl. rewrite E. reflexivity.
  - rewrite nth_outcome_succ, E. simpl. apply IH. lia.
Qed.

Lemma retry_loop_spec (m : Z) (n : nat) :
  forall (a : nat) (delay : Q) (self : t) (s : S) (w : World),
  ready self -> m = Z.of_nat (a + n) ->
  forall r self' s' w',
  retry_loop func (seq a n) m delay self s w = (r, self', s', w') ->
  ready self' /\ config self' = config self
  /\ loop_outcome func n delay self s w r self' s' w'.
Proof.
  induction n as [| n IH]; intros a delay self s w Hready Hm r self' s' w'.
  - simpl. intros H. injection H as <- <- <- <-.
    split; [exact Hready |]. split; [reflexivity |].
    right. left. repeat split; reflexivity.
  - cbn [seq retry_loop].
    destruct (limiter_wait_returns self w Hready)
      as (self1 & w1 & -> & Hready1 & Hcfg1 & Hqc1 & Hqe1 & Hd1).
    unfold loop_outcome. cbn [leading_failures].
    destruct (func s) as [[v | e] s1] eqn:Ef.
    + (* this attempt returns *)
      intros H. injection H as <- <- <- <-.
      split; [apply ready_set_query_count; exact Hready1 |].
      split; [exact Hcfg1 |]. left.
      split; [lia |]. split.
      { exists v. unfold nth_outcome. simpl. rewrite Ef. auto. }
      simpl. rewrite Ef, Hqc1, Hqe1, Hd1, app_nil_r.
      repeat split; try reflexivity; lia.
    + (* this attempt raises *)
      set (self2 := set_query_errors (query_errors self1 + 1) self1).
      assert (Hready2 : ready self2) by exact Hready1.
      destruct (Z.of_nat a <? m - 1)%Z eqn:Elast.
      * (* another attempt follows *)
        apply Z.ltb_lt in Elast.
        intros H.
        destruct (IH (Datatypes.S a) (delay * 2) self2 s1
                    (time_sleep RetrySleep delay w1) Hready2
                    ltac:(lia) _ _ _ _ H) as (Hr' & Hc' & Hout).
        split; [exact Hr' |]. split; [rewrite Hc'; exact Hcfg1 |].
        assert (Hdel : retry_delays (w_sleeps (time_sleep RetrySleep delay w1))
                       = retry_delays (w_sleeps w) ++ [delay]).
        { simpl. rewrite retry_delays_app, Hd1. reflexivity. }
        unfold loop_outcome in Hout.
        destruct Hout as [(Hk & Hv & Hqc & Hqe & Hs & Hd)
                         | [(Hn & _) | (Hk & Hn & He & Hqc & Hqe & Hs & Hd)]].
        -- left. split; [lia |]. split.
           { rewrite nth_outcome_succ, Ef. exact Hv. }
           split; [rewrite Hqc; simpl; lia |].
           split; [rewrite Hqe; simpl; lia |].
           split; [rewrite Hs; simpl; rewrite Ef; reflexivity |].
           rewrite Hd, Hdel, <- app_assoc. reflexivity.
        -- lia.
        -- right. right. split; [lia |]. split; [lia |]. split.
           { destruct He as [e' [He1 He2]]. exists e'. split; [| exact He2].
             replace (Datatypes.S n - 1)%nat with (Datatypes.S (n - 1)) by lia.
             rewrite nth_outcome_succ, Ef. exact He1. }
           split; [rewrite Hqc; simpl; lia |].
           split; [rewrite Hqe; simpl; lia |].
           split; [rewrite Hs; simpl; rewrite Ef; reflexivity |].
           rewrite Hd, Hdel, <- app_assoc.
           replace (Datatypes.S n - 1)%nat with (Datatypes.S (n - 1)) by lia.
           reflexivity.
      * (* this was the last attempt *)
        apply Z.ltb_ge in Elast.
        assert (Hn : n = O) by lia. subst n.
        intros H. injection H as <- <- <- <-.
        split; [exact Hready2 |]. split; [exact Hcfg1 |].
        right. right. simpl.
        split; [reflexivity |]. split; [lia |]. split.
        { exists e. unfold nth_outcome. simpl. rewrite Ef. auto. }
        rewrite Hqc1, Hqe1, Hd1, Ef, app_nil_r.
        repeat split; try reflexivity; lia.
Qed.

Lemma execute_with_retry_spec (self : t) (s : S) (w : World) :
  ready self -> (0 < max_retries_of self)%nat ->
  forall r self' s' w',
  execute_with_retry self func s w = (r, self', s', w') ->
  ready self' /\ config self' = config self
  /\ loop_outcome func (max_retries_of self) (1 # 2) self s w r self' s' w'.
Proof.
  intros Hready Hm r self' s' w'. unfold execute_with_retry, max_retries_of in *.
  destruct (Hready) as ([cfg Hcfg] & _). rewrite Hcfg in *.
  intros Hrun.
  apply (retry_loop_spec (SupabaseConfig.max_retries cfg)
           (Z.to_nat (SupabaseConfig.max_retries cfg)) 0 (1 # 2)
           self s w Hready ltac:(simpl; lia) _ _ _ _) in Hrun.
  rewrite Hcfg in Hrun. exact Hrun.
Qed.

(** C1: [execute_with_retry] calls the wrapped function at most
    [max_retries] times (3 in the production configuration). It returns
    the result of the first call that returns, having slept between
    attempts for delays that start at 0.5 seconds and double after each
    failed attempt; it re-raises the exception of the last attempt if and
    only if all [max_retries] attempts raise. *)
Theorem execute_with_retry_backoff (self : t) (s : S) (w : World) :
  ready self -> (0 < max_retries_of self)%nat ->
  forall r self' s' w',
  execute_with_retry self func s w = (r, self', s', w') ->
  let m := max_retries_of self in
  (exists k : nat,
     (k <= m)%nat
     /\ (forall i, (i < k)%nat -> exists e, nth_outcome func s i = Raised e)
     /\ (((k < m)%nat
          /\ exists v, nth_outcome func s k = Returned v
                       /\ r = Returned (Some v)
                       /\ s' = state_after func s (Datatypes.S k)
                       /\ retry_delays (w_sleeps w')
                          = retry_delays (w_sleeps w) ++ backoff (1 # 2) k)
         \/ (k = m
             /\ exists e, nth_outcome func s (m - 1) = Raised e
                          /\ r = Raised e
                          /\ s' = state_after func s m
                          /\ retry_delays (w_sleeps w')
                             = retry_delays (w_sleeps w)
                               ++ backoff (1 # 2) (m - 1))))
  /\ ((exists e, r = Raised e)
      <-> forall i, (i < m)%nat -> exists e, nth_outcome func s i = Raised e)
  /\ (forall w0 cfg,
        SupabaseConfig.get_config PRODUCTION w0 = Returned cfg ->
        SupabaseConfig.max_retries cfg = 3%Z)
  /\ Forall2 Qeq (backoff (1 # 2) 4) [0.5; 1; 2; 4].
Proof.
  intros Hready Hm r self' s' w' Hrun m.
  destruct (execute_with_retry_spec self s w Hready Hm _ _ _ _ Hrun)
    as (_ & _ & Hout).
  fold m in Hout. unfold loop_outcome in Hout.
  pose proof (leading_failures_le m s) as Hle.
  pose proof (leading_failures_raise m s) as Hraise.
  set (k := leading_failures func s m) in *.
  assert (Hmain :
    ((k < m)%nat
     /\ exists v, nth_outcome func s k = Returned v
                  /\ r = Returned (Some v)
                  /\ s' = state_after func s (Datatypes.S k)
                  /\ retry_delays (w_sleeps w')
                     = retry_delays (w_sleeps w) ++ backoff (1 # 2) k)
    \/ (k = m
        /\ exists e, nth_outcome func s (m - 1) = Raised e
                     /\ r = Raised e
                     /\ s' = state_after func s m
                     /\ retry_delays (w_sleeps w')
                        = retry_delays (w_sleeps w) ++ backoff (1 # 2) (m - 1))).
  { destruct Hout as [(Hk & (v & Hv & Hr) & _ & _ & Hs & Hd)
                     | [(Hn & _) | (Hk & _ & (e & He & Hr) & _ & _ & Hs & Hd)]].
    - left. split; [exact Hk |]. exists v. auto.
    - unfold m in Hn. lia.
    - right. split; [exact Hk |]. exists e. auto. }
  split; [| split; [| split]].
  - exists k. split; [exact Hle |]. split; [exact Hraise | exact Hmain].
  - split.
    + intros [e He].
      destruct Hmain as [(_ & v & _ & Hr & _) | (Hk & _)]; [congruence |].
      rewrite <- Hk. exact Hraise.
    + intros Hall.
      destruct Hmain as [(Hk & v & Hv & _) | (_ & e & _ & Hr & _)].
      * destruct (Hall k Hk) as [e He]. congruence.
      * exists e. exact Hr.
  - intros w0 cfg. unfold SupabaseConfig.get_config.
    destruct (_ || _); [discriminate |].
    intros H. injection H as <-. reflexivity.
  - repeat constructor.
Qed.

End RetryProps.

Section MetricsProps.
Import SupabaseManager.
Context {S V : Type}.

Lemma get_metrics_spec (self : t) (w : World) :
  ready self ->
  exists metrics self' w',
    get_metrics self w = (Returned metrics, self', w')
    /\ total_queries metrics = query_count self
    /\ failed_queries metrics = query_errors self
    /\ success_rate metrics = success_rate_of self
    /\ ready self' /\ config self' = config self
    /\ query_count self' = query_count self
    /\ query_errors self' = query_errors self.
Proof.
  intros (Hcfg & (rl & Hrl & Hpos) & (started & Hst)).
  unfold get_metrics. destruct (time_time w) as [now w1]. rewrite Hst.
  destruct (connection_pool self) as [pool |] eqn:Hpool.
  - destruct (ConnectionPool.get_status pool w1) as [[st pool'] w2].
    simpl. rewrite Hrl.
    eexists. eexists. eexists. split; [reflexivity |].
    simpl. repeat split; auto.
    + exists rl. auto.
    + exists started. exact Hst.
  - rewrite Hrl.
    eexists. eexists. eexists. split; [reflexivity |].
    simpl. repeat split; auto.
    + exists rl. auto.
    + exists started. exact Hst.
Qed.

Lemma reset_metrics_spec (self : t) (w : World) :
  ready self ->
  forall self' w', reset_metrics self w = (self', w') ->
  ready self' /\ config self' = config self
  /\ query_count self' = 0%Z /\ query_errors self' = 0%Z.
Proof.
  intros (Hcfg & Hrl & Hst) self' w'. unfold reset_metrics.
  destruct (time_time w) as [now w1]. intros H. injection H as <- <-.
  simpl. repeat split; auto. exists now. reflexivity.
Qed.

(** The counters follow the tally over any trace of operations. *)
Lemma run_ops_tally (ops : list (op S V)) :
  forall (self : t) (s : S) (w : World),
  ready self -> (0 < max_retries_of self)%nat ->
  forall self' s' w', run_ops ops (self, s, w) = (self', s', w') ->
  ready self' /\ config self' = config self
  /\ (query_count self', query_errors self')
     = tally (max_retries_of self) ops s (query_count self) (query_errors self).
Proof.
  induction ops as [| o ops IH]; intros self s w Hready Hm self' s' w'.
  - simpl. intros H. injection H as <- <- <-. auto.
  - unfold run_ops. simpl. fold (run_ops ops).
    destruct o as [func | |].
    + (* Execute *)
      destruct (execute_with_retry self func s w) as [[[r self1] s1] w1] eqn:E.
      destruct (execute_with_retry_spec func self s w Hready Hm _ _ _ _ E)
        as (Hready1 & Hcfg1 & Hout).
      assert (Hm1 : max_retries_of self1 = max_retries_of self)
        by (unfold max_retries_of; rewrite Hcfg1; reflexivity).
      intros H.
      destruct (IH self1 s1 w1 Hready1 ltac:(lia) _ _ _ H)
        as (Hr & Hc & Ht).
      split; [exact Hr |]. split; [congruence |].
      rewrite Ht, Hm1. unfold loop_outcome in Hout.
      destruct Hout as [(Hk & _ & Hqc & Hqe & Hs & _)
                       | [(Hn & _) | (Hk & _ & _ & Hqc & Hqe & Hs & _)]].
      * apply Nat.ltb_lt in Hk. rewrite Hk, Hqc, Hqe, Hs. reflexivity.
      * lia.
      * rewrite Hk, Nat.ltb_irrefl, Hqc, Hqe, Hs. reflexivity.
    + (* ResetMetrics *)
      destruct (reset_metrics self w) as [self1 w1] eqn:E.
      destruct (reset_metrics_spec self w Hready _ _ E)
        as (Hready1 & Hcfg1 & Hqc & Hqe).
      assert (Hm1 : max_retries_of self1 = max_retries_of self)
        by (unfold max_retries_of; rewrite Hcfg1; reflexivity).
      intros H.
      destruct (IH self1 s w1 Hready1 ltac:(lia) _ _ _ H)
        as (Hr & Hc & Ht).
      split; [exact Hr |]. split; [congruence |].
      rewrite Ht, Hm1, Hqc, Hqe. reflexivity.
    + (* GetMetrics *)
      destruct (get_metrics_spec self w Hready)
        as (metrics & self1 & w1 & E & _ & _ & _ & Hready1 & Hcfg1 & Hqc & Hqe).
      rewrite E.
      assert (Hm1 : max_retries_of self1 = max_retries_of self)
        by (unfold max_retries_of; rewrite Hcfg1; reflexivity).
      intros H.
      destruct (IH self1 s w1 Hready1 ltac:(lia) _ _ _ H)
        as (Hr & Hc & Ht).
      split; [exact Hr |]. split; [congruence |].
      rewrite Ht, Hm1, Hqc, Hqe. reflexivity.
Qed.

(** C4: after any trace of executions, resets and metric reads on a
    manager whose counters start at zero, [get_metrics] reports as
    total_queries the number of executions since the last reset in which
    an attempt returned, as failed_queries the number of attempts that
    raised since then (those later retried with success included), and as
    success_rate (total_queries - failed_queries) / total_queries * 100 when
    total_queries > 0 and 0 otherwise. *)
Theorem get_metrics_counts (ops : list (op S V)) (self : t) (s : S) (w : World) :
  ready self -> (0 < max_retries_of self)%nat ->
  query_count self = 0%Z -> query_errors self = 0%Z ->
  forall self' s' w', run_ops ops (self, s, w) = (self', s', w') ->
  exists metrics self'' w'',
    get_metrics self' w' = (Returned metrics, self'', w'')
    /\ (total_queries metrics, failed_queries metrics)
       = tally (max_retries_of self) ops s 0 0
    /\ success_rate metrics
       = if (0 <? total_queries metrics)%Z
         then inject_Z (total_queries metrics - failed_queries metrics)
              / inject_Z (total_queries metrics) * 100
         else 0.
Proof.
  intros Hready Hm Hqc Hqe self' s' w' Hrun.
  destruct (run_ops_tally ops self s w Hready Hm _ _ _ Hrun)
    as (Hready' & _ & Ht).
  destruct (get_metrics_spec self' w' Hready')
    as (metrics & self'' & w'' & E & Htot & Hfail & Hrate & _).
  exists metrics, self'', w''. split; [exact E |]. split.
  - rewrite Htot, Hfail, Ht, Hqc, Hqe. reflexivity.
  - rewrite Hrate, Htot, Hfail. reflexivity.
Qed.

End MetricsProps.

(** ** The singleton *)

Section SingletonProps.
Import SupabaseManager.

Lemma init_body_returned (env_arg : Environment) (self : t) (w : World) :
  forall self' w', init_body env_arg self w = (Returned tt, self', w') ->
  initialized self' = true.
Proof.
  intros self' w'. unfold init_body.
  destruct (SupabaseConfig.get_config env_arg w) as [cfg | e]; [| discriminate].
  destruct (RateLimiter.init 10) as [rl | e]; [| discriminate].
  destruct (time_time w) as [now w1].
  destruct (_initialize_client _ w1) as [[[u | e] self1] w2]; [| discriminate].
  intros H. injection H as <- <-. reflexivity.
Qed.

Lemma __init___returned (env_arg : Environment) (self : t) (w : World) :
  forall u self' w', __init__ env_arg self w = (Returned u, self', w') ->
  initialized self' = true.
Proof.
  intros [] self' w'. unfold __init__.
  destruct (initialized self) eqn:E; simpl.
  - intros H. injection H as <- <-. exact E.
  - apply init_body_returned.
Qed.

(** Once the instance exists, [__new__] hands it out and keeps the class
    attribute. *)
Lemma construct_keeps_instance (env_arg : Environment) (py : Py) (w : World)
    (l : nat) :
  _instance py = Some l ->
  forall r py' w', construct env_arg py w = (r, py', w') ->
  _instance py' = Some l /\ (forall a, r = Returned a -> a = l).
Proof.
  intros Hi r py' w'. unfold construct, __new__. rewrite Hi.
  destruct (heap py !! l) as [self |].
  - destruct (__init__ env_arg self w) as [[[u | e] self1] w1];
      intros H; injection H as <- <- <-; simpl;
      (split; [exact Hi | intros a Ha; congruence]).
  - intros H. injection H as <- <- <-. split; [exact Hi | discriminate].
Qed.

(** A construction that returns leaves the instance settled, and the
    object it returns is the class's instance. *)
Lemma construct_returned (env_arg : Environment) (py : Py) (w : World) :
  forall l py' w', construct env_arg py w = (Returned l, py', w') ->
  _instance py' = Some l
  /\ exists self, heap py' !! l = Some self /\ initialized self = true.
Proof.
  intros l py' w'. unfold construct.
  destruct (__new__ env_arg py) as [l0 py0] eqn:En.
  destruct (heap py0 !! l0) as [self |] eqn:Eh; [| discriminate].
  destruct (__init__ env_arg self w) as [[[u | e] self1] w1] eqn:Ei;
    [| discriminate].
  intros H. injection H as <- <- <-. simpl.
  split.
  - unfold __new__ in En. destruct (_instance py) as [l1 |] eqn:E.
    + injection En as <- <-. exact E.
    + injection En as <- <-. reflexivity.
  - exists self1. split.
    + apply list_lookup_insert_eq. apply lookup_lt_Some in Eh. exact Eh.
    + apply (__init___returned env_arg self w u self1 w1 Ei).
Qed.

(** On a settled instance a construction returns it, runs no body, and
    changes neither the objects nor the world. *)
Lemma construct_settled (env_arg : Environment) (py : Py) (w : World)
    (l : nat) (self : t) :
  _instance py = Some l -> heap py !! l = Some self ->
  initialized self = true ->
  construct env_arg py w = (Returned l, py, w) /\ runs_body py = false.
Proof.
  intros Hi Hh Hinit. split.
  - unfold construct, __new__. rewrite Hi, Hh. unfold __init__.
    rewrite Hinit. simpl. rewrite list_insert_id by exact Hh.
    destruct py; reflexivity.
  - unfold runs_body. rewrite Hi, Hh, Hinit. reflexivity.
Qed.

Lemma constructions_settled (envs : list Environment) :
  forall (py : Py) (w : World) (l : nat) (self : t),
  _instance py = Some l -> heap py !! l = Some self ->
  initialized self = true ->
  constructions envs py w = (map (fun _ => (false, Returned l)) envs, py, w).
Proof.
  induction envs as [| e envs IH]; intros py w l self Hi Hh Hinit; simpl;
    [reflexivity |].
  destruct (construct_settled e py w l self Hi Hh Hinit) as [-> ->].
  rewrite (IH py w l self Hi Hh Hinit). reflexivity.
Qed.

Lemma completed_none (envs : list Environment) (l : nat) :
  length (List.filter completed_body
            (map (fun _ : Environment => (false, @Returned nat exn l)) envs))
  = O.
Proof. induction envs as [| e envs IH]; simpl; [reflexivity | exact IH]. Qed.

(** The body runs to its end at most once in any sequence. *)
Lemma constructions_complete_once (envs : list Environment) :
  forall (py : Py) (w : World) rs py' w',
  constructions envs py w = (rs, py', w') ->
  (length (List.filter completed_body rs) <= 1)%nat.
Proof.
  induction envs as [| e envs IH]; intros py w rs py' w'; simpl.
  - intros H. injection H as <- <- <-. simpl. lia.
  - destruct (construct e py w) as [[r py1] w1] eqn:Ec.
    destruct (constructions envs py1 w1) as [[rs1 py2] w2] eqn:Er.
    intros H. injection H as <- <- <-. simpl.
    destruct r as [l | ex].
    + destruct (construct_returned e py w l py1 w1 Ec)
        as (Hi & self & Hh & Hinit).
      rewrite (constructions_settled envs py1 w1 l self Hi Hh Hinit) in Er.
      injection Er as <- <- <-.
      destruct (runs_body py); simpl; rewrite completed_none; lia.
    + pose proof (IH py1 w1 _ _ _ Er).
      destruct (runs_body py); simpl; lia.
Qed.

(** Every object returned in a sequence is the class's instance at the
    end of it. *)
Lemma constructions_same_object (envs : list Environment) :
  forall (py : Py) (w : World) rs py' w',
  constructions envs py w = (rs, py', w') ->
  (forall l, _instance py = Some l -> _instance py' = Some l)
  /\ (forall b a, In (b, Returned a) rs -> _instance py' = Some a).
Proof.
  induction envs as [| e envs IH]; intros py w rs py' w'; simpl.
  - intros H. injection H as <- <- <-. split; [auto | intros b a []].
  - destruct (construct e py w) as [[r py1] w1] eqn:Ec.
    destruct (constructions envs py1 w1) as [[rs1 py2] w2] eqn:Er.
    intros H. injection H as <- <- <-.
    destruct (IH py1 w1 _ _ _ Er) as [Hkeep Hin].
    split.
    + intros l Hl. apply Hkeep.
      apply (construct_keeps_instance e py w l Hl _ _ _ Ec).
    + intros b a [Heq | Hrest]; [| exact (Hin b a Hrest)].
      injection Heq as _ ->. apply Hkeep.
      apply (construct_returned e py w a py1 w1 Ec).
Qed.

(** C3 (amended): all constructions that return, in any order and with
    any environment arguments, return the identical object; the
    initialization body runs to its end at most once; and once a
    construction has returned, every later construction returns the same
    object without running the body and leaves every object and the world
    unchanged. (A construction that raises leaves the instance
    uninitialized, and the next construction runs the body again on it.) *)
Theorem singleton_once_initialized (envs : list Environment) (py0 : Py)
    (w0 : World) (env1 env2 : Environment) (py : Py) (w : World) :
  (forall rs py' w', constructions envs py0 w0 = (rs, py', w') ->
     (forall b1 a1 b2 a2,
        In (b1, Returned a1) rs -> In (b2, Returned a2) rs -> a1 = a2)
     /\ (length (List.filter completed_body rs) <= 1)%nat)
  /\ (forall l py1 w1, construct env1 py w = (Returned l, py1, w1) ->
        construct env2 py1 w1 = (Returned l, py1, w1)
        /\ runs_body py1 = false
        /\ forall more,
             constructions more py1 w1
             = (map (fun _ => (false, Returned l)) more, py1, w1))
  /\ (forall name py' w' l,
        get_supabase_manager name py w = (Returned l, py', w') ->
        construct env2 py' w' = (Returned l, py', w')).
Proof.
  split; [| split].
  - intros rs py' w' Hrun. split.
    + destruct (constructions_same_object envs py0 w0 _ _ _ Hrun) as [_ Hin].
      intros b1 a1 b2 a2 H1 H2.
      pose proof (Hin _ _ H1) as E1. pose proof (Hin _ _ H2) as E2.
      congruence.
    + apply (constructions_complete_once envs py0 w0 _ _ _ Hrun).
  - intros l py1 w1 Hc.
    destruct (construct_returned env1 py w l py1 w1 Hc)
      as (Hi & self & Hh & Hinit).
    destruct (construct_settled env2 py1 w1 l self Hi Hh Hinit) as [H1 H2].
    split; [exact H1 |]. split; [exact H2 |].
    intros more. apply (constructions_settled more py1 w1 l self Hi Hh Hinit).
  - intros name py' w' l Hc. unfold get_supabase_manager in Hc.
    destruct (construct_returned _ py w l py' w' Hc)
      as (Hi & self & Hh & Hinit).
    apply (construct_settled env2 py' w' l self Hi Hh Hinit).
Qed.

(** With development credentials only, constructing for production raises
    and leaves the instance uninitialized; constructing for development
    then runs the body a second time on the same object and replaces its
    environment. *)
Lemma singleton_body_runs_again :
  (exists msg py1,
     construct PRODUCTION empty_py dev_only_world
     = (Raised (ValueError msg), py1, dev_only_world)
     /\ env <$> heap py1 !! O = Some PRODUCTION
     /\ runs_body py1 = true
     /\ exists py2 w2,
          construct DEVELOPMENT py1 dev_only_world = (Returned O, py2, w2)
          /\ env <$> heap py2 !! O = Some DEVELOPMENT)
  /\ ~ second_construction_inert PRODUCTION DEVELOPMENT dev_only_world.
Proof.
  split.
  - eexists. eexists. split; [vm_compute; reflexivity |].
    split; [reflexivity |]. split; [reflexivity |].
    eexists. eexists. split; vm_compute; reflexivity.
  - unfold second_construction_inert. vm_compute.
    intros [H _]. discriminate.
Qed.

Lemma connect_attempt_core (cfg : SupabaseConfig.t) (self : t) (w : World) :
  forall r self' w', connect_attempt cfg self w = (r, self', w') ->
  same_core self' self.
Proof.
  intros r self' w'. unfold connect_attempt.
  destruct (create_client _ _ w) as [[c | e] w1].
  - destruct (ConnectionPool.perform_health_check _ w1) as [[ok pool] w2].
    destruct ok as [[|] |]; intros H; injection H as <- <- <-;
      repeat split; reflexivity.
  - intros H. injection H as <- <- <-. repeat split; reflexivity.
Qed.

Lemma connect_loop_core (attempts : list nat) :
  forall (m : Z) (delay : Q) (cfg : SupabaseConfig.t) (self : t) (w : World)
         r self' w',
  connect_loop attempts m delay cfg self w = (r, self', w') ->
  same_core self' self.
Proof.
  induction attempts as [| a attempts IH];
    intros m delay cfg self w r self' w'; simpl.
  - intros H. injection H as <- <- <-. repeat split; reflexivity.
  - destruct (connect_attempt cfg self w) as [[[u | e] self1] w1] eqn:E;
      pose proof (connect_attempt_core cfg self w _ _ _ E) as Hc.
    + intros H. injection H as <- <- <-. exact Hc.
    + destruct (Z.of_nat a <? m - 1)%Z.
      * intros H. apply IH in H. unfold same_core in *.
        destruct H as (-> & -> & -> & -> & ->). exact Hc.
      * intros H. injection H as <- <- <-. exact Hc.
Qed.

(** What a completed initialization leaves: a manager that is ready, with
    the retry budget of its environment (3 in production) and both
    counters at zero. *)
Lemma init_body_ready (env_arg : Environment) (self : t) (w : World) :
  forall self' w', init_body env_arg self w = (Returned tt, self', w') ->
  ready self'
  /\ config self' = Some (SupabaseConfig.configs (w_environ w) env_arg)
  /\ (0 < max_retries_of self')%nat
  /\ query_count self' = 0%Z /\ query_errors self' = 0%Z
  /\ exists rl, rate_limiter self' = Some rl
                /\ RateLimiter.calls_per_second rl = 10.
Proof.
  intros self' w'. unfold init_body, SupabaseConfig.get_config.
  destruct (_ || _); [discriminate |].
  change (RateLimiter.init 10) with (@Returned _ exn (RateLimiter.fresh 10)).
  cbv iota.
  destruct (time_time w) as [now w1].
  destruct (_initialize_client _ w1) as [[[u | e] self1] w2] eqn:E;
    [| discriminate].
  intros H. injection H as <- <-.
  unfold _initialize_client in E. simpl in E.
  apply connect_loop_core in E.
  destruct E as (Hc & Hr & Hs & Hqc & Hqe). simpl in Hc, Hr, Hs, Hqc, Hqe.
  unfold ready, max_retries_of. simpl. rewrite Hc, Hr, Hs, Hqc, Hqe.
  split; [| split; [reflexivity | split; [| split; [reflexivity | split;
                                                    [reflexivity |]]]]].
  - split; [eexists; reflexivity |]. split; [| eexists; reflexivity].
    eexists. split; [reflexivity |]. reflexivity.
  - destruct env_arg; simpl; lia.
  - eexists. split; reflexivity.
Qed.

End SingletonProps.

(** ** The dashboard aggregates *)

Section DashboardProps.
Import Dashboard.






(** A period of 10^9 days does not fit a Timedelta: the function answers 0
    although all four trips, by three users, are later than the cutoff. *)
Lemma active_users_out_of_range :
  get_active_users sample_backend day100_world 1000000000 = 0%Z
  /\ ~ exists ids : list (option string),
        NoDup ids
        /\ (forall u, In u ids
                      <-> exists r, In r (trips sample_backend)
                                    /\ (exists t,
                                          trip_created_at r = Some t
                                          /\ 100 * 86400 - 1000000000 * 86400
                                             <= t)
                                    /\ trip_user_id r = u)
        /\ get_active_users sample_backend day100_world 1000000000
           = Z.of_nat (length ids).
Proof.
  assert (H : get_active_users sample_backend day100_world 1000000000 = 0%Z)
    by (vm_compute; reflexivity).
  split; [exact H |].
  intros (ids & _ & Hids & Hlen).
  rewrite H in Hlen.
  destruct ids as [| u ids]; [| simpl in Hlen; lia].
  apply (proj2 (Hids (Some "ana"%string))).
  eexists. split; [left; reflexivity |].
  split; [| reflexivity].
  eexists. split; [reflexivity |]. vm_compute. discriminate.
Qed.

(** [value_counts] holds, for each tier, the number of profiles in it. *)
Lemma value_counts_lookup (rows : list ProfileRow) (tier : string) :
  get_or_zero (value_counts rows) tier = profiles_in_tier tier rows.
Proof.
  unfold get_or_zero, profiles_in_tier.
  induction rows as [| r rows IH]; simpl; [reflexivity |].
  destruct (subscription_tier r) as [t |]; [| exact IH].
  destruct (String.eqb_spec t tier) as [-> | Hne].
  - rewrite lookup_insert_eq. simpl. rewrite IH. lia.
  - rewrite lookup_insert_ne by exact Hne. exact IH.
Qed.

(** C7: for a non-empty list of profiles [get_revenue_metrics] returns mrr
    equal to the sum over the five tiers (free 0, basic 9.99, premium
    19.99, pro 39.99, enterprise 99.99) of the number of profiles in the
    tier times its price, arr equal to 12 times mrr, arpu equal to mrr
    over the number of profiles, and a tier distribution that gives each
    tier its count, count times price as revenue and count over total
    users times 100 as percentage; for an empty list it returns the empty
    dictionary. *)
Theorem revenue_metrics_by_tier (b : Backend) :
  let n (tier : string) := profiles_in_tier tier (profiles b) in
  let total := Z.of_nat (length (profiles b)) in
  (query_fails b = None -> profiles b <> [] ->
   exists r,
     get_revenue_metrics b = Some r
     /\ mrr r == inject_Z (n "free") * 0 + inject_Z (n "basic") * 9.99
                 + inject_Z (n "premium") * 19.99 + inject_Z (n "pro") * 39.99
                 + inject_Z (n "enterprise") * 99.99
     /\ arr r = mrr r * 12
     /\ arpu r = mrr r / inject_Z total
     /\ total_users r = total
     /\ tier_distribution r
        = map (fun kv =>
                 (fst kv,
                  {| count := n (fst kv);
                     revenue := inject_Z (n (fst kv)) * snd kv;
                     percentage := inject_Z (n (fst kv)) / inject_Z total * 100 |}))
            pricing)
  /\ (query_fails b = None -> profiles b = [] -> get_revenue_metrics b = None)
  /\ (forall e, query_fails b = Some e -> get_revenue_metrics b = None).
Proof.
  intros n total. split; [| split].
  - intros Hok Hne. unfold get_revenue_metrics, select_profiles. rewrite Hok.
    destruct (profiles b) as [| p ps] eqn:Ep; [congruence |].
    assert (Hpos : (0 <? Z.of_nat (length (p :: ps)))%Z = true)
      by (apply Z.ltb_lt; simpl; lia).
    rewrite Hpos. eexists. split; [reflexivity |].
    cbn [mrr arr arpu total_users tier_distribution].
    split; [| split; [reflexivity | split; [reflexivity | split;
                                            [reflexivity |]]]].
    + unfold py_sum, pricing. cbn [map fold_left fst snd].
      repeat match goal with
             | |- context [lower ?t] =>
                 let t' := eval vm_compute in (lower t) in
                 change (lower t) with t'
             end.
      rewrite !value_counts_lookup. unfold n. ring.
    + unfold pricing. cbn [map fst snd].
      rewrite !value_counts_lookup. reflexivity.
  - intros Hok He. unfold get_revenue_metrics, select_profiles.
    rewrite Hok, He. reflexivity.
  - intros e He. unfold get_revenue_metrics, select_profiles.
    rewrite He. reflexivity.
Qed.

End DashboardProps.

(** ** The trip validator *)

Section DataValidatorProps.
Import DataValidator.
Variable parse_number : string -> option Q.
Variable parse_datetime : py_val -> option Q.
Variable tz_aware : list py_val -> bool.







End DataValidatorProps.

(** ** Worked instances *)

Section Instances.
Import SupabaseManager.

Lemma sample_manager_ready :
  ready sample_manager /\ (0 < max_retries_of sample_manager)%nat.
Proof.
  split; [| vm_compute; lia].
  split; [| split].
  - eexists. vm_compute. reflexivity.
  - eexists. split; [vm_compute; reflexivity |]. vm_compute. reflexivity.
  - eexists. vm_compute. reflexivity.
Defined.

(** In production the third attempt of [flaky] returns, after sleeps of
    0.5 and 1 second. *)
Lemma execute_with_retry_backoff_witness :
  ready sample_manager /\ (0 < max_retries_of sample_manager)%nat
  /\ (let '(r, _, s', w') :=
        execute_with_retry sample_manager flaky O prod_world in
      r = Returned (Some 20%Z) /\ s' = 3%nat
      /\ retry_delays (w_sleeps w') = [1 # 2; (1 # 2) * 2])
  /\ ((exists e,
         fst (fst (fst (execute_with_retry sample_manager flaky O prod_world)))
         = Raised e)
      <-> forall i, (i < 3)%nat -> exists e, nth_outcome flaky O i = Raised e).
Proof.
  destruct sample_manager_ready as [Hready Hm].
  split; [exact Hready |]. split; [exact Hm |].
  split; [vm_compute; auto |].
  destruct (execute_with_retry sample_manager flaky O prod_world)
    as [[[r self'] s'] w'] eqn:E.
  exact (proj1 (proj2 (execute_with_retry_backoff flaky sample_manager O
                         prod_world Hready Hm r self' s' w' E))).
Defined.

Lemma prod_world_clock_ok : clock_ok prod_world.
Proof.
  unfold clock_ok. simpl.
  repeat (constructor; [unfold Qle; simpl; lia |]). constructor.
Defined.


(** Three executions in production: [flaky] (two failures, then a
    result), [broken] (three failures), [flaky] again (a result at once). *)
Lemma get_metrics_counts_witness :
  ready sample_manager /\ (0 < max_retries_of sample_manager)%nat
  /\ query_count sample_manager = 0%Z /\ query_errors sample_manager = 0%Z
  /\ tally 3 [Execute flaky; Execute broken; GetMetrics; Execute flaky]
       O 0 0 = (2%Z, 5%Z)
  /\ forall self' s' w',
       run_ops [Execute flaky; Execute broken; GetMetrics; Execute flaky]
         (sample_manager, O, prod_world) = (self', s', w') ->
       exists metrics self'' w'',
         get_metrics self' w' = (Returned metrics, self'', w'')
         /\ (total_queries metrics, failed_queries metrics)
            = tally (max_retries_of sample_manager)
                [Execute flaky; Execute broken; GetMetrics; Execute flaky]
                O 0 0
         /\ success_rate metrics
            = if (0 <? total_queries metrics)%Z
              then inject_Z (total_queries metrics - failed_queries metrics)
                   / inject_Z (total_queries metrics) * 100
              else 0.
Proof.
  destruct sample_manager_ready as [Hready Hm].
  split; [exact Hready |]. split; [exact Hm |].
  split; [reflexivity |]. split; [reflexivity |].
  split; [reflexivity |].
  exact (get_metrics_counts
           [Execute flaky; Execute broken; GetMetrics; Execute flaky]
           sample_manager O prod_world Hready Hm eq_refl eq_refl).
Defined.


(** Three constructions with production credentials. *)
Lemma singleton_once_initialized_witness :
  fst (fst (constructions [PRODUCTION; DEVELOPMENT; TESTING] empty_py
              prod_world))
  = [(true, Returned O); (false, Returned O); (false, Returned O)]
  /\ forall rs py' w',
       constructions [PRODUCTION; DEVELOPMENT; TESTING] empty_py prod_world
       = (rs, py', w') ->
       (forall b1 a1 b2 a2,
          In (b1, Returned a1) rs -> In (b2, Returned a2) rs -> a1 = a2)
       /\ (length (List.filter completed_body rs) <= 1)%nat.
Proof.
  split; [vm_compute; reflexivity |].
  exact (proj1 (singleton_once_initialized
                  [PRODUCTION; DEVELOPMENT; TESTING] empty_py prod_world
                  PRODUCTION PRODUCTION empty_py prod_world)).
Defined.


(** Six profiles: one free, two basic, one pro, one with an unknown tier
    and one without a tier. *)
Lemma revenue_metrics_by_tier_witness :
  profiles sample_backend <> []
  /\ exists r,
       Dashboard.get_revenue_metrics sample_backend = Some r
       /\ Dashboard.mrr r == 59.97 /\ Dashboard.arr r == 719.64
       /\ Dashboard.arpu r == 9.995 /\ Dashboard.total_users r = 6%Z.
Proof.
  split; [discriminate |].
  destruct (proj1 (revenue_metrics_by_tier sample_backend) eq_refl
              ltac:(discriminate))
    as (r & Hr & Hmrr & Harr & Harpu & Htot & _).
  exists r. split; [exact Hr |].
  assert (Hm : Dashboard.mrr r == 59.97) by (rewrite Hmrr; reflexivity).
  split; [exact Hm |]. split; [rewrite Harr, Hm; reflexivity |].
  split; [rewrite Harpu, Hm; reflexivity | exact Htot].
Defined.


End Instances.

(** * Further properties of the code *)

(** ** Environments and configuration *)

Section ConfigProps.
Import SupabaseConfig SupabaseManager.

(** X1: [Environment(value)] inverts [.value] on the four environments and
    accepts no other name, and [get_supabase_manager] constructs for the
    named environment, falling back to production for any other name. *)
Theorem Environment_value_round_trip (e : Environment) (name : string)
    (py : Py) (w : World) :
  Environment_of_value (Environment_value e) = Some e
  /\ (Environment_of_value name = Some e <-> name = Environment_value e)
  /\ get_supabase_manager (Environment_value e) py w = construct e py w
  /\ (Environment_of_value name = None ->
      get_supabase_manager name py w = construct PRODUCTION py w).
Proof.
  assert (Hrt : forall e0, Environment_of_value (Environment_value e0) = Some e0)
    by (intros []; reflexivity).
  split; [apply Hrt |]. split; [| split].
  - split.
    + unfold Environment_of_value.
      repeat match goal with
             | |- context [String.eqb name ?t] =>
                 destruct (String.eqb_spec name t) as [-> | _]
             end; intros H; try discriminate; injection H as <-; reflexivity.
    + intros ->. apply Hrt.
  - unfold get_supabase_manager. rewrite Hrt. reflexivity.
  - intros H. unfold get_supabase_manager. rewrite H. reflexivity.
Qed.

(** X2: whenever [get_config] returns, the configuration carries a
    non-empty URL and a non-empty key, a retry budget of 1, 3 or 5 and a
    timeout of 10, 30 or 60 seconds; whenever it raises, it raises
    ValueError and the URL or the key is missing or empty. *)
Theorem get_config_postcondition (env : Environment) (w : World) :
  (forall cfg, get_config env w = Returned cfg ->
     (exists u k, url cfg = Some u /\ key cfg = Some k /\ u <> "" /\ k <> "")
     /\ In (max_retries cfg) [1; 3; 5]%Z
     /\ In (timeout cfg) [10; 30; 60]%Z)
  /\ (forall e, get_config env w = Raised e ->
        (exists msg, e = ValueError msg)
        /\ (truthy (url (configs (w_environ w) env)) = false
            \/ truthy (key (configs (w_environ w) env)) = false)).
Proof.
  unfold get_config.
  set (c := configs (w_environ w) env).
  destruct (truthy (url c)) eqn:Eu; destruct (truthy (key c)) eqn:Ek;
    simpl; split; intros x H; try discriminate.
  - injection H as <-. split; [| split].
    + unfold truthy in Eu, Ek.
      destruct (url c) as [u |]; [| discriminate].
      destruct (key c) as [k |]; [| discriminate].
      exists u, k. repeat split.
      * intros ->. discriminate.
      * intros ->. discriminate.
    + unfold c. destruct env; simpl; tauto.
    + unfold c. destruct env; simpl; tauto.
  - injection H as <-. split; [eexists; reflexivity | tauto].
  - injection H as <-. split; [eexists; reflexivity | tauto].
  - injection H as <-. split; [eexists; reflexivity | tauto].
Qed.

(** X3: staging and development use the production credentials when their
    own variables are unset, so they are configured whenever production
    is; testing is configured with its built-in URL and key when its
    variables are unset. A variable that is set to the empty string is
    not replaced by the fallback and makes [get_config] raise. *)
Theorem get_config_fallbacks (w : World) :
  let environ := w_environ w in
  (forall cfg, get_config PRODUCTION w = Returned cfg ->
     (environ !! "STAGING_SUPABASE_URL" = None ->
      environ !! "STAGING_SUPABASE_KEY" = None ->
      exists cfg', get_config STAGING w = Returned cfg'
                   /\ url cfg' = url cfg /\ key cfg' = key cfg)
     /\ (environ !! "DEV_SUPABASE_URL" = None ->
         environ !! "DEV_SUPABASE_KEY" = None ->
         exists cfg', get_config DEVELOPMENT w = Returned cfg'
                      /\ url cfg' = url cfg /\ key cfg' = key cfg))
  /\ (environ !! "TEST_SUPABASE_URL" = None ->
      environ !! "TEST_SUPABASE_KEY" = None ->
      exists cfg, get_config TESTING w = Returned cfg
                  /\ url cfg = Some "https://test.supabase.co"
                  /\ key cfg = Some "test_key")
  /\ (environ !! "STAGING_SUPABASE_URL" = Some ""
      \/ environ !! "STAGING_SUPABASE_KEY" = Some "" ->
      exists msg, get_config STAGING w = Raised (ValueError msg))
  /\ (environ !! "TEST_SUPABASE_URL" = Some ""
      \/ environ !! "TEST_SUPABASE_KEY" = Some "" ->
      exists msg, get_config TESTING w = Raised (ValueError msg)).
Proof.
  intros environ. unfold get_config, configs, getenv, getenv_or.
  fold environ.
  split; [| split; [| split]].
  - intros cfg. simpl.
    destruct (truthy (environ !! "SUPABASE_URL")) eqn:Eu;
      destruct (truthy (environ !! "SUPABASE_KEY")) eqn:Ek;
      simpl; intros H; try discriminate.
    injection H as <-. simpl.
    split; intros -> ->; rewrite Eu, Ek; simpl; eexists; repeat split.
  - intros -> ->. simpl. eexists. repeat split.
  - intros [H | H]; rewrite H; simpl.
    + eexists. reflexivity.
    + rewrite orb_true_r. eexists. reflexivity.
  - intros [H | H]; rewrite H; simpl.
    + eexists. reflexivity.
    + rewrite orb_true_r. eexists. reflexivity.
Qed.

End ConfigProps.

(** ** More on the rate limiter *)

Section RateLimiterMore.
Import RateLimiter.

(** X4: a rate of zero makes [RateLimiter.__init__] raise
    ZeroDivisionError; a negative rate is accepted, and then every
    [wait_if_needed] raises IndexError, records nothing and admits no
    call. *)
Theorem limiter_nonpositive_rate (cps : Q) (w : World) (n : nat) :
  cps < 0 ->
  init 0 = Raised ZeroDivisionError
  /\ init cps = Returned (fresh cps)
  /\ (exists w', wait_if_needed (fresh cps) w
                 = (Raised IndexError, fresh cps, w'))
  /\ exists w', calls n (fresh cps) w [] = (fresh cps, w', []).
Proof.
  intros Hneg.
  assert (Hstep : forall w0, exists w',
             wait_if_needed (fresh cps) w0 = (Raised IndexError, fresh cps, w')).
  { intros w0. unfold wait_if_needed. destruct (time_time w0) as [c w1].
    simpl. change (nQ 0) with 0.
    assert (E : Qle_bool cps 0 = true) by (apply Qle_bool_iff; lra).
    rewrite E. exists w1. reflexivity. }
  split; [reflexivity |]. split; [| split; [apply Hstep |]].
  - unfold init. destruct (Qeq_bool cps 0) eqn:E; [| reflexivity].
    apply Qeq_bool_iff in E. lra.
  - revert w. induction n as [| n IH]; intros w.
    + exists w. reflexivity.
    + simpl. destruct (Hstep w) as [w1 ->]. apply IH.
Qed.





End RateLimiterMore.

(** ** More on the connection pool *)

Section ConnectionPoolMore.
Import ConnectionPool.

Lemma time_time_import (w : World) :
  w_import_error (snd (time_time w)) = w_import_error w.
Proof. unfold time_time. destruct (w_jitter w); reflexivity. Qed.

Lemma perform_health_check_import (self : t) (w : World) :
  w_import_error (snd (perform_health_check self w)) = w_import_error w.
Proof.
  unfold perform_health_check, health_check_body.
  destruct (w_import_error w) as [e |] eqn:E; [exact E |].
  destruct (isinstance_Client (client self)); [| exact E].
  unfold time_time. destruct (w_jitter w) as [| j js]; simpl;
    unfold probe_profiles; simpl; destruct (w_probe w) as [| [u | e] rest];
    simpl; exact E.
Qed.

(** A passed check leaves the pool checked, and a check passes only when
    the import works and the client is a Client. *)
Lemma perform_health_check_passed (self : t) (w : World) :
  forall self' w', perform_health_check self w = (Some true, self', w') ->
  checked_ok self' /\ client self' = client self
  /\ w_import_error w = None
  /\ health_check_interval self' = health_check_interval self.
Proof.
  intros self' w'. unfold perform_health_check, health_check_body.
  destruct (w_import_error w) as [e |] eqn:Ei; [discriminate |].
  destruct (isinstance_Client (client self)) eqn:Ec; [| discriminate].
  destruct (time_time w) as [now w1].
  destruct (probe_profiles w1) as [[u | e] w2];
    intros H; injection H as <- <-; simpl;
    (split; [split; [exact Ec | split; [reflexivity | split;
                                        [reflexivity | eexists; reflexivity]]]
            | auto]).
Qed.

(** A checked pool answers True, from the cache or from a new check. *)
Lemma is_healthy_checked (self : t) (w : World) :
  checked_ok self -> w_import_error w = None ->
  exists self' w',
    is_healthy self w = (Some true, self', w') /\ checked_ok self'
    /\ client self' = client self.
Proof.
  intros (Hc & Hs & Hf & t & Ht) Himp. unfold is_healthy. rewrite Ht.
  pose proof (time_time_import w) as Hi.
  destruct (time_time w) as [now w1]. simpl in Hi.
  destruct (Qlt_bool _ _).
  - destruct (perform_health_check_valid self w1 ltac:(congruence) Hc)
      as [w2 ->].
    eexists. eexists. split; [reflexivity |]. split; [| reflexivity].
    split; [exact Hc | split; [reflexivity | split;
                               [reflexivity | eexists; reflexivity]]].
  - rewrite Hs. eexists. eexists. split; [reflexivity |].
    split; [| reflexivity].
    split; [exact Hc | split; [exact Hs | split; [exact Hf | eauto]]].
Qed.

(** X11: [get_status] reads status, last check and failed attempts before
    it asks [is_healthy]. On a pool around a Client that has never been
    checked it therefore reports the old status and no last check next to
    is_healthy True, while the pool itself is CONNECTED afterwards. *)
Theorem get_status_reads_before_check (self : t) (w : World) :
  last_health_check self = None ->
  isinstance_Client (client self) = true -> w_import_error w = None ->
  exists st self' w',
    get_status self w = (st, self', w')
    /\ status_value st = status self /\ last_check st = None
    /\ status_failed_attempts st = failed_attempts self
    /\ status_is_healthy st = Some true
    /\ status self' = CONNECTED
    /\ last_health_check self' = Some (fst (time_time w)).
Proof.
  intros Hlast Hc Himp. unfold get_status, is_healthy. rewrite Hlast.
  destruct (perform_health_check_valid self w Himp Hc) as [w' ->].
  eexists. eexists. eexists. split; [reflexivity |].
  simpl. repeat split; reflexivity.
Qed.

(** X12: a passed health check is cached: as long as the clock reads no
    more than [health_check_interval] seconds after it, [is_healthy]
    answers True without probing the backend and without touching the
    pool. *)
Theorem health_check_cached (self : t) (w : World) (self1 : t) (w1 w2 : World)
    (t : Q) :
  perform_health_check self w = (Some true, self1, w1) ->
  last_health_check self1 = Some t ->
  fst (time_time w2) - t <= health_check_interval self1 ->
  is_healthy self1 w2 = (Some true, self1, snd (time_time w2))
  /\ w_probe (snd (time_time w2)) = w_probe w2.
Proof.
  intros Hcheck Hlast Hfresh.
  destruct (perform_health_check_passed self w _ _ Hcheck)
    as ((_ & Hs & _) & _).
  unfold is_healthy. rewrite Hlast.
  split.
  - destruct (time_time w2) as [now w3]. simpl in *.
    apply Qlt_bool_false_iff in Hfresh. rewrite Hfresh, Hs. reflexivity.
  - unfold time_time. destruct (w_jitter w2); reflexivity.
Qed.

(** X13: a check that raises is not cached and nothing limits the count of
    failures: on a pool that has never passed a check, [n] calls of
    [is_healthy] while the check raises all answer False and leave
    [failed_attempts] raised by [n], beyond [max_failed_attempts], which
    the code never consults. *)
Theorem failing_checks_accumulate (self : t) (w : World) (e : exn) (n : nat) :
  w_import_error w = Some e -> last_health_check self = None ->
  exists self',
    is_healthy_times n self w = (repeat (Some false) n, self', w)
    /\ failed_attempts self' = (failed_attempts self + Z.of_nat n)%Z
    /\ last_health_check self' = None
    /\ max_failed_attempts self' = max_failed_attempts self
    /\ ((0 < n)%nat -> status self' = ERROR).
Proof.
  intros Himp. revert self.
  induction n as [| n IH]; intros self Hlast.
  - exists self. simpl. repeat split; try reflexivity; try lia; auto.
  - assert (Hstep : is_healthy self w
                    = (Some false,
                       set_health ERROR (failed_attempts self + 1)
                         (last_health_check self) self, w)).
    { unfold is_healthy, perform_health_check, health_check_body.
      rewrite Himp, Hlast. reflexivity. }
    set (self1 := set_health ERROR (failed_attempts self + 1)
                    (last_health_check self) self) in *.
    destruct (IH self1 Hlast) as (self' & Hrun & Hf & Hl & Hm & Hs).
    exists self'. cbn [is_healthy_times]. rewrite Hstep, Hrun.
    split; [reflexivity |]. split; [rewrite Hf; simpl; lia |].
    split; [exact Hl |]. split; [exact Hm |].
    intros _. destruct n as [| n'].
    + simpl in Hrun. injection Hrun as <-. reflexivity.
    + apply Hs. lia.
Qed.

End ConnectionPoolMore.

(** ** Connecting, closing and testing the connection *)

Section ConnectionProps.
Import SupabaseManager.

Lemma perform_health_check_sleeps (pool : ConnectionPool.t) (w : World) :
  w_sleeps (snd (ConnectionPool.perform_health_check pool w)) = w_sleeps w.
Proof.
  unfold ConnectionPool.perform_health_check, ConnectionPool.health_check_body.
  destruct (w_import_error w); [reflexivity |].
  destruct (ConnectionPool.isinstance_Client _); [| reflexivity].
  unfold time_time. destruct (w_jitter w) as [| j js]; simpl;
    unfold ConnectionPool.probe_profiles; simpl;
    destruct (w_probe w) as [| [u | e] rest]; reflexivity.
Qed.

Lemma create_client_world (url key : option string) (w : World) :
  w_sleeps (snd (create_client url key w)) = w_sleeps w
  /\ w_import_error (snd (create_client url key w)) = w_import_error w.
Proof.
  unfold create_client. destruct (w_create_client w); split; reflexivity.
Qed.

(** One connection attempt never sleeps; when it returns, the manager is
    connected. *)
Lemma connect_attempt_spec (cfg : SupabaseConfig.t) (self : t) (w : World) :
  forall r self' w', connect_attempt cfg self w = (r, self', w') ->
  w_sleeps w' = w_sleeps w /\ w_import_error w' = w_import_error w
  /\ (forall u, r = Returned u -> connected self' /\ w_import_error w = None).
Proof.
  intros r self' w'. unfold connect_attempt.
  destruct (create_client_world (SupabaseConfig.url cfg)
              (SupabaseConfig.key cfg) w) as [Hs Hi].
  destruct (create_client _ _ w) as [[c | e] w1]; simpl in Hs, Hi.
  - pose proof (perform_health_check_sleeps (ConnectionPool.init c) w1) as Hs2.
    pose proof (perform_health_check_import (ConnectionPool.init c) w1) as Hi2.
    destruct (ConnectionPool.perform_health_check _ w1) as [[ok pool] w2] eqn:E.
    simpl in Hs2, Hi2.
    destruct ok as [[|] |]; intros H; injection H as <- <- <-;
      (split; [congruence | split; [congruence |]]); intros u Hu;
      try discriminate.
    destruct (perform_health_check_passed _ _ _ _ E) as (Hok & Hc & Himp & _).
    split; [| congruence].
    exists c, pool. simpl. repeat split; try reflexivity; try apply Hok.
    exact Hc.
  - intros H. injection H as <- <- <-.
    split; [exact Hs | split; [exact Hi |]]. intros u Hu. discriminate.
Qed.

(** How the connection loop ends over the [n] attempts left: connected
    after [k < n] failed attempts and as many sleeps, or with the final
    exception after [n] failed attempts and [n - 1] sleeps. *)
Lemma connect_loop_spec (n : nat) :
  forall (a : nat) (m : Z) (delay : Q) (cfg : SupabaseConfig.t) (self : t)
         (w : World) r self' w',
  m = Z.of_nat (a + n) -> (0 < n)%nat ->
  connect_loop (seq a n) m delay cfg self w = (r, self', w') ->
  w_import_error w' = w_import_error w
  /\ ((r = Returned tt /\ connected self' /\ w_import_error w = None
       /\ exists k, (k < n)%nat
                    /\ w_sleeps w'
                       = w_sleeps w ++ connect_sleeps (backoff delay k))
      \/ (r = Raised (Exception "Failed to connect to Supabase")
          /\ w_sleeps w'
             = w_sleeps w ++ connect_sleeps (backoff delay (n - 1)))).
Proof.
  induction n as [| n IH]; intros a m delay cfg self w r self' w' Hm Hn; [lia |].
  cbn [seq connect_loop].
  destruct (connect_attempt cfg self w) as [[[u | e] self1] w1] eqn:E;
    destruct (connect_attempt_spec cfg self w _ _ _ E) as (Hs & Hi & Hok).
  - intros H. injection H as <- <- <-. split; [exact Hi |]. left.
    destruct (Hok u eq_refl) as [Hc Himp].
    split; [reflexivity |]. split; [exact Hc |]. split; [exact Himp |].
    exists O. split; [lia |]. simpl. rewrite app_nil_r. exact Hs.
  - destruct (Z.of_nat a <? m - 1)%Z eqn:Elast.
    + apply Z.ltb_lt in Elast. intros H.
      destruct (IH (Datatypes.S a) m (delay * 2) cfg self1
                  (time_sleep ConnectSleep delay w1) _ _ _
                  ltac:(lia) ltac:(lia) H) as (Hi' & Hout).
      simpl in Hi'. split; [congruence |].
      destruct Hout as [(Hr & Hc & Himp & k & Hk & Hlog) | (Hr & Hlog)].
      * left. split; [exact Hr |]. split; [exact Hc |].
        split; [simpl in Himp; congruence |].
        exists (Datatypes.S k). split; [lia |].
        rewrite Hlog. simpl. rewrite Hs, <- app_assoc. reflexivity.
      * right. split; [exact Hr |].
        replace (Datatypes.S n - 1)%nat with (Datatypes.S (n - 1)) by lia.
        rewrite Hlog. unfold connect_sleeps.
        cbn [time_sleep w_sleeps backoff map].
        rewrite Hs, <- app_assoc. reflexivity.
    + apply Z.ltb_ge in Elast. assert (n = O) by lia. subst n.
      intros H. injection H as <- <- <-. split; [exact Hi |]. right.
      split; [reflexivity |]. simpl. rewrite app_nil_r. exact Hs.
Qed.


Lemma close_cleared (self : t) :
  _client (close self) = None /\ config (close self) = config self
  /\ initialized (close self) = initialized self
  /\ (_client self <> None -> connection_pool (close self) = None).
Proof.
  unfold close. destruct (_client self) eqn:E; simpl; repeat split; auto.
  congruence.
Qed.


(** X9: [close()] is not undone by constructing again: on a connected,
    initialized manager that has been closed, a construction returns the
    closed manager as it is, and [test_connection] answers False whatever
    the backend would say. *)
Theorem test_connection_after_close (env_arg : Environment) (py : Py)
    (w : World) (l : nat) (self : t) :
  _instance py = Some l -> heap py !! l = Some self ->
  initialized self = true -> connected self ->
  construct env_arg (close_at l py) w = (Returned l, close_at l py, w)
  /\ test_connection env_arg (close_at l py) w
     = (Some false, close_at l py, w).
Proof.
  intros Hi Hh Hinit (c & pool & Hc & _).
  destruct (close_cleared self) as (_ & _ & Hin & Hpool).
  assert (Hh' : heap (close_at l py) !! l = Some (close self)).
  { unfold close_at. rewrite Hh. simpl.
    apply list_lookup_insert_eq. apply lookup_lt_Some in Hh. exact Hh. }
  assert (Hi' : _instance (close_at l py) = Some l).
  { unfold close_at. rewrite Hh. exact Hi. }
  assert (Hcon : construct env_arg (close_at l py) w
                 = (Returned l, close_at l py, w)).
  { apply (construct_settled env_arg _ w l (close self) Hi' Hh').
    rewrite Hin. exact Hinit. }
  split; [exact Hcon |].
  unfold test_connection. rewrite Hcon, Hh', Hpool; [reflexivity |].
  congruence.
Qed.

Lemma init_body_connected (env_arg : Environment) (self : t) (w : World) :
  forall self' w', init_body env_arg self w = (Returned tt, self', w') ->
  connected self' /\ w_import_error w' = None.
Proof.
  intros self' w'. unfold init_body, SupabaseConfig.get_config.
  destruct (_ || _); [discriminate |].
  change (RateLimiter.init 10) with (@Returned _ exn (RateLimiter.fresh 10)).
  cbv iota.
  pose proof (time_time_import w) as Hi0.
  destruct (time_time w) as [now w1]. simpl in Hi0.
  destruct (_initialize_client _ w1) as [[[u | e] self1] w2] eqn:E;
    [| discriminate].
  intros H. injection H as <- <-.
  unfold _initialize_client in E. simpl in E.
  set (cfg := SupabaseConfig.configs (w_environ w) env_arg) in *.
  assert (Hm : (1 <= SupabaseConfig.max_retries cfg)%Z)
    by (unfold cfg; destruct env_arg; simpl; lia).
  destruct (connect_loop_spec (Z.to_nat (SupabaseConfig.max_retries cfg)) 0
              (SupabaseConfig.max_retries cfg) 1 cfg _ w1
              _ _ _ ltac:(simpl; lia) ltac:(lia) E)
    as (Hi & [(_ & Hc & Himp & _) | (Hr & _)]); [| discriminate].
  split; [exact Hc | congruence].
Qed.

(** X10: where the next construction runs the initialization body (a
    fresh interpreter, or an instance whose initialization failed),
    [test_connection] answers True exactly when the construction returns
    and False exactly when it raises. *)
Theorem test_connection_tracks_construction (env_arg : Environment) (py : Py)
    (w : World) :
  runs_body py = true ->
  forall r py1 w1, construct env_arg py w = (r, py1, w1) ->
  fst (fst (test_connection env_arg py w))
  = match r with
    | Returned _ => Some true
    | Raised _ => Some false
    end.
Proof.
  intros Hruns r py1 w1 Hc. unfold test_connection. rewrite Hc.
  destruct r as [l | e]; [| reflexivity].
  assert (Hconn : exists self, heap py1 !! l = Some self /\ connected self
                               /\ w_import_error w1 = None).
  { revert Hc. unfold construct.
    destruct (__new__ env_arg py) as [l0 py0] eqn:En.
    destruct (heap py0 !! l0) as [self |] eqn:Eh; [| discriminate].
    assert (Hfresh : initialized self = false).
    { unfold __new__, runs_body in *.
      destruct (_instance py) as [l1 |].
      - injection En as <- <-. rewrite Eh in Hruns.
        apply negb_true_iff in Hruns. exact Hruns.
      - injection En as <- <-. simpl in Eh.
        rewrite lookup_app_r in Eh by lia. rewrite Nat.sub_diag in Eh.
        simpl in Eh. injection Eh as <-. reflexivity. }
    unfold __init__. rewrite Hfresh. simpl.
    destruct (init_body env_arg self w) as [[[[] | e] self1] w2] eqn:Eb;
      [| discriminate].
    intros H. injection H as <- <- <-.
    destruct (init_body_connected env_arg self w _ _ Eb) as [Hcn Himp].
    exists self1. simpl. split; [| auto].
    apply list_lookup_insert_eq. apply lookup_lt_Some in Eh. exact Eh. }
  destruct Hconn as (self & -> & (c & pool & _ & -> & _ & Hok) & Himp).
  destruct (is_healthy_checked pool w1 Hok Himp)
    as (pool' & w2 & -> & _). reflexivity.
Qed.

End ConnectionProps.

(** ** More on retries and metrics *)

Section RetryMore.
Import SupabaseManager.
Context {S V : Type}.
Variable func : S -> py_result V exn * S.

(** X15: every attempt is counted exactly once: an execution that calls
    the wrapped function [c] times, with [c] at most [max_retries], raises
    the sum of the two counters by [c]; the query count goes up by at most
    one and the error count never goes down. *)
Theorem execute_counts_every_attempt (self : t) (s : S) (w : World) :
  ready self -> (0 < max_retries_of self)%nat ->
  forall r self' s' w',
  execute_with_retry self func s w = (r, self', s', w') ->
  exists c : nat,
    (1 <= c <= max_retries_of self)%nat
    /\ s' = state_after func s c
    /\ (query_count self' + query_errors self'
        = query_count self + query_errors self + Z.of_nat c)%Z
    /\ (query_count self <= query_count self' <= query_count self + 1)%Z
    /\ (query_errors self <= query_errors self')%Z.
Proof.
  intros Hready Hm r self' s' w' Hrun.
  destruct (execute_with_retry_spec func self s w Hready Hm _ _ _ _ Hrun)
    as (_ & _ & Hout).
  unfold loop_outcome in Hout. cbv zeta in Hout.
  destruct Hout as [(Hk & _ & Hqc & Hqe & Hs & _)
                   | [(Hn & _) | (Hk & Hn & _ & Hqc & Hqe & Hs & _)]].
  - exists (Datatypes.S (leading_failures func s (max_retries_of self))).
    split; [lia |]. split; [exact Hs |]. lia.
  - lia.
  - exists (max_retries_of self). split; [lia |]. split; [exact Hs |]. lia.
Qed.

Lemma total_backoff (k : nat) :
  forall d, total (backoff d k) == d * (inject_Z (2 ^ Z.of_nat k) - 1).
Proof.
  induction k as [| k IH]; intros d.
  - change (total (backoff d 0)) with 0.
    change (inject_Z (2 ^ Z.of_nat 0)) with 1. ring.
  - cbn [backoff total fold_right]. fold (total (backoff (d * 2) k)).
    rewrite IH, Nat2Z.inj_succ, Z.pow_succ_r by lia.
    rewrite inject_Z_mult. change (inject_Z 2) with 2. ring.
Qed.

(** X16: the sleeping that one execution adds for retries is bounded: the
    delays it sleeps sum to (2^k - 1) / 2 seconds for the [k] failed
    attempts that were retried, at most (2^(max_retries - 1) - 1) / 2
    seconds, which is 1.5 seconds for a budget of 3. *)
Theorem retry_sleep_budget (self : t) (s : S) (w : World) :
  ready self -> (0 < max_retries_of self)%nat ->
  forall r self' s' w',
  execute_with_retry self func s w = (r, self', s', w') ->
  let m := max_retries_of self in
  exists k : nat,
    (k <= m - 1)%nat
    /\ retry_delays (w_sleeps w')
       = retry_delays (w_sleeps w) ++ backoff (1 # 2) k
    /\ total (backoff (1 # 2) k) == (inject_Z (2 ^ Z.of_nat k) - 1) / 2
    /\ total (backoff (1 # 2) k)
       <= (inject_Z (2 ^ Z.of_nat (m - 1)) - 1) / 2.
Proof.
  intros Hready Hm r self' s' w' Hrun m.
  destruct (execute_with_retry_spec func self s w Hready Hm _ _ _ _ Hrun)
    as (_ & _ & Hout).
  fold m in Hout. unfold loop_outcome in Hout. cbv zeta in Hout.
  assert (Hk : exists k : nat,
             (k <= m - 1)%nat
             /\ retry_delays (w_sleeps w')
                = retry_delays (w_sleeps w) ++ backoff (1 # 2) k).
  { destruct Hout as [(Hk & _ & _ & _ & _ & Hd)
                     | [(Hn & _) | (_ & _ & _ & _ & _ & _ & Hd)]].
    - exists (leading_failures func s m). split; [lia | exact Hd].
    - unfold m in Hn. lia.
    - exists (m - 1)%nat. split; [lia | exact Hd]. }
  destruct Hk as (k & Hle & Hd). exists k.
  split; [exact Hle |]. split; [exact Hd |].
  assert (Hsum : total (backoff (1 # 2) k)
                 == (inject_Z (2 ^ Z.of_nat k) - 1) / 2).
  { rewrite total_backoff. field. }
  split; [exact Hsum |]. rewrite Hsum.
  assert (Hpow : (2 ^ Z.of_nat k <= 2 ^ Z.of_nat (m - 1))%Z)
    by (apply Z.pow_le_mono_r; lia).
  rewrite Zle_Qle in Hpow.
  apply Qmult_le_compat_r; [lra | unfold Qle; simpl; lia].
Qed.

End RetryMore.

Section MetricsMore.
Import SupabaseManager.

(** X14: the reported success rate is not a percentage between 0 and
    100: with a non-negative error count it never exceeds 100, it is 0
    while no query has succeeded, and once a query has succeeded it is
    negative exactly when failed attempts outnumber successful
    executions. *)
Theorem success_rate_range (self : t) :
  (0 <= query_errors self)%Z ->
  success_rate_of self <= 100
  /\ ((query_count self <= 0)%Z -> success_rate_of self = 0)
  /\ ((0 < query_count self)%Z ->
      (success_rate_of self < 0 <-> (query_count self < query_errors self)%Z)
      /\ (success_rate_of self == 100 <-> query_errors self = 0%Z)).
Proof.
  intros He. unfold success_rate_of.
  destruct (0 <? query_count self)%Z eqn:E.
  - apply Z.ltb_lt in E.
    set (c := query_count self) in *. set (e := query_errors self) in *.
    assert (Hc : 0 < inject_Z c)
      by (change 0 with (inject_Z 0); rewrite <- Zlt_Qlt; exact E).
    assert (He' : 0 <= inject_Z e)
      by (change 0 with (inject_Z 0); rewrite <- Zle_Qle; exact He).
    assert (Hdiv : inject_Z (c - e) / inject_Z c * 100
                   == 100 - 100 * inject_Z e / inject_Z c).
    { unfold Z.sub. rewrite inject_Z_plus, inject_Z_opp. field. lra. }
    assert (Hq : 0 <= inject_Z e / inject_Z c)
      by (apply Qle_shift_div_l; lra).
    split; [rewrite Hdiv; unfold Qdiv in *; lra |].
    split; [lia |]. intros _. split.
    + rewrite Hdiv. rewrite Zlt_Qlt. split; intros H.
      * destruct (Qlt_le_dec (inject_Z c) (inject_Z e)) as [Hlt | Hle];
          [exact Hlt |].
        assert (inject_Z e / inject_Z c <= 1)
          by (apply Qle_shift_div_r; lra).
        unfold Qdiv in *. lra.
      * assert (1 < inject_Z e / inject_Z c)
          by (apply Qlt_shift_div_l; lra).
        unfold Qdiv in *. lra.
    + rewrite Hdiv. split; intros H.
      * assert (Hz : inject_Z e / inject_Z c == 0)
          by (unfold Qdiv in *; lra).
        assert (Hz' : inject_Z e == 0).
        { rewrite <- (Qmult_div_r (inject_Z e) (inject_Z c)) by lra.
          rewrite Hz. ring. }
        unfold Qeq in Hz'. simpl in Hz'. lia.
      * rewrite H. change (inject_Z 0) with 0. field. lra.
  - apply Z.ltb_ge in E. split; [lra |]. split; [reflexivity | lia].
Qed.

(** X17: right after [reset_metrics], [get_metrics] reports no queries, no
    failures and a success rate of 0, and, on a clock that never runs
    backwards, an uptime that is not negative. *)
Theorem metrics_after_reset (self : t) (w : World) :
  ready self -> clock_ok w ->
  forall self1 w1, reset_metrics self w = (self1, w1) ->
  exists metrics self2 w2,
    get_metrics self1 w1 = (Returned metrics, self2, w2)
    /\ total_queries metrics = 0%Z /\ failed_queries metrics = 0%Z
    /\ success_rate metrics = 0 /\ 0 <= uptime_seconds metrics.
Proof.
  intros (Hcfg & (rl & Hrl & Hpos) & Hst) Hclock self1 w1.
  unfold reset_metrics.
  pose proof (time_time_spec w Hclock) as (_ & Hw1 & Hclock1 & _).
  destruct (time_time w) as [now wa]. simpl in Hw1, Hclock1.
  intros H. injection H as <- <-.
  unfold get_metrics.
  pose proof (time_time_spec wa Hclock1) as (Hle & _).
  destruct (time_time wa) as [now2 wb]. simpl in Hle. simpl start_time.
  cbv iota.
  rewrite Hw1 in Hle.
  assert (Hup : 0 <= now2 - now) by lra.
  destruct (connection_pool _) as [pool |] eqn:Ep.
  - destruct (ConnectionPool.get_status pool wb) as [[st pool'] wc].
    simpl. rewrite Hrl. eexists. eexists. eexists.
    split; [reflexivity |]. simpl. auto.
  - simpl. rewrite Hrl. eexists. eexists. eexists.
    split; [reflexivity |]. simpl. auto.
Qed.

End MetricsMore.

(** ** Colour scales *)

Section ChartProps.

Import ChartHelpers.

Local Open Scope nat_scope.

Lemma concat_repeat_length {A : Type} (l : list A) (k : nat) :
  length (concat (repeat l k)) = k * length l.
Proof.
  induction k as [| k IH]; simpl; [reflexivity |].
  rewrite List.length_app, IH. reflexivity.
Qed.

Lemma concat_repeat_lookup {A : Type} (l : list A) (k i : nat) :
  i < k * length l ->
  concat (repeat l k) !! i = l !! (i mod length l).
Proof.
  revert i. induction k as [| k IH]; intros i Hi; [simpl in Hi; lia |].
  simpl in *.
  destruct (Nat.lt_ge_cases i (length l)) as [Hlt | Hge].
  - rewrite lookup_app_l by exact Hlt.
    rewrite Nat.mod_small by exact Hlt. reflexivity.
  - rewrite lookup_app_r by exact Hge.
    rewrite IH by lia.
    replace i with ((i - length l) + 1 * length l) at 2 by lia.
    rewrite Nat.Div0.mod_add. reflexivity.
Qed.

(** X18: [create_color_scale n] cycles through the ten-colour palette:
    entry [i], for every [i < n], is palette colour [i mod 10]. For
    [0 <= n <= 10] the list has exactly [n] entries; for [n > 10] it is the
    palette repeated [n // 10 + 1] times, which is longer than [n] (between
    [n + 1] and [n + 10] entries, never [n]); for [n < 0] it is the palette
    without its last [-n] colours. *)
Theorem create_color_scale_cycles (n : Z) :
  let scale := create_color_scale n in
  (forall i : nat, (Z.of_nat i < n)%Z -> scale !! i = colors !! (i mod 10))
  /\ ((0 <= n <= 10)%Z -> Z.of_nat (length scale) = n)
  /\ ((10 < n)%Z ->
      Z.of_nat (length scale) = (10 * (n / 10 + 1))%Z
      /\ (n < Z.of_nat (length scale) <= n + 10)%Z)
  /\ ((n < 0)%Z -> scale = firstn (Z.to_nat (10 + n)) colors).
Proof.
  cbv zeta. unfold create_color_scale.
  change (Z.of_nat (length colors)) with 10%Z.
  assert (Hdiv : (10 < n)%Z ->
                 (n < 10 * (n / 10 + 1) <= n + 10)%Z).
  { intros Hn. pose proof (Z.div_mod n 10 ltac:(lia)) as Hdm.
    pose proof (Z.mod_pos_bound n 10 ltac:(lia)) as Hmod. lia. }
  destruct (n <=? 10)%Z eqn:Hle.
  - apply Z.leb_le in Hle. unfold py_slice_to.
    change (Z.of_nat (length colors)) with 10%Z.
    destruct (0 <=? n)%Z eqn:Hpos.
    + apply Z.leb_le in Hpos.
      split; [| split; [| split]].
      * intros i Hi. rewrite lookup_take_lt by lia.
        rewrite Nat.mod_small by lia. reflexivity.
      * intros _. rewrite List.length_firstn.
        change (length colors) with 10. lia.
      * lia.
      * lia.
    + apply Z.leb_gt in Hpos.
      split; [| split; [| split]].
      * intros i Hi. lia.
      * lia.
      * lia.
      * intros _. reflexivity.
  - apply Z.leb_gt in Hle. specialize (Hdiv Hle).
    unfold py_repeat.
    assert (Hlen : Z.of_nat (length (concat (repeat colors
                     (Z.to_nat (n / 10 + 1))))) = (10 * (n / 10 + 1))%Z).
    { rewrite concat_repeat_length. change (length colors) with 10. lia. }
    split; [| split; [| split]].
    + intros i Hi. rewrite concat_repeat_lookup.
      * reflexivity.
      * change (length colors) with 10. lia.
    + lia.
    + intros _. split; [exact Hlen | lia].
    + lia.
Qed.

End ChartProps.

(** ** Alerts *)

Section AlertProps.

Import NotificationManager.

(** X19: [check_alerts] raises each of its four alerts exactly when its
    own threshold is crossed, independently of the others: low engagement
    below 20, high churn above 30, declining activity below -10, and no
    users when [total_users] is 0. A missing key counts as its default, so
    a dictionary without [total_users] always carries the no-users alert,
    while a missing rate never alerts. The list is empty exactly when no
    threshold is crossed, and never has more than four entries. *)
Theorem check_alerts_thresholds (metrics : gmap string Q) :
  let alerts := check_alerts metrics in
  (In low_engagement alerts <-> get metrics "engagement_rate" 100 < 20)
  /\ (In high_churn alerts <-> 30 < get metrics "churn_risk_rate" 0)
  /\ (In declining_activity alerts
      <-> get metrics "weekly_growth_trend" 0 < -10)
  /\ (In no_users alerts <-> get metrics "total_users" 0 == 0)
  /\ (metrics !! "total_users" = None -> In no_users alerts)
  /\ (metrics !! "engagement_rate" = None -> ~ In low_engagement alerts)
  /\ (alerts = []
      <-> 20 <= get metrics "engagement_rate" 100
          /\ get metrics "churn_risk_rate" 0 <= 30
          /\ -10 <= get metrics "weekly_growth_trend" 0
          /\ ~ get metrics "total_users" 0 == 0)
  /\ (length alerts <= 4)%nat.
Proof.
  cbv zeta.
  assert (Hmiss : metrics !! "total_users" = None ->
                  get metrics "total_users" 0 == 0).
  { intros H. unfold get. rewrite H. reflexivity. }
  assert (Hmiss' : metrics !! "engagement_rate" = None ->
                   ~ get metrics "engagement_rate" 100 < 20).
  { intros H. unfold get. rewrite H. simpl. lra. }
  unfold check_alerts.
  destruct (Qlt_bool (get metrics "engagement_rate" 100) 20) eqn:E1;
    [apply Qlt_bool_iff in E1 | apply Qlt_bool_false_iff in E1];
    (destruct (Qlt_bool 30 (get metrics "churn_risk_rate" 0)) eqn:E2;
     [apply Qlt_bool_iff in E2 | apply Qlt_bool_false_iff in E2]);
    (destruct (Qlt_bool (get metrics "weekly_growth_trend" 0) (-10)) eqn:E3;
     [apply Qlt_bool_iff in E3 | apply Qlt_bool_false_iff in E3]);
    (destruct (Qeq_bool (get metrics "total_users" 0) 0) eqn:E4;
     [apply Qeq_bool_iff in E4 | apply Qeq_bool_neq in E4]);
    cbn [app];
    unfold low_engagement, high_churn, declining_activity, no_users;
    (repeat apply conj);
    try (intros ?);
    try (simpl; lia);
    try (split; intros ?);
    try lra; try tauto;
    try discriminate;
    try (exfalso; lra);
    try (simpl in *; intuition (try discriminate; try lra; try tauto)).
Qed.

End AlertProps.

(** ** Formatting helpers *)

Section FormatProps.

Import Dashboard.

Local Open Scope string_scope.

Lemma Qfloor_unique (x : Q) (n : Z) :
  inject_Z n <= x -> x < inject_Z (n + 1) -> Qfloor x = n.
Proof.
  intros Hlo Hhi.
  pose proof (Qfloor_le x) as H1. pose proof (Qlt_floor x) as H2.
  assert (H3 : inject_Z n < inject_Z (Qfloor x + 1)) by lra.
  assert (H4 : inject_Z (Qfloor x) < inject_Z (n + 1)) by lra.
  rewrite <- Zlt_Qlt in H3, H4. lia.
Qed.

Lemma round_half_even_odd_up (x : Q) (n : Z) :
  Z.odd n = true -> inject_Z n + (1 # 2) <= x -> x < inject_Z (n + 1) ->
  round_half_even x = (n + 1)%Z.
Proof.
  intros Hodd Hlo Hhi. unfold round_half_even.
  assert (Hf : Qfloor x = n) by (apply Qfloor_unique; lra).
  rewrite Hf.
  destruct (Qlt_bool (x - inject_Z n) (1 # 2)) eqn:E1.
  - apply Qlt_bool_iff in E1. lra.
  - destruct (Qlt_bool (1 # 2) (x - inject_Z n)); [reflexivity |].
    rewrite <- Z.negb_odd, Hodd. reflexivity.
Qed.

(** X20: [format_large_number] chooses the suffix before it rounds, so a
    number just below a threshold is printed as a rounded-up 1000 of the
    smaller unit: every value from 999950 up to (not including) a million
    is printed as 1000.0K, every value from 999950000 up to a billion as
    1000.0M, and every value from 999.5 up to 1000 as 1000, without a
    suffix. *)
Theorem format_large_number_rounds_past_suffix (num : Q) :
  (999950 <= num -> num < 1000000 ->
   format_large_number num = "1000.0K")
  /\ (999950000 <= num -> num < 1000000000 ->
      format_large_number num = "1000.0M")
  /\ ((1999 # 2) <= num -> num < 1000 -> format_large_number num = "1000").
Proof.
  unfold format_large_number. split; [| split]; intros Hlo Hhi.
  - rewrite (Qle_bool_false 1000000000 num) by lra.
    rewrite (Qle_bool_false 1000000 num) by lra.
    rewrite (Qle_bool_true 1000 num) by lra.
    unfold format_1f.
    assert (Hq : num / 1000 * 10 == num * (1 # 100)) by (field).
    assert (Hr : round_half_even (num / 1000 * 10) = 10000%Z).
    { apply (round_half_even_odd_up _ 9999); [reflexivity | |].
      - rewrite Hq. change (inject_Z 9999) with 9999. lra.
      - rewrite Hq. change (inject_Z (9999 + 1)) with 10000. lra. }
    rewrite Hr.
    assert (Hs : Qlt_bool (num / 1000) 0 = false).
    { apply Qlt_bool_false_iff.
      assert (Hq' : num / 1000 == num * (1 # 1000)) by field. rewrite Hq'. lra. }
    rewrite Hs. reflexivity.
  - rewrite (Qle_bool_false 1000000000 num) by lra.
    rewrite (Qle_bool_true 1000000 num) by lra.
    unfold format_1f.
    assert (Hq : num / 1000000 * 10 == num * (1 # 100000)) by (field).
    assert (Hr : round_half_even (num / 1000000 * 10) = 10000%Z).
    { apply (round_half_even_odd_up _ 9999); [reflexivity | |].
      - rewrite Hq. change (inject_Z 9999) with 9999. lra.
      - rewrite Hq. change (inject_Z (9999 + 1)) with 10000. lra. }
    rewrite Hr.
    assert (Hs : Qlt_bool (num / 1000000) 0 = false).
    { apply Qlt_bool_false_iff.
      assert (Hq' : num / 1000000 == num * (1 # 1000000)) by field.
      rewrite Hq'. lra. }
    rewrite Hs. reflexivity.
  - rewrite (Qle_bool_false 1000000000 num) by lra.
    rewrite (Qle_bool_false 1000000 num) by lra.
    rewrite (Qle_bool_false 1000 num) by lra.
    unfold format_0f.
    assert (Hr : round_half_even num = 1000%Z).
    { apply (round_half_even_odd_up _ 999); [reflexivity | |].
      - change (inject_Z 999) with 999. lra.
      - change (inject_Z (999 + 1)) with 1000. lra. }
    rewrite Hr.
    assert (Hs : Qlt_bool num 0 = false) by (apply Qlt_bool_false_iff; lra).
    rewrite Hs. reflexivity.
Qed.



Lemma string_length_append (s t : string) :
  String.length (s ++ t) = (String.length s + String.length t)%nat.
Proof. induction s as [| a s IH]; simpl; [reflexivity | rewrite IH; reflexivity]. Qed.

Lemma string_append_cancel_r (s1 s2 t : string) :
  s1 ++ t = s2 ++ t -> s1 = s2.
Proof.
  revert s2. induction s1 as [| a s1 IH]; intros [| b s2] H.
  - reflexivity.
  - apply (f_equal String.length) in H.
    rewrite !string_length_append in H. simpl in H. lia.
  - apply (f_equal String.length) in H.
    rewrite !string_length_append in H. simpl in H. lia.
  - simpl in H. injection H as Hab Hrest.
    rewrite Hab, (IH s2 Hrest). reflexivity.
Qed.

Lemma days_label_not_named (d : Z) (s : string) :
  In s ["Week"; "Month"; "Quarter"; "Year"] ->
  pretty d ++ " Days" <> s.
Proof.
  intros Hs Heq.
  assert (Hlen : (String.length (pretty d) + 5 = String.length s)%nat).
  { rewrite <- Heq, string_length_append. reflexivity. }
  simpl in Hs.
  destruct Hs as [<- | [<- | [<- | [<- | []]]]]; simpl in Hlen; try lia.
  - destruct (pretty d) as [| a [| b r]]; simpl in Hlen; try lia.
    simpl in Heq. discriminate Heq.
  - destruct (pretty d) as [| a [| b [| c r]]]; simpl in Hlen; try lia.
    simpl in Heq. discriminate Heq.
Qed.

(** X22: [get_time_period_label] gives different periods different labels:
    the five named periods have five different names, and no other number
    of days is printed as one of them. *)
Theorem get_time_period_label_injective (a b : Z) :
  get_time_period_label a = get_time_period_label b -> a = b.
Proof.
  assert (Hgen : forall (d : Z) (s : string),
             In s ["Week"; "Month"; "Quarter"; "Year"] ->
             "Last " ++ pretty d ++ " Days" <> "Last " ++ s).
  { intros d s Hs Heq. simpl in Heq.
    injection Heq as Heq. exact (days_label_not_named d s Hs Heq). }
  unfold get_time_period_label.
  destruct (a =? 1)%Z eqn:A1; [apply Z.eqb_eq in A1 |];
    (destruct (a =? 7)%Z eqn:A7; [apply Z.eqb_eq in A7 |]);
    (destruct (a =? 30)%Z eqn:A30; [apply Z.eqb_eq in A30 |]);
    (destruct (a =? 90)%Z eqn:A90; [apply Z.eqb_eq in A90 |]);
    (destruct (a =? 365)%Z eqn:A365; [apply Z.eqb_eq in A365 |]);
    try lia;
    (destruct (b =? 1)%Z eqn:B1; [apply Z.eqb_eq in B1 |]);
    (destruct (b =? 7)%Z eqn:B7; [apply Z.eqb_eq in B7 |]);
    (destruct (b =? 30)%Z eqn:B30; [apply Z.eqb_eq in B30 |]);
    (destruct (b =? 90)%Z eqn:B90; [apply Z.eqb_eq in B90 |]);
    (destruct (b =? 365)%Z eqn:B365; [apply Z.eqb_eq in B365 |]);
    try lia; intros H; try discriminate H;
    try (exfalso; apply (Hgen a) in H; [exact H | simpl; tauto]);
    try (exfalso; symmetry in H; apply (Hgen b) in H; [exact H | simpl; tauto]).
  simpl in H. injection H as H.
  change (pretty a ++ " Days" = pretty b ++ " Days") in H.
  apply string_append_cancel_r in H.
  apply (inj pretty) in H. exact H.
Qed.

End FormatProps.

(** ** Period-over-period change *)

Section ChangeProps.

Lemma ratio_sign_pos (c p : Q) :
  0 < p ->
  (0 < (c - p) / p * 100 <-> p < c)
  /\ ((c - p) / p * 100 < 0 <-> c < p)
  /\ ((c - p) / p * 100 == 0 <-> c == p).
Proof.
  intros Hp. set (q := (c - p) / p).
  assert (H1 : p < c -> 0 < q).
  { intros H. apply Qlt_shift_div_l; lra. }
  assert (H2 : c < p -> q < 0).
  { intros H. apply Qlt_shift_div_r; lra. }
  assert (H3 : c == p -> q == 0).
  { intros E. unfold q. rewrite E. field. lra. }
  destruct (Q_dec c p) as [[Hlt | Hgt] | Heq].
  - specialize (H2 Hlt). repeat split; intros; lra.
  - specialize (H1 Hgt). repeat split; intros; lra.
  - specialize (H3 Heq). repeat split; intros; lra.
Qed.

Lemma ratio_sign_neg (c p : Q) :
  p < 0 ->
  (0 < (c - p) / p * 100 <-> c < p)
  /\ ((c - p) / p * 100 < 0 <-> p < c).
Proof.
  intros Hp.
  assert (Hq : (c - p) / p == (p - c) / (- p)) by (field; lra).
  rewrite Hq. set (q := (p - c) / - p).
  assert (H1 : c < p -> 0 < q).
  { intros H. apply Qlt_shift_div_l; lra. }
  assert (H2 : p < c -> q < 0).
  { intros H. apply Qlt_shift_div_r; lra. }
  assert (H3 : c == p -> q == 0).
  { intros E. unfold q. rewrite E. field. lra. }
  destruct (Q_dec c p) as [[Hlt | Hgt] | Heq].
  - specialize (H1 Hlt). repeat split; intros; lra.
  - specialize (H2 Hgt). repeat split; intros; lra.
  - specialize (H3 Heq). repeat split; intros; lra.
Qed.

Lemma change_pct_nonzero (c p : Q) :
  ~ p == 0 -> change_pct c p = (c - p) / p * 100.
Proof.
  intros H. unfold change_pct.
  destruct (Qeq_bool p 0) eqn:E; [| reflexivity].
  apply Qeq_bool_iff in E. contradiction.
Qed.

Lemma change_pct_zero (c p : Q) :
  p == 0 -> change_pct c p = if Qlt_bool 0 c then 100 else 0.
Proof.
  intros H. unfold change_pct.
  apply Qeq_bool_iff in H. rewrite H. reflexivity.
Qed.

Lemma change_trend_sign (c p : Q) :
  let t := change_trend (calculate_period_over_period_change c p) in
  (t = "up"%string <-> 0 < change_pct c p)
  /\ (t = "down"%string <-> change_pct c p < 0)
  /\ (t = "stable"%string <-> change_pct c p == 0).
Proof.
  cbv zeta. unfold calculate_period_over_period_change. cbn [change_trend].
  destruct (Qlt_bool 0 (change_pct c p)) eqn:E1;
    [apply Qlt_bool_iff in E1 | apply Qlt_bool_false_iff in E1].
  - repeat split; intros H; try reflexivity; try discriminate H; lra.
  - destruct (Qlt_bool (change_pct c p) 0) eqn:E2;
      [apply Qlt_bool_iff in E2 | apply Qlt_bool_false_iff in E2];
      repeat split; intros H; try reflexivity; try discriminate H; lra.
Qed.

(** X23: The trend reported by [calculate_period_over_period_change]
    follows the direction of the change only for a positive previous
    value: then it is up, down or stable as the current value is above,
    below or equal to the previous one. For a negative previous value the
    trend is inverted (a rise is reported as down). For a previous value of
    zero the trend is never down: a positive current value is up with 100
    percent, and a negative current value is reported as stable with 0
    percent although the absolute change is negative. *)
Theorem period_change_trend (current previous : Q) :
  let c := calculate_period_over_period_change current previous in
  (0 < previous ->
   (change_trend c = "up"%string <-> previous < current)
   /\ (change_trend c = "down"%string <-> current < previous)
   /\ (change_trend c = "stable"%string <-> current == previous))
  /\ (previous < 0 ->
      (change_trend c = "up"%string <-> current < previous)
      /\ (change_trend c = "down"%string <-> previous < current))
  /\ (previous == 0 ->
      change_trend c <> "down"%string
      /\ (change_trend c = "up"%string <-> 0 < current)
      /\ (0 < current -> change_percent c == 100)
      /\ (current < 0 ->
          change_trend c = "stable"%string
          /\ change_percent c == 0 /\ change_absolute c < 0)).
Proof.
  cbv zeta.
  destruct (change_trend_sign current previous) as [Hup [Hdown Hstable]].
  split; [| split].
  - intros Hp. rewrite Hup, Hdown, Hstable.
    rewrite change_pct_nonzero by lra.
    destruct (ratio_sign_pos current previous Hp) as [H1 [H2 H3]].
    split; [exact H1 | split; [exact H2 | exact H3]].
  - intros Hp. rewrite Hup, Hdown.
    rewrite change_pct_nonzero by lra.
    destruct (ratio_sign_neg current previous Hp) as [H1 H2].
    split; [exact H1 | exact H2].
  - intros Hp. rewrite Hup, Hdown, Hstable.
    unfold calculate_period_over_period_change.
    cbn [change_percent change_absolute].
    rewrite (change_pct_zero current previous Hp).
    destruct (Qlt_bool 0 current) eqn:E;
      [apply Qlt_bool_iff in E | apply Qlt_bool_false_iff in E].
    + split; [lra | split; [split; intros; lra | split]].
      * intros _. reflexivity.
      * intros H. lra.
    + split; [lra | split; [split; intros; lra | split]].
      * intros H. lra.
      * intros H. split; [reflexivity | split; [reflexivity | lra]].
Qed.


End ChangeProps.

(** ** The performance monitor *)

Section MonitorProps.

Import PerformanceMonitor.

Context {St V : Type}.

Lemma track_spec (name : string) (func : St -> py_result V exn * St)
    (metrics : list Metric) (s : St) (w : World) :
  clock_ok w ->
  exists w',
    clock_ok w'
    /\ match func s with
       | (Returned v, s') =>
           exists m,
             track name func metrics s w
             = (Returned v, metrics ++ [m], s', w')
             /\ function m = name /\ 0 <= execution_time m
       | (Raised e, s') =>
           track name func metrics s w = (Raised e, metrics, s', w')
       end.
Proof.
  intros Hok. unfold track.
  destruct (time_time_spec w Hok) as [Hle1 [Ht1 [Hok1 _]]].
  destruct (time_time w) as [start w1]. simpl in Hle1, Ht1, Hok1.
  destruct (func s) as [[v | e] s'].
  - destruct (time_time_spec w1 Hok1) as [Hle2 [Ht2 [Hok2 _]]].
    destruct (time_time w1) as [finish w2]. simpl in Hle2, Ht2, Hok2.
    destruct (time_time_spec w2 Hok2) as [_ [_ [Hok3 _]]].
    destruct (time_time w2) as [now w3]. simpl in Hok3.
    exists w3. split; [exact Hok3 |].
    eexists. split; [reflexivity |]. split; [reflexivity |].
    cbn [execution_time]. rewrite Ht1 in Hle2. lra.
  - exists w1. split; [exact Hok1 | reflexivity].
Qed.

(** X25: A function wrapped by [PerformanceMonitor.track] leaves a metric
    only when it returns: a call that raises is not recorded at all. After
    a series of tracked calls the list of metrics has grown by exactly the
    number of calls that returned; the earlier entries are untouched, and
    every new entry carries the name of one of the tracked functions and,
    on a clock that does not run backwards, a nonnegative execution
    time. *)
Theorem track_records_returns_only
    (calls : list (string * (St -> py_result V exn * St)))
    (metrics : list Metric) (s : St) (w : World) :
  clock_ok w ->
  exists added,
    fst (fst (track_all calls metrics s w)) = metrics ++ added
    /\ length added = returned_calls calls s
    /\ Forall (fun m => In (function m) (map fst calls)
                        /\ 0 <= execution_time m) added.
Proof.
  revert metrics s w.
  induction calls as [| [name func] rest IH]; intros metrics s w Hok.
  - exists []. simpl. split; [symmetry; apply app_nil_r |].
    split; [reflexivity | apply List.Forall_nil].
  - destruct (track_spec name func metrics s w Hok) as [w' [Hok' Hcase]].
    cbn [track_all returned_calls].
    destruct (func s) as [[v | e] s'].
    + destruct Hcase as [m [Htrack [Hname Htime]]].
      rewrite Htrack.
      destruct (IH (metrics ++ [m]) s' w' Hok') as [added [Heq [Hlen Hall]]].
      exists (m :: added).
      split; [rewrite Heq, <- app_assoc; reflexivity |].
      split; [simpl; rewrite Hlen; reflexivity |].
      apply List.Forall_cons.
      * split; [left; symmetry; exact Hname | exact Htime].
      * eapply List.Forall_impl; [| exact Hall].
        intros m' [Hin Ht]. split; [right; exact Hin | exact Ht].
    + rewrite Hcase.
      destruct (IH metrics s' w' Hok') as [added [Heq [Hlen Hall]]].
      exists added.
      split; [exact Heq |]. split; [exact Hlen |].
      eapply List.Forall_impl; [| exact Hall].
      intros m' [Hin Ht]. split; [right; exact Hin | exact Ht].
Qed.

End MonitorProps.

(** ** The session state *)

Section SessionProps.

Import DashboardState.

(** X26: [init_session_state] only fills in what is missing: every key
    that is already in the session keeps its value, the clock is read only
    when [last_refresh] is missing, and a second call changes nothing.
    Once it has run, [should_refresh] cannot raise for a missing key, and
    in a session where [auto_refresh] had not been set it answers False
    without reading the clock. *)
Theorem init_session_state_fills_missing (st : SessionState) (w : World) :
  let st1 := fst (init_session_state st w) in
  let w1 := snd (init_session_state st w) in
  init_session_state st1 w1 = (st1, w1)
  /\ (forall t, last_refresh st = Some t ->
                last_refresh st1 = Some t /\ w1 = w)
  /\ (forall d, selected_period st = Some d -> selected_period st1 = Some d)
  /\ (forall b, auto_refresh st = Some b -> auto_refresh st1 = Some b)
  /\ (forall b, performance_mode st = Some b ->
                performance_mode st1 = Some b)
  /\ (forall i, exists b w2, should_refresh i st1 w1 = (Returned b, w2))
  /\ (auto_refresh st = None ->
      forall i, should_refresh i st1 w1 = (Returned false, w1)).
Proof.
  cbv zeta. unfold init_session_state.
  destruct st as [lr sp ar pm]. cbn [last_refresh selected_period
    auto_refresh performance_mode].
  destruct lr as [t |].
  - cbn [fst snd last_refresh selected_period auto_refresh performance_mode
         default].
    split; [reflexivity |].
    split; [intros t' H; injection H as <-; split; reflexivity |].
    split; [intros d H; rewrite H; reflexivity |].
    split; [intros b H; rewrite H; reflexivity |].
    split; [intros b H; rewrite H; reflexivity |].
    split.
    + intros i. unfold should_refresh.
      cbn [auto_refresh last_refresh].
      destruct (default false ar).
      * destruct (time_time w) as [now w2]. eexists. eexists. reflexivity.
      * eexists. eexists. reflexivity.
    + intros H i. rewrite H. reflexivity.
  - destruct (time_time w) as [now w1].
    cbn [fst snd last_refresh selected_period auto_refresh performance_mode
         default].
    split; [reflexivity |].
    split; [intros t' H; discriminate H |].
    split; [intros d H; rewrite H; reflexivity |].
    split; [intros b H; rewrite H; reflexivity |].
    split; [intros b H; rewrite H; reflexivity |].
    split.
    + intros i. unfold should_refresh.
      cbn [auto_refresh last_refresh].
      destruct (default false ar).
      * destruct (time_time w1) as [now' w2]. eexists. eexists. reflexivity.
      * eexists. eexists. reflexivity.
    + intros H i. rewrite H. reflexivity.
Qed.

(** X27: With [auto_refresh] on, [should_refresh] asked right after
    [update_refresh_time] compares the time that passed between the two
    clock reads with the interval: on a clock that does not run backwards
    it answers True for every negative interval, and for a nonnegative
    interval it answers False when no time has passed. Before
    [auto_refresh] is set at all, [should_refresh] raises. *)
Theorem should_refresh_after_update (i : Z) (st : SessionState) (w : World) :
  clock_ok w -> auto_refresh st = Some true ->
  let st1 := fst (update_refresh_time st w) in
  let w1 := snd (update_refresh_time st w) in
  exists elapsed,
    0 <= elapsed
    /\ fst (time_time w1) == w_time w1 + elapsed
    /\ fst (should_refresh i st1 w1)
       = Returned (Qlt_bool (inject_Z (i * 60)) elapsed)
    /\ ((i < 0)%Z -> fst (should_refresh i st1 w1) = Returned true)
    /\ ((0 <= i)%Z -> w_jitter w1 = [] ->
        fst (should_refresh i st1 w1) = Returned false)
    /\ (forall st0, auto_refresh st0 = None ->
                    fst (should_refresh i st0 w1) = Raised AttributeError).
Proof.
  intros Hok Hauto. cbv zeta. unfold update_refresh_time.
  destruct (time_time_spec w Hok) as [_ [Ht1 [Hok1 _]]].
  destruct (time_time w) as [now w1]. simpl in Ht1, Hok1.
  cbn [fst snd]. unfold should_refresh.
  cbn [auto_refresh last_refresh]. rewrite Hauto.
  destruct (time_time_spec w1 Hok1) as [Hle2 _].
  assert (Hstill : w_jitter w1 = [] -> fst (time_time w1) = w_time w1).
  { intros H. unfold time_time. rewrite H. reflexivity. }
  destruct (time_time w1) as [now' w2]. simpl in Hle2, Hstill.
  cbn [fst]. rewrite Ht1 in Hle2, Hstill |- *.
  assert (Hi : inject_Z (i * 60) == inject_Z i * 60).
  { rewrite inject_Z_mult. reflexivity. }
  exists (now' - now).
  split; [lra |]. split; [lra |]. split; [reflexivity |].
  split; [| split].
  - intros Hneg. f_equal. apply Qlt_bool_iff.
    assert (H : inject_Z i < inject_Z 0) by (rewrite <- Zlt_Qlt; exact Hneg).
    change (inject_Z 0) with 0 in H. lra.
  - intros Hpos Hj. f_equal. apply Qlt_bool_false_iff.
    assert (H : inject_Z 0 <= inject_Z i) by (rewrite <- Zle_Qle; exact Hpos).
    change (inject_Z 0) with 0 in H. rewrite (Hstill Hj) in *. lra.
  - intros st0 H0. rewrite H0. reflexivity.
Qed.

End SessionProps.

(** ** Growth over two periods *)

Section GrowthProps.

Import Dashboard.

Lemma count_where_split (p q r : Q -> bool) (created : list (option Q)) :
  (forall t, r t = p t || q t) ->
  (forall t, p t && q t = false) ->
  (count_where p created + count_where q created = count_where r created)%Z.
Proof.
  intros Hr Hpq. unfold count_where.
  induction created as [| [t |] rest IH]; simpl; [reflexivity | | exact IH].
  specialize (Hr t). specialize (Hpq t).
  destruct (p t), (q t), (r t); simpl in *; try discriminate; lia.
Qed.

Lemma count_where_nonneg (p : Q -> bool) (created : list (option Q)) :
  (0 <= count_where p created)%Z.
Proof. unfold count_where. lia. Qed.

(** X28: [calculate_period_growth] counts no row twice: whenever the
    current period is not longer than the look-back ([days_current <=
    days_previous]), the current and the previous count add up to the
    number of rows created since the start of the previous period, rows
    dated in the future included (they count as current). The growth rate
    is never below -100, and it is -100 exactly when the current period is
    empty and the previous one is not; with an empty previous period it is
    100 or 0, however many rows the current period has. *)
Theorem period_growth_windows (now : Q) (created : list (option Q))
    (days_current days_previous : Q) :
  days_current <= days_previous ->
  let g := calculate_period_growth now created days_current days_previous in
  (growth_current g + growth_previous g
   = count_where
       (fun t => Qle_bool (now - Timedelta_days days_previous) t) created)%Z
  /\ (0 <= growth_current g)%Z /\ (0 <= growth_previous g)%Z
  /\ -100 <= growth_rate g
  /\ (growth_rate g == -100
      <-> growth_current g = 0%Z /\ (0 < growth_previous g)%Z)
  /\ (growth_previous g = 0%Z ->
      growth_rate g = if (0 <? growth_current g)%Z then 100 else 0).
Proof.
  intros Hdays. cbv zeta. unfold calculate_period_growth.
  cbn [growth_current growth_previous growth_rate].
  set (cur := count_where _ created).
  set (prev := count_where
                 (fun t => Qle_bool (now - Timedelta_days days_previous) t
                           && Qlt_bool t (now - Timedelta_days days_current))
                 created).
  assert (Hc : (0 <= cur)%Z) by apply count_where_nonneg.
  assert (Hp : (0 <= prev)%Z) by apply count_where_nonneg.
  split; [| split; [exact Hc | split; [exact Hp |]]].
  - apply count_where_split.
    + intros t. unfold Timedelta_days.
      destruct (Qle_bool (now - days_current * 86400) t) eqn:E1.
      * apply Qle_bool_iff in E1. simpl.
        apply Qle_bool_iff. lra.
      * simpl. unfold Qlt_bool. rewrite E1. simpl.
        rewrite andb_true_r. reflexivity.
    + intros t. unfold Qlt_bool.
      destruct (Qle_bool (now - Timedelta_days days_current) t);
        simpl; [apply andb_false_r | reflexivity].
  - destruct (0 <? prev)%Z eqn:Eprev.
    + apply Z.ltb_lt in Eprev.
      assert (HpQ : 0 < inject_Z prev).
      { change 0 with (inject_Z 0). rewrite <- Zlt_Qlt. exact Eprev. }
      assert (HcQ : 0 <= inject_Z cur).
      { change 0 with (inject_Z 0). rewrite <- Zle_Qle. exact Hc. }
      assert (Hsub : inject_Z (cur - prev) == inject_Z cur - inject_Z prev).
      { unfold Z.sub. rewrite inject_Z_plus, inject_Z_opp. reflexivity. }
      set (q := inject_Z (cur - prev) / inject_Z prev).
      assert (Hq : -1 <= q).
      { apply Qle_shift_div_l; [exact HpQ |]. rewrite Hsub. lra. }
      assert (Hzero : cur = 0%Z -> q == -1).
      { intros ->. unfold q. rewrite Hsub. change (inject_Z 0) with 0.
        field. lra. }
      assert (Hpos : (0 < cur)%Z -> -1 < q).
      { intros H. apply Qlt_shift_div_l; [exact HpQ |]. rewrite Hsub.
        assert (0 < inject_Z cur).
        { change 0 with (inject_Z 0). rewrite <- Zlt_Qlt. exact H. }
        lra. }
      split; [lra | split].
      * split.
        -- intros H. split; [| exact Eprev].
           destruct (Z.eq_dec cur 0%Z) as [E | E]; [exact E |].
           assert (Hlt : (0 < cur)%Z) by lia.
           specialize (Hpos Hlt). lra.
        -- intros [H _]. specialize (Hzero H). lra.
      * intros H. lia.
    + apply Z.ltb_ge in Eprev.
      destruct (0 <? cur)%Z eqn:Ecur.
      * split; [lra | split].
        -- split; [intros H; lra | intros [_ H]; lia].
        -- intros _. reflexivity.
      * split; [lra | split].
        -- split; [intros H; lra | intros [_ H]; lia].
        -- intros _. reflexivity.
Qed.

End GrowthProps.

(** ** Further worked instances *)

Section MoreInstances.

Import SupabaseManager.


Lemma sample_manager_connected : connected sample_manager.
Proof.
  eexists. eexists.
  split; [vm_compute; reflexivity |].
  split; [vm_compute; reflexivity |].
  split; [vm_compute; reflexivity |].
  split; [vm_compute; reflexivity |].
  split; [vm_compute; reflexivity |].
  split; [vm_compute; reflexivity |].
  eexists. vm_compute. reflexivity.
Defined.

(** A limiter built with a rate of -1. *)
Lemma limiter_nonpositive_rate_witness :
  -1 < 0
  /\ RateLimiter.init 0 = Raised ZeroDivisionError
  /\ RateLimiter.init (-1) = Returned (RateLimiter.fresh (-1))
  /\ (exists w',
        RateLimiter.wait_if_needed (RateLimiter.fresh (-1)) still_world
        = (Raised IndexError, RateLimiter.fresh (-1), w'))
  /\ exists w',
       RateLimiter.calls 3 (RateLimiter.fresh (-1)) still_world []
       = (RateLimiter.fresh (-1), w', []).
Proof.
  split; [reflexivity |].
  exact (limiter_nonpositive_rate (-1) still_world 3 eq_refl).
Defined.





(** The production manager, closed and then asked for again. *)
Lemma test_connection_after_close_witness :
  _instance sample_py = Some O /\ heap sample_py !! O = Some sample_manager
  /\ initialized sample_manager = true
  /\ construct DEVELOPMENT (close_at O sample_py) prod_world
     = (Returned O, close_at O sample_py, prod_world)
  /\ test_connection DEVELOPMENT (close_at O sample_py) prod_world
     = (Some false, close_at O sample_py, prod_world).
Proof.
  assert (H1 : _instance sample_py = Some O) by (vm_compute; reflexivity).
  assert (H2 : heap sample_py !! O = Some sample_manager)
    by (vm_compute; reflexivity).
  assert (H3 : initialized sample_manager = true) by (vm_compute; reflexivity).
  split; [exact H1 |]. split; [exact H2 |]. split; [exact H3 |].
  exact (test_connection_after_close DEVELOPMENT sample_py prod_world O
           sample_manager H1 H2 H3 sample_manager_connected).
Defined.

(** The first construction in [prod_world] connects, and so the test
    passes. *)
Lemma test_connection_tracks_construction_witness :
  runs_body empty_py = true
  /\ fst (fst (test_connection PRODUCTION empty_py prod_world))
     = match fst (fst (construct PRODUCTION empty_py prod_world)) with
       | Returned _ => Some true
       | Raised _ => Some false
       end.
Proof.
  split; [reflexivity |].
  destruct (construct PRODUCTION empty_py prod_world) as [[r py1] w1] eqn:E.
  exact (test_connection_tracks_construction PRODUCTION empty_py prod_world
           eq_refl r py1 w1 E).
Defined.

Lemma get_status_reads_before_check_witness :
  ConnectionPool.last_health_check sample_pool = None
  /\ exists st self' w',
       ConnectionPool.get_status sample_pool prod_world = (st, self', w')
       /\ ConnectionPool.status_value st = ConnectionPool.status sample_pool
       /\ ConnectionPool.last_check st = None
       /\ ConnectionPool.status_failed_attempts st
          = ConnectionPool.failed_attempts sample_pool
       /\ ConnectionPool.status_is_healthy st = Some true
       /\ ConnectionPool.status self' = CONNECTED
       /\ ConnectionPool.last_health_check self'
          = Some (fst (time_time prod_world)).
Proof.
  split; [reflexivity |].
  exact (get_status_reads_before_check sample_pool prod_world eq_refl eq_refl
           eq_refl).
Defined.

(** A check at 100.1 answers the next question, asked at the same
    instant, from the cache. *)
Lemma health_check_cached_witness :
  fst (fst (ConnectionPool.perform_health_check sample_pool prod_world))
  = Some true
  /\ ConnectionPool.is_healthy
       (snd (fst (ConnectionPool.perform_health_check sample_pool prod_world)))
       (snd (ConnectionPool.perform_health_check sample_pool prod_world))
     = (Some true,
        snd (fst (ConnectionPool.perform_health_check sample_pool prod_world)),
        snd (time_time
               (snd (ConnectionPool.perform_health_check sample_pool
                       prod_world)))).
Proof.
  split; [vm_compute; reflexivity |].
  refine (proj1 (health_check_cached sample_pool prod_world
                   (snd (fst (ConnectionPool.perform_health_check sample_pool
                                prod_world)))
                   (snd (ConnectionPool.perform_health_check sample_pool
                           prod_world))
                   (snd (ConnectionPool.perform_health_check sample_pool
                           prod_world))
                   (1001 # 10) _ _ _)).
  - vm_compute. reflexivity.
  - vm_compute. reflexivity.
  - vm_compute. discriminate.
Defined.

(** Seven checks without the supabase package. *)
Lemma failing_checks_accumulate_witness :
  w_import_error no_supabase_world = Some ImportError
  /\ exists self',
       ConnectionPool.is_healthy_times 7 sample_pool no_supabase_world
       = (repeat (Some false) 7, self', no_supabase_world)
       /\ ConnectionPool.failed_attempts self' = 7%Z
       /\ ConnectionPool.max_failed_attempts self' = 5%Z.
Proof.
  split; [reflexivity |].
  destruct (failing_checks_accumulate sample_pool no_supabase_world
              ImportError 7 eq_refl eq_refl)
    as (self' & Hrun & Hfailed & _ & Hmax & _).
  exists self'. split; [exact Hrun |].
  split; [rewrite Hfailed; reflexivity | rewrite Hmax; reflexivity].
Defined.

Lemma success_rate_range_witness :
  (0 <= query_errors sample_manager)%Z
  /\ success_rate_of sample_manager <= 100.
Proof.
  assert (H : (0 <= query_errors sample_manager)%Z) by (vm_compute; discriminate).
  split; [exact H |].
  exact (proj1 (success_rate_range sample_manager H)).
Defined.

(** [flaky] in production: three attempts, one counted as a query and two
    as errors. *)
Lemma execute_counts_every_attempt_witness :
  ready sample_manager /\ (0 < max_retries_of sample_manager)%nat
  /\ exists c : nat,
       (1 <= c <= max_retries_of sample_manager)%nat
       /\ snd (fst (execute_with_retry sample_manager flaky O prod_world))
          = state_after flaky O c
       /\ (query_count
             (snd (fst (fst (execute_with_retry sample_manager flaky O
                               prod_world))))
           + query_errors
               (snd (fst (fst (execute_with_retry sample_manager flaky O
                                 prod_world))))
           = query_count sample_manager + query_errors sample_manager
             + Z.of_nat c)%Z.
Proof.
  destruct sample_manager_ready as [Hready Hm].
  split; [exact Hready |]. split; [exact Hm |].
  destruct (execute_with_retry sample_manager flaky O prod_world)
    as [[[r self'] s'] w'] eqn:E.
  destruct (execute_counts_every_attempt flaky sample_manager O prod_world
              Hready Hm r self' s' w' E) as (c & Hc & Hs & Hsum & _).
  exists c. split; [exact Hc |]. split; [exact Hs | exact Hsum].
Defined.

(** [broken] in production: the sleeps sum to at most 1.5 seconds. *)
Lemma retry_sleep_budget_witness :
  ready sample_manager /\ (0 < max_retries_of sample_manager)%nat
  /\ exists k : nat,
       (k <= max_retries_of sample_manager - 1)%nat
       /\ retry_delays
            (w_sleeps (snd (execute_with_retry sample_manager broken O
                              prod_world)))
          = retry_delays (w_sleeps prod_world) ++ backoff (1 # 2) k
       /\ total (backoff (1 # 2) k)
          <= (inject_Z (2 ^ Z.of_nat (max_retries_of sample_manager - 1)) - 1)
             / 2.
Proof.
  destruct sample_manager_ready as [Hready Hm].
  split; [exact Hready |]. split; [exact Hm |].
  destruct (execute_with_retry sample_manager broken O prod_world)
    as [[[r self'] s'] w'] eqn:E.
  destruct (retry_sleep_budget broken sample_manager O prod_world
              Hready Hm r self' s' w' E) as (k & Hk & Hd & _ & Hb).
  exists k. split; [exact Hk |]. split; [exact Hd | exact Hb].
Defined.

Lemma metrics_after_reset_witness :
  ready sample_manager /\ clock_ok prod_world
  /\ exists metrics self2 w2,
       get_metrics (fst (reset_metrics sample_manager prod_world))
         (snd (reset_metrics sample_manager prod_world))
       = (Returned metrics, self2, w2)
       /\ total_queries metrics = 0%Z /\ failed_queries metrics = 0%Z
       /\ success_rate metrics = 0 /\ 0 <= uptime_seconds metrics.
Proof.
  destruct sample_manager_ready as [Hready _].
  split; [exact Hready |]. split; [exact prod_world_clock_ok |].
  destruct (reset_metrics sample_manager prod_world) as [self1 w1] eqn:E.
  exact (metrics_after_reset sample_manager prod_world Hready
           prod_world_clock_ok self1 w1 E).
Defined.


(** Three tracked calls of [flaky]: two raise, the third is recorded. *)
Lemma track_records_returns_only_witness :
  clock_ok prod_world
  /\ exists added,
       fst (fst (PerformanceMonitor.track_all
                   [("flaky"%string, flaky); ("flaky"%string, flaky);
                    ("flaky"%string, flaky)] [] O prod_world))
       = [] ++ added
       /\ length added = 1%nat.
Proof.
  split; [exact prod_world_clock_ok |].
  destruct (track_records_returns_only
              [("flaky"%string, flaky); ("flaky"%string, flaky);
               ("flaky"%string, flaky)] [] O prod_world prod_world_clock_ok)
    as (added & Heq & Hlen & _).
  exists added. split; [exact Heq | exact Hlen].
Defined.

(** Five minutes have not passed between two reads a quarter of a second
    apart. *)
Lemma should_refresh_after_update_witness :
  clock_ok prod_world
  /\ DashboardState.auto_refresh sample_session = Some true
  /\ exists elapsed,
       0 <= elapsed
       /\ fst (DashboardState.should_refresh 5
                 (fst (DashboardState.update_refresh_time sample_session
                         prod_world))
                 (snd (DashboardState.update_refresh_time sample_session
                         prod_world)))
          = Returned (Qlt_bool (inject_Z (5 * 60)) elapsed).
Proof.
  split; [exact prod_world_clock_ok |]. split; [reflexivity |].
  destruct (should_refresh_after_update 5 sample_session prod_world
              prod_world_clock_ok eq_refl) as (elapsed & H0 & _ & Hr & _).
  exists elapsed. split; [exact H0 | exact Hr].
Defined.

(** Week over week at day 100: two rows in the current week (one of them
    dated tomorrow), one in the week before. *)
Lemma period_growth_windows_witness :
  7 <= 14
  /\ (Dashboard.growth_current
        (Dashboard.calculate_period_growth (100 * 86400) sample_created 7 14)
      + Dashboard.growth_previous
          (Dashboard.calculate_period_growth (100 * 86400) sample_created 7 14)
      = 3)%Z
  /\ -100 <= Dashboard.growth_rate
               (Dashboard.calculate_period_growth (100 * 86400) sample_created
                  7 14).
Proof.
  split; [discriminate |].
  destruct (period_growth_windows (100 * 86400) sample_created 7 14
              ltac:(discriminate)) as (Hsum & _ & _ & Hrate & _).
  split; [rewrite Hsum; vm_compute; reflexivity | exact Hrate].
Defined.

(** A period of 45 days and its label. *)
Lemma get_time_period_label_injective_witness :
  get_time_period_label 45 = "Last 45 Days"%string
  /\ get_time_period_label 45 = get_time_period_label (50 - 5)
  /\ 45%Z = (50 - 5)%Z.
Proof.
  split; [vm_compute; reflexivity |].
  split; [vm_compute; reflexivity |].
  apply (get_time_period_label_injective 45 (50 - 5)).
  vm_compute. reflexivity.
Defined.

End MoreInstances.
